(** * MOLIT press-release notifier: a shallow embedding and its properties

    The repository holds two scripts, [.github/workflows/molit_bot_now.py]
    and [.github/workflows/molit_bot.py].  Both page through the ministry's
    press-release listing for three categories, resolve every candidate row
    to the time stamp of its detail page, keep what lies in the last 24
    hours and post a digest to a Telegram channel; [molit_bot_now.py] also
    keeps a file of links it has already delivered.

    The embedding models
    - Python [str] as a list of code points,
    - aware [datetime] values of one fixed zone as a count of microseconds
      on that zone's wall clock, [date] values as proleptic ordinals,
    - a parsed document as a tree of tags and strings,
    - network, clock, environment and file system as a [World] record (what
      the outside answers) and a [state] (what the run has done so far),
    - exceptions as the [Raise] outcome of a state-and-error monad. *)

From Stdlib Require Import ZArith List String Ascii Bool Lia Permutation Sorted.
Import ListNotations.
Open Scope Z_scope.
Set Warnings "-register-all".

(** ** Python strings *)

(** A [str] is a sequence of Unicode code points. *)
Definition pystr := list Z.

(** Decoding of the UTF-8 bytes of a literal of this file. *)
Fixpoint utf8_decode (bs : list Z) : pystr :=
  match bs with
  | [] => []
  | b :: r =>
      if b <? 128 then b :: utf8_decode r
      else if b <? 224 then
        match r with
        | c1 :: r1 => ((b - 192) * 64 + (c1 - 128)) :: utf8_decode r1
        | _ => []
        end
      else if b <? 240 then
        match r with
        | c1 :: c2 :: r2 =>
            ((b - 224) * 4096 + (c1 - 128) * 64 + (c2 - 128)) :: utf8_decode r2
        | _ => []
        end
      else
        match r with
        | c1 :: c2 :: c3 :: r3 =>
            ((b - 240) * 262144 + (c1 - 128) * 4096 + (c2 - 128) * 64 + (c3 - 128))
              :: utf8_decode r3
        | _ => []
        end
  end.

Definition py (s : string) : pystr :=
  utf8_decode (map (fun c => Z.of_N (N_of_ascii c)) (list_ascii_of_string s)).

Definition len {A} (l : list A) : Z := Z.of_nat (List.length l).

Fixpoint str_eqb (a b : pystr) : bool :=
  match a, b with
  | [], [] => true
  | x :: a', y :: b' => (x =? y) && str_eqb a' b'
  | _, _ => false
  end.

(** [s.startswith(p)], returning what follows the prefix. *)
Fixpoint strip_prefix (p s : pystr) : option pystr :=
  match p, s with
  | [], _ => Some s
  | x :: p', y :: s' => if x =? y then strip_prefix p' s' else None
  | _ :: _, [] => None
  end.

(** [sub in s]. *)
Fixpoint contains (sub s : pystr) : bool :=
  match strip_prefix sub s with
  | Some _ => true
  | None => match s with [] => false | _ :: s' => contains sub s' end
  end.

(** [sep.join(parts)]. *)
Fixpoint join (sep : pystr) (parts : list pystr) : pystr :=
  match parts with
  | [] => []
  | [p] => p
  | p :: rest => p ++ sep ++ join sep rest
  end.

(** [str.isspace] on one code point; the regular-expression class [\s] on
    [str] patterns is the same set. *)
Definition isspace (c : Z) : bool :=
  ((9 <=? c) && (c <=? 13)) || ((28 <=? c) && (c <=? 32))
  || (c =? 133) || (c =? 160) || (c =? 5760)
  || ((8192 <=? c) && (c <=? 8202))
  || (c =? 8232) || (c =? 8233) || (c =? 8239) || (c =? 8287) || (c =? 12288).

Fixpoint lstrip (s : pystr) : pystr :=
  match s with
  | c :: s' => if isspace c then lstrip s' else s
  | [] => []
  end.

Definition rstrip (s : pystr) : pystr := rev (lstrip (rev s)).

Definition strip (s : pystr) : pystr := rstrip (lstrip s).

(** [s.split()]: the maximal runs of non-space characters. *)
Fixpoint split_ws_aux (cur : pystr) (s : pystr) : list pystr :=
  match s with
  | [] => match cur with [] => [] | _ => [rev cur] end
  | c :: s' =>
      if isspace c
      then match cur with [] => split_ws_aux [] s' | _ => rev cur :: split_ws_aux [] s' end
      else split_ws_aux (c :: cur) s'
  end.

Definition split_ws (s : pystr) : list pystr := split_ws_aux [] s.

(** [re.sub(r"\s+", " ", s)]: every maximal run of white space becomes one
    space. *)
Fixpoint collapse_ws_aux (in_run : bool) (s : pystr) : pystr :=
  match s with
  | [] => []
  | c :: s' =>
      if isspace c
      then (if in_run then collapse_ws_aux true s' else 32 :: collapse_ws_aux true s')
      else c :: collapse_ws_aux false s'
  end.

Definition collapse_ws (s : pystr) : pystr := collapse_ws_aux false s.

(** ** Exceptions *)

(** The exceptions the scripts can meet; every one of them derives from
    [Exception], so [except Exception] catches them all. *)
Inductive exn : Type :=
| ConnectionError        (* requests: no answer (refused, DNS, timeout) *)
| HTTPError (status : Z) (* raise_for_status on a 4xx or 5xx answer *)
| ValueError
| RuntimeError
| TypeError
| AttributeError
| KeyError
| OSError
| JSONDecodeError.

Inductive result (A : Type) : Type :=
| Ok (a : A)
| Raise (e : exn).
Arguments Ok {A} a.
Arguments Raise {A} e.

(** ** Dates and times

    [date] is [date.toordinal()]: day 1 is 0001-01-01.  A [datetime] of the
    fixed zone Asia/Seoul is [ordinal * DAY_US + microseconds into the day]
    on that zone's wall clock; two aware values with the same [tzinfo] are
    compared and subtracted on the wall clock, which is what [<=?] and [-]
    on these numbers do.  Python's range check (years 1 to 9999) on the
    result of [datetime - timedelta] is not modelled. *)
Definition date := Z.
Definition datetime := Z.

Definition DAY_US : Z := 86400000000.

Definition timedelta (days hours : Z) : Z := days * DAY_US + hours * 3600000000.

(** [dt.date()]. *)
Definition date_of (dt : datetime) : date := dt / DAY_US.

Definition is_leap (y : Z) : bool :=
  (y mod 4 =? 0) && (negb (y mod 100 =? 0) || (y mod 400 =? 0)).

Definition DAYS_IN_MONTH : list Z := [0; 31; 28; 31; 30; 31; 30; 31; 31; 30; 31; 30; 31].

Definition DAYS_BEFORE_MONTH : list Z :=
  [0; 0; 31; 59; 90; 120; 151; 181; 212; 243; 273; 304; 334].

Definition days_in_month (y m : Z) : Z :=
  if (m =? 2) && is_leap y then 29 else nth (Z.to_nat m) DAYS_IN_MONTH 0.

Definition days_before_year (y : Z) : Z :=
  let y1 := y - 1 in y1 * 365 + y1 / 4 - y1 / 100 + y1 / 400.

Definition days_before_month (y m : Z) : Z :=
  nth (Z.to_nat m) DAYS_BEFORE_MONTH 0 + (if (2 <? m) && is_leap y then 1 else 0).

Definition ymd2ord (y m d : Z) : date :=
  days_before_year y + days_before_month y m + d.

(** [date(y, m, d)], [None] for the [ValueError] of an impossible date. *)
Definition make_date (y m d : Z) : option date :=
  if (1 <=? y) && (y <=? 9999) && (1 <=? m) && (m <=? 12)
     && (1 <=? d) && (d <=? days_in_month y m)
  then Some (ymd2ord y m d) else None.

(** [datetime(y, m, d, hh, mm)] in the fixed zone. *)
Definition make_datetime (y m d hh mm : Z) : option datetime :=
  match make_date y m d with
  | Some o =>
      if (0 <=? hh) && (hh <=? 23) && (0 <=? mm) && (mm <=? 59)
      then Some (o * DAY_US + (hh * 3600 + mm * 60) * 1000000) else None
  | None => None
  end.

(** The inverse of [ymd2ord], as the [datetime] module computes it. *)
Definition ord2ymd (n0 : Z) : Z * Z * Z :=
  let n := n0 - 1 in
  let n400 := n / 146097 in let n := n mod 146097 in
  let n100 := n / 36524 in let n := n mod 36524 in
  let n4 := n / 1461 in let n := n mod 1461 in
  let n1 := n / 365 in let n := n mod 365 in
  let year := n400 * 400 + 1 + n100 * 100 + n4 * 4 + n1 in
  if (n1 =? 4) || (n100 =? 4) then (year - 1, 12, 31)
  else
    let leapyear := (n1 =? 3) && (negb (n4 =? 24) || (n100 =? 3)) in
    let month := (n + 50) / 32 in
    let preceding :=
      nth (Z.to_nat month) DAYS_BEFORE_MONTH 0
      + (if (2 <? month) && leapyear then 1 else 0) in
    if n <? preceding
    then
      let month' := month - 1 in
      let preceding' :=
        preceding - (nth (Z.to_nat month') DAYS_IN_MONTH 0
                     + (if (month' =? 2) && leapyear then 1 else 0)) in
      (year, month', n - preceding' + 1)
    else (year, month, n - preceding + 1).

Definition digit (n : Z) : Z := 48 + n mod 10.

Definition digits2 (n : Z) : pystr := [digit (n / 10); digit n].

Definition digits4 (n : Z) : pystr :=
  [digit (n / 1000); digit (n / 100); digit (n / 10); digit n].

(** [format(dt, "%Y-%m-%d %H:%M")], for the years 1000 to 9999. *)
Definition strftime (dt : datetime) : pystr :=
  let '(y, m, d) := ord2ymd (date_of dt) in
  let secs := (dt mod DAY_US) / 1000000 in
  digits4 y ++ [45] ++ digits2 m ++ [45] ++ digits2 d ++ [32]
    ++ digits2 (secs / 3600) ++ [58] ++ digits2 ((secs / 60) mod 60).

(** *** [datetime.strptime]

    [strptime] turns its format into a regular expression, one group per
    directive, matches it at the start of the string, wants the match to
    end where the string ends and then builds the value.  The pieces below
    are the directive expressions of [_strptime.py]; alternatives are tried
    in order and a later piece that fails sends the matcher back to the
    next alternative. *)

(** Code points of the decimal digits zero; [\d] on a [str] pattern is any
    of the ten code points that start at one of them (Unicode 14). *)
Definition DECIMAL_ZEROS : list Z :=
  [48; 1632; 1776; 1984; 2406; 2534; 2662; 2790; 2918; 3046; 3174; 3302; 3430;
   3558; 3664; 3792; 3872; 4160; 4240; 6112; 6160; 6470; 6608; 6784; 6800; 6992;
   7088; 7232; 7248; 42528; 43216; 43264; 43472; 43504; 43600; 44016; 65296;
   66720; 68912; 69734; 69872; 69942; 70096; 70384; 70736; 70864; 71248; 71360;
   71472; 71904; 72016; 72784; 73040; 73120; 92768; 92864; 93008; 120782;
   120792; 120802; 120812; 120822; 123200; 123632; 125264; 130032].

Definition piece := pystr -> option (Z * pystr).

(** [\d], with the value [int] gives the digit. *)
Definition re_d : piece := fun s =>
  match s with
  | c :: r =>
      match find (fun z => (z <=? c) && (c <? z + 10)) DECIMAL_ZEROS with
      | Some z => Some (c - z, r)
      | None => None
      end
  | [] => None
  end.

(** [[lo-hi]] for ASCII digits [lo] to [hi]. *)
Definition re_cls (lo hi : Z) : piece := fun s =>
  match s with
  | c :: r => if (48 + lo <=? c) && (c <=? 48 + hi) then Some (c - 48, r) else None
  | [] => None
  end.

(** One literal character; [v] is what it adds to the number read. *)
Definition re_lit (c v : Z) : piece := fun s =>
  match s with
  | c' :: r => if c' =? c then Some (v, r) else None
  | [] => None
  end.

(** Two pieces read as a two-digit number. *)
Definition re_two (p q : piece) : piece := fun s =>
  match p s with
  | Some (a, r) => match q r with Some (b, r') => Some (a * 10 + b, r') | None => None end
  | None => None
  end.

(** [p1|p2|...] followed by the rest [k] of the expression. *)
Fixpoint re_alt {R} (alts : list piece) (k : Z -> pystr -> option R) (s : pystr)
  : option R :=
  match alts with
  | [] => None
  | p :: alts' =>
      match (match p s with Some (v, r) => k v r | None => None end) with
      | Some x => Some x
      | None => re_alt alts' k s
      end
  end.

(** Greedy [\s*] followed by [k]. *)
Fixpoint re_ws_star {R} (k : pystr -> option R) (s : pystr) : option R :=
  match s with
  | c :: s' =>
      if isspace c
      then match re_ws_star k s' with Some x => Some x | None => k s end
      else k s
  | [] => k s
  end.

(** Greedy [\s+] followed by [k]. *)
Definition re_ws_plus {R} (k : pystr -> option R) (s : pystr) : option R :=
  match s with
  | c :: s' => if isspace c then re_ws_star k s' else None
  | [] => None
  end.

Definition HYPHEN : Z := 45.
Definition COLON : Z := 58.

(** The directives [%Y], [%m], [%d], [%H] and [%M]. *)
Definition re_Y : list piece := [re_two (re_two (re_two re_d re_d) re_d) re_d].

Definition re_m : list piece :=
  [re_two (re_lit 49 1) (re_cls 0 2); re_two (re_lit 48 0) (re_cls 1 9); re_cls 1 9].

Definition re_dd : list piece :=
  [re_two (re_lit 51 3) (re_cls 0 1); re_two (re_cls 1 2) re_d;
   re_two (re_lit 48 0) (re_cls 1 9); re_cls 1 9; re_two (re_lit 32 0) (re_cls 1 9)].

Definition re_H : list piece :=
  [re_two (re_lit 50 2) (re_cls 0 3); re_two (re_cls 0 1) re_d; re_d].

Definition re_M : list piece := [re_two (re_cls 0 5) re_d; re_d].

(** The expression of ["%Y-%m-%d"], then [k]. *)
Definition re_ymd {R} (k : Z -> Z -> Z -> pystr -> option R) : pystr -> option R :=
  re_alt re_Y (fun y =>
  re_alt [re_lit HYPHEN 0] (fun _ =>
  re_alt re_m (fun m =>
  re_alt [re_lit HYPHEN 0] (fun _ =>
  re_alt re_dd (fun d => k y m d))))).

(** [datetime.strptime(s, "%Y-%m-%d").date()]; [None] is [ValueError]. *)
Definition strptime_ymd (s : pystr) : option date :=
  match re_ymd (fun y m d r => Some (y, m, d, r)) s with
  | Some (y, m, d, []) => make_date y m d
  | _ => None
  end.

(** [datetime.strptime(s, "%Y-%m-%d %H:%M")] with the zone attached;
    [None] is [ValueError]. *)
Definition strptime_ymd_hm (s : pystr) : option datetime :=
  match re_ymd (fun y m d =>
          re_ws_plus (re_alt re_H (fun hh =>
          re_alt [re_lit COLON 0] (fun _ =>
          re_alt re_M (fun mm r => Some (y, m, d, hh, mm, r)))))) s with
  | Some (y, m, d, hh, mm, []) => make_datetime y m d hh mm
  | _ => None
  end.

(** ** Documents

    What [BeautifulSoup(text, "lxml")] builds: tags with their attributes
    and children, the strings between them, and the strings [get_text]
    passes over (comments, declarations). *)
Inductive node : Type :=
| Text (s : pystr)
| Comment (s : pystr)
| Tag (name : pystr) (attrs : list (pystr * pystr)) (children : list node).

(** [tag.descendants]: everything below, in document order. *)
Fixpoint descendants (n : node) : list node :=
  match n with
  | Tag _ _ cs => flat_map (fun c => c :: descendants c) cs
  | _ => []
  end.

Definition is_tag (name : pystr) (n : node) : bool :=
  match n with
  | Tag nm _ _ => str_eqb nm name
  | _ => false
  end.

(** [tag.get(key)]. *)
Definition attr (key : pystr) (n : node) : option pystr :=
  match n with
  | Tag _ attrs _ =>
      match find (fun kv => str_eqb (fst kv) key) attrs with
      | Some kv => Some (snd kv)
      | None => None
      end
  | _ => None
  end.

(** [tag.get_text(separator, strip=True)]: the strings below the tag, each
    stripped, the empty ones left out, joined by the separator. *)
Definition get_text (separator : pystr) (n : node) : pystr :=
  join separator
    (flat_map (fun d =>
       match d with
       | Text s => match strip s with [] => [] | s' => [s'] end
       | _ => []
       end) (descendants n)).

(** [tag.find_all(name)]. *)
Definition find_all (name : pystr) (n : node) : list node :=
  filter (is_tag name) (descendants n).

(** A tag met while walking a document, with the tags around it from the
    nearest outwards: what [.parent] gives access to. *)
Record located : Type := { el : node; parents : list node }.

(** Every tag below [n] in document order; [ps] are the tags around [n]. *)
Fixpoint locate (ps : list node) (n : node) : list located :=
  match n with
  | Tag _ _ cs =>
      flat_map (fun c =>
        match c with
        | Tag _ _ _ => {| el := c; parents := n :: ps |} :: locate (n :: ps) c
        | _ => []
        end) cs
  | _ => []
  end.

(** [soup.select("a[href*='pattern']")]. *)
Definition select_a_href (pattern : pystr) (soup : node) : list located :=
  filter (fun a =>
    is_tag (py "a") a.(el)
    && match attr (py "href") a.(el) with
       | Some v => contains pattern v
       | None => false
       end) (locate [] soup).

(** [a.find_parent(name)]. *)
Definition find_parent (name : pystr) (a : located) : option node :=
  find (is_tag name) a.(parents).

(** The selectors of [extract_summary]: [#id] and [.class]. *)
Inductive selector : Type :=
| ById (id : pystr)
| ByClass (cls : pystr).

Definition matches (sel : selector) (n : node) : bool :=
  match n with
  | Tag _ _ _ =>
      match sel with
      | ById id =>
          match attr (py "id") n with Some v => str_eqb v id | None => false end
      | ByClass c =>
          match attr (py "class") n with
          | Some v => existsb (str_eqb c) (split_ws v)
          | None => false
          end
      end
  | _ => false
  end.

(** [soup.select_one(sel)]. *)
Definition select_one (sel : selector) (soup : node) : option node :=
  find (matches sel) (descendants soup).

(** [l[-k]] for [k >= 1] on a list that has at least [k] elements. *)
Definition nth_from_end (k : nat) (l : list pystr) : pystr :=
  nth (List.length l - k) l [].

(** [s[:limit]], also for a negative limit. *)
Definition slice_to {A} (limit : Z) (s : list A) : list A :=
  if limit <? 0 then firstn (Z.to_nat (len s + limit)) s
  else firstn (Z.to_nat limit) s.

(** [l[-k:]] for [k >= 1]. *)
Definition slice_last {A} (k : Z) (l : list A) : list A :=
  skipn (Z.to_nat (len l - k)) l.

(** ** JSON values, hashable values and sets *)

(** What [json.load] returns.  Number literals with a fraction or an
    exponent are left out. *)
Inductive json : Type :=
| JNull
| JBool (b : bool)
| JInt (n : Z)
| JStr (s : pystr)
| JArr (l : list json)
| JObj (kv : list (pystr * json)).

(** The hashable values among them. *)
Inductive atom : Type :=
| ANone
| ABool (b : bool)
| AInt (n : Z)
| AStr (s : pystr).

(** [hash(json_value)] succeeds on atoms only; [None] is [TypeError]. *)
Definition atom_of_json (j : json) : option atom :=
  match j with
  | JNull => Some ANone
  | JBool b => Some (ABool b)
  | JInt n => Some (AInt n)
  | JStr s => Some (AStr s)
  | JArr _ | JObj _ => None
  end.

Definition json_of_atom (a : atom) : json :=
  match a with
  | ANone => JNull
  | ABool b => JBool b
  | AInt n => JInt n
  | AStr s => JStr s
  end.

(** Python's [==] on these values: [True == 1] and [False == 0]. *)
Definition py_eq (a b : atom) : bool :=
  match a, b with
  | ANone, ANone => true
  | AStr s, AStr t => str_eqb s t
  | ABool x, ABool y => Bool.eqb x y
  | AInt x, AInt y => x =? y
  | ABool x, AInt y | AInt y, ABool x => (if x then 1 else 0) =? y
  | _, _ => false
  end.

(** A [set] is kept as its elements in the order they were first added.
    Python promises no iteration order; the order [list(s)] produces is
    the world's [set_order] applied to this history. *)
Definition pyset := list atom.

(** [x in s]. *)
Definition set_contains (x : atom) (s : pyset) : bool := existsb (py_eq x) s.

(** [s.add(x)]. *)
Definition set_add (x : atom) (s : pyset) : pyset :=
  if set_contains x s then s else s ++ [x].

(** [set(iterable)] on a list of hashable values. *)
Definition set_of_list (l : list atom) : pyset :=
  fold_left (fun s x => set_add x s) l [].

(** [d.get(key, default)] on the pairs of a JSON object, where the last
    pair of a repeated key is the one the [dict] holds. *)
Definition dict_get (key : pystr) (default : json) (kv : list (pystr * json)) : json :=
  match find (fun p => str_eqb (fst p) key) (rev kv) with
  | Some p => snd p
  | None => default
  end.

(** ** The world and the state of a run *)

(** The file at [CACHE_PATH]. *)
Inductive file : Type :=
| NoFile            (* open(..., "r") raises FileNotFoundError *)
| Unreadable        (* open(..., "r") raises another OSError *)
| Garbage           (* json.load raises *)
| Json (j : json).

(** An answer to an HTTP request. *)
Inductive response : Type :=
| NoAnswer                         (* requests raises *)
| Answer (status : Z) (text : pystr).

(** What happens when the cache file is written. *)
Inductive write_outcome : Type :=
| WriteOk
| OpenFails         (* open(..., "w") raises, the file is untouched *)
| DumpFails.        (* the write breaks off, the file is cut short *)

(** Everything the scripts take from outside. *)
Record World : Type := {
  (* libraries *)
  urljoin : pystr -> pystr -> pystr;       (* urllib.parse.urljoin *)
  BeautifulSoup : pystr -> node;           (* BeautifulSoup(text, "lxml") *)
  set_order : list atom -> list atom;      (* the iteration order of a set *)
  (* environment *)
  BOT_TOKEN : option pystr;                (* os.getenv("BOT_TOKEN") *)
  CHAT_ID : option pystr;                  (* os.getenv("CHAT_ID") *)
  SUMMARY_CHARS : Z;                       (* int(os.getenv("SUMMARY_CHARS", "220")) *)
  clock : datetime;                        (* datetime.now(ZoneInfo("Asia/Seoul")) *)
  (* network and disk *)
  http_list : pystr -> Z -> response;      (* GET lst.jsp, section code and page *)
  http_detail : pystr -> response;         (* GET of a detail link *)
  http_post : pystr -> response;           (* POST sendMessage with this text *)
  disk_write : write_outcome
}.

(** What a run does, in the order it does it. *)
Inductive event : Type :=
| GetList (section_code : pystr) (page : Z)
| GetDetail (link : pystr)
| Post (text : pystr)
| Sleep (ms : Z)
| ReadCache
| WriteCache.

Record state : Type := {
  trace : list event;      (* oldest first *)
  cache_file : file
}.

(** Computations that act on the state and may raise. *)
Definition M (A : Type) : Type := state -> result A * state.

Definition ret {A} (a : A) : M A := fun st => (Ok a, st).

Definition bind {A B} (m : M A) (k : A -> M B) : M B :=
  fun st =>
    match m st with
    | (Ok a, st') => k a st'
    | (Raise e, st') => (Raise e, st')
    end.

Definition raise {A} (e : exn) : M A := fun st => (Raise e, st).

(** [try: m  except Exception: h]. *)
Definition try_except {A} (m : M A) (h : M A) : M A :=
  fun st =>
    match m st with
    | (Ok a, st') => (Ok a, st')
    | (Raise _, st') => h st'
    end.

Definition emit (e : event) : M unit :=
  fun st => (Ok tt, {| trace := st.(trace) ++ [e]; cache_file := st.(cache_file) |}).

Definition read_file : M file := fun st => (Ok st.(cache_file), st).

Definition set_file (f : file) : M unit :=
  fun st => (Ok tt, {| trace := st.(trace); cache_file := f |}).

Declare Scope monad_scope.
Delimit Scope monad_scope with monad.
Notation "x <- c1 ;; c2" := (bind c1 (fun x => c2))
  (at level 61, c1 at next level, right associativity) : monad_scope.
Notation "' pat <- c1 ;; c2" := (bind c1 (fun x => match x with pat => c2 end))
  (at level 61, pat pattern, c1 at next level, right associativity) : monad_scope.
Notation "c1 ;; c2" := (bind c1 (fun _ => c2))
  (at level 61, right associativity) : monad_scope.
Open Scope monad_scope.

(** [for x in xs: s = body(x, s)]; a [continue] is the body returning. *)
Fixpoint for_in {A S} (xs : list A) (body : A -> S -> M S) (s : S) : M S :=
  match xs with
  | [] => ret s
  | x :: rest => s' <- body x s ;; for_in rest body s'
  end.

(** How the body of a loop ends: it falls through to the next round or it
    leaves the loop with [break]. *)
Inductive flow : Type := Next | Break.

Fixpoint for_break {A S} (xs : list A) (body : A -> S -> M (flow * S)) (s : S) : M S :=
  match xs with
  | [] => ret s
  | x :: rest =>
      r <- body x s ;;
      match r with
      | (Break, s') => ret s'
      | (Next, s') => for_break rest body s'
      end
  end.

(** [range(lo, hi)]. *)
Definition py_range (lo hi : Z) : list Z :=
  map (fun i => lo + Z.of_nat i) (seq 0 (Z.to_nat (hi - lo))).

(** [response.raise_for_status()]. *)
Definition raise_for_status (status : Z) : M unit :=
  if (400 <=? status) && (status <? 600) then raise (HTTPError status) else ret tt.

(** [not s] for an optional string: unset or empty. *)
Definition falsy (s : option pystr) : bool :=
  match s with
  | None | Some [] => true
  | Some (_ :: _) => false
  end.

Definition lift {A} (r : result A) : M A := fun st => (r, st).

(** ** The scripts *)

(** The two files; where a definition below branches on the script, the
    files differ in just that place. *)
Inductive script : Type := molit_bot_now | molit_bot.

Definition BASE : pystr := Eval vm_compute in py "https://www.molit.go.kr".
Definition LIST_PATH : pystr := Eval vm_compute in py "/USR/NEWS/m_71/lst.jsp".

Definition CATEGORY_TO_SECTION : list (pystr * pystr) :=
  Eval vm_compute in
  [(py "주택토지", py "p_sec_2"); (py "국토도시", py "p_sec_9"); (py "일반", py "p_sec_1")].

Definition MAX_CACHE : Z := 300.

(** The budget of one message in the chunking loops of [main]. *)
Definition CHUNK_BUDGET : Z := 3500.

Definition NEWLINE : pystr := [10].

Module Row.
(** A listing row: the dict [parse_list_rows] appends. *)
Record t : Type := { title : pystr; link : pystr; category : pystr; date_str : pystr }.
End Row.

Module Item.
(** A collected item: the dict [fetch_recent_for_section] appends.  Only
    [molit_bot_now.py] gives it a summary. *)
Record t : Type := {
  dt : datetime; title : pystr; link : pystr; category : pystr;
  summary : option pystr
}.
End Item.

(** [d[key]] on a dict of strings. *)
Definition dict_lookup (key : pystr) (d : list (pystr * pystr)) : result pystr :=
  match find (fun p => str_eqb (fst p) key) d with
  | Some p => Ok (snd p)
  | None => Raise KeyError
  end.

(** *** The expression of [parse_detail_datetime_kst] *)

(** [[0-9]{n}] followed by [k]. *)
Fixpoint re_ascii_digits {R} (n : nat) (k : pystr -> option R) (s : pystr) : option R :=
  match n with
  | O => k s
  | S n' =>
      match s with
      | c :: r => if (48 <=? c) && (c <=? 57) then re_ascii_digits n' k r else None
      | [] => None
      end
  end.

Definition re_char {R} (c : Z) (k : pystr -> option R) (s : pystr) : option R :=
  match s with
  | c' :: r => if c' =? c then k r else None
  | [] => None
  end.

(** [[0-9]{4}-[0-9]{2}-[0-9]{2}\s+[0-9]{2}:[0-9]{2}] followed by [k]. *)
Definition re_stamp {R} (k : pystr -> option R) : pystr -> option R :=
  re_ascii_digits 4 (re_char HYPHEN (re_ascii_digits 2 (re_char HYPHEN
    (re_ascii_digits 2 (re_ws_plus
      (re_ascii_digits 2 (re_char COLON (re_ascii_digits 2 k)))))))).

Definition LABEL : pystr := Eval vm_compute in py "등록일".

(** A match of the whole expression at the start of [s]: its group 1. *)
Definition re_detail_at (s : pystr) : option pystr :=
  match strip_prefix LABEL s with
  | Some r =>
      re_ws_star (fun g =>
        re_stamp (fun rest => Some (firstn (List.length g - List.length rest) g)) g) r
  | None => None
  end.

(** [re.search]: the match at the leftmost position that has one. *)
Fixpoint re_search_detail (s : pystr) : option pystr :=
  match re_detail_at s with
  | Some g => Some g
  | None => match s with [] => None | _ :: s' => re_search_detail s' end
  end.

Definition parse_detail_datetime_kst (html : pystr) : result (option datetime) :=
  match re_search_detail html with
  | None => Ok None
  | Some g =>
      match strptime_ymd_hm g with
      | Some dt => Ok (Some dt)
      | None => Raise ValueError
      end
  end.

Definition CANDIDATES : list selector :=
  Eval vm_compute in
  [ById (py "viewCon"); ByClass (py "board_view"); ByClass (py "view");
   ByClass (py "bo_view"); ByClass (py "bo_content"); ByClass (py "bo_text");
   ByClass (py "bbsView"); ByClass (py "contents"); ById (py "contents");
   ById (py "content")].

Definition ELLIPSIS : pystr := [8230].

Section Scripts.

Variable w : World.
Variable this : script.

(** The substring the anchors' [href] is searched for. *)
Definition ANCHOR_PATTERN : pystr :=
  match this with
  | molit_bot_now => py "USR/NEWS/m_71/dtl.jsp"
  | molit_bot => py "dtl.jsp?id="
  end.

Definition send (text : pystr) : M unit :=
  if falsy w.(BOT_TOKEN) || falsy w.(CHAT_ID) then raise RuntimeError
  else
    emit (Post text) ;;
    match w.(http_post) text with
    | NoAnswer => raise ConnectionError
    | Answer status _ =>
        match this with
        | molit_bot_now => raise_for_status status
        | molit_bot => ret tt
        end
    end.

(** [get_soup(urljoin(BASE, LIST_PATH), params)] with
    [params = {"search_section": section_code, "lcmspage": page, "psize": 10}]. *)
Definition get_soup (section_code : pystr) (page : Z) : M node :=
  emit (GetList section_code page) ;;
  match w.(http_list) section_code page with
  | NoAnswer => raise ConnectionError
  | Answer status text => raise_for_status status ;; ret (w.(BeautifulSoup) text)
  end.

Definition parse_list_rows (soup : node) : list Row.t :=
  fold_left (fun rows a =>
    let title := get_text [] a.(el) in
    let href := match attr (py "href") a.(el) with Some h => h | None => [] end in
    let link := w.(urljoin) BASE href in
    match find_parent (py "tr") a with
    | None => rows
    | Some tr =>
        let tds := map (get_text []) (find_all (py "td") tr) in
        let category := if 4 <=? len tds then nth_from_end 3 tds else [] in
        let date_str := if 4 <=? len tds then nth_from_end 2 tds else [] in
        rows ++ [{| Row.title := title; Row.link := link;
                    Row.category := category; Row.date_str := date_str |}]
    end) (select_a_href ANCHOR_PATTERN soup) [].

(** Only in [molit_bot_now.py]. *)
Fixpoint first_container (soup : node) (candidates : list selector) : pystr :=
  match candidates with
  | [] => []
  | sel :: rest =>
      match select_one sel soup with
      | Some e =>
          match get_text [] e with
          | [] => first_container soup rest
          | _ => get_text [32] e
          end
      | None => first_container soup rest
      end
  end.

Definition extract_summary (html : pystr) (limit : Z) : pystr :=
  let soup := w.(BeautifulSoup) html in
  let text := first_container soup CANDIDATES in
  let text := match text with [] => get_text [32] soup | _ => text end in
  let text := collapse_ws text in
  if limit <? len text then rstrip (slice_to limit text) ++ ELLIPSIS else text.

(** [set(x)] for a JSON value [x]. *)
Definition py_set (x : json) : result pyset :=
  match x with
  | JArr l =>
      if forallb (fun j => match atom_of_json j with Some _ => true | None => false end) l
      then Ok (set_of_list (flat_map (fun j =>
                 match atom_of_json j with Some a => [a] | None => [] end) l))
      else Raise TypeError
  | JStr s => Ok (set_of_list (map (fun c => AStr [c]) s))
  | JObj kv => Ok (set_of_list (map (fun p => AStr (fst p)) kv))
  | JNull | JBool _ | JInt _ => Raise TypeError
  end.

(** Only in [molit_bot_now.py]. *)
Definition load_cache : M pyset :=
  try_except
    (emit ReadCache ;;
     f <- read_file ;;
     data <- match f with
             | NoFile | Unreadable => raise OSError
             | Garbage => raise JSONDecodeError
             | Json j => ret j
             end ;;
     links <- match data with
              | JObj kv => ret (dict_get (py "links") (JArr []) kv)
              | _ => raise AttributeError
              end ;;
     lift (py_set links))
    (ret []).

(** Only in [molit_bot_now.py]. *)
Definition save_cache (links_set : pyset) : M unit :=
  try_except
    (let links := w.(set_order) links_set in
     let links := if MAX_CACHE <? len links then slice_last MAX_CACHE links else links in
     emit WriteCache ;;
     match w.(disk_write) with
     | WriteOk => set_file (Json (JObj [(py "links", JArr (map json_of_atom links))]))
     | OpenFails => raise OSError
     | DumpFails => set_file Garbage ;; raise OSError
     end)
    (ret tt).

Section Pager.

Variables (section_code section_name : pystr) (since_kst now_kst : datetime).

(** [session.get(link, timeout=TIMEOUT)] and [raise_for_status] inside
    their [try]; [None] is the [continue] of the handler. *)
Definition get_detail (link : pystr) : M (option pystr) :=
  try_except
    (emit (GetDetail link) ;;
     match w.(http_detail) link with
     | NoAnswer => raise ConnectionError
     | Answer status text => raise_for_status status ;; ret (Some text)
     end)
    (ret None).

(** The body of [for row in rows], on the pair [(items, stop_paging)]. *)
Definition row_body (row : Row.t) (acc : list Item.t * bool) : M (list Item.t * bool) :=
  let '(items, stop_paging) := acc in
  let row_date := strptime_ymd row.(Row.date_str) in
  if match row_date with
     | Some d => d <? date_of (now_kst - timedelta 1 0)
     | None => false
     end
  then ret (items, true)
  else
    detail <- get_detail row.(Row.link) ;;
    match detail with
    | None => ret (items, stop_paging)
    | Some text =>
        dt_kst <- lift (parse_detail_datetime_kst text) ;;
        match dt_kst with
        | None => ret (items, stop_paging)
        | Some d =>
            if (since_kst <=? d) && (d <=? now_kst)
            then
              let summary :=
                match this with
                | molit_bot_now => Some (extract_summary text w.(SUMMARY_CHARS))
                | molit_bot => None
                end in
              ret (items ++ [{| Item.dt := d; Item.title := row.(Row.title);
                                Item.link := row.(Row.link);
                                Item.category := section_name;
                                Item.summary := summary |}], stop_paging)
            else ret (items, stop_paging)
        end
    end.

(** The body of [for page in range(1, max_pages + 1)]. *)
Definition page_body (page : Z) (items : list Item.t) : M (flow * list Item.t) :=
  soup <- get_soup section_code page ;;
  let rows := parse_list_rows soup in
  match rows with
  | [] => ret (Break, items)
  | _ =>
      r <- for_in rows row_body (items, false) ;;
      let '(items, stop_paging) := r in
      if stop_paging then ret (Break, items)
      else
        emit (Sleep match this with molit_bot_now => 400 | molit_bot => 500 end) ;;
        ret (Next, items)
  end.

Definition fetch_recent_for_section (max_pages : Z) : M (list Item.t) :=
  for_break (py_range 1 (max_pages + 1)) page_body [].

End Pager.

(** The default of [max_pages]. *)
Definition MAX_PAGES : Z := 3.

Definition WANTED : list pystr :=
  Eval vm_compute in [py "주택토지"; py "국토도시"; py "일반"].

Definition TITLE_LINE : pystr :=
  Eval vm_compute in py "국토교통부 보도자료 (지난 24시간, 주택토지·국토도시·일반)".

Definition header (now_kst : datetime) : pystr :=
  TITLE_LINE ++ NEWLINE ++ py "기준: " ++ strftime now_kst ++ py " KST".

(** The text sent when there is nothing to report. *)
Definition no_news (now_kst : datetime) : pystr :=
  match this with
  | molit_bot_now =>
      header now_kst ++ NEWLINE ++ NEWLINE
        ++ py "신규 보도자료가 없습니다. (중복 제외)"
  | molit_bot =>
      py "국토교통부 보도자료 (지난 24시간, 3개 분야)" ++ NEWLINE ++ py "기준: "
        ++ strftime now_kst ++ py " KST" ++ NEWLINE ++ NEWLINE
        ++ py "신규 보도자료가 없습니다."
  end.

(** The block of one item. *)
Definition block (it : Item.t) : pystr :=
  py "• " ++ it.(Item.title) ++ NEWLINE
    ++ py "  - 등록: " ++ strftime it.(Item.dt) ++ NEWLINE
    ++ match this with
       | molit_bot_now =>
           py "  - 요약: "
             ++ match it.(Item.summary) with Some s => s | None => [] end ++ NEWLINE
       | molit_bot => []
       end
    ++ py "  - 링크: " ++ it.(Item.link).

(** [items.sort(key=lambda x: x["dt"], reverse=True)]: newest first, items
    of one time stamp in the order they had. *)
Fixpoint insert_newest_first (x : Item.t) (l : list Item.t) : list Item.t :=
  match l with
  | [] => [x]
  | y :: l' =>
      if x.(Item.dt) <=? y.(Item.dt) then y :: insert_newest_first x l' else x :: l
  end.

Definition sort_newest_first (l : list Item.t) : list Item.t :=
  fold_left (fun acc x => insert_newest_first x acc) l [].

(** The lines of the digest: the header, an empty line, and per item a
    category line when the category changes and then its block. *)
Definition digest_lines (now_kst : datetime) (items : list Item.t) : list pystr :=
  snd (fold_left (fun (acc : option pystr * list pystr) it =>
         let '(last_cat, lines) := acc in
         let changed :=
           match last_cat with
           | Some c => negb (str_eqb it.(Item.category) c)
           | None => true
           end in
         let lines :=
           if changed then lines ++ [py "[" ++ it.(Item.category) ++ py "]"] else lines in
         ((if changed then Some it.(Item.category) else last_cat),
          lines ++ [block it]))
       items (None, [header now_kst; []])).

(** The chunking loop of [molit_bot_now.py], which sends as it goes. *)
Definition send_chunks (lines : list pystr) : M unit :=
  r <- for_in lines (fun line (acc : list pystr * Z) =>
         let '(chunk, buf) := acc in
         r' <- (if CHUNK_BUDGET <? buf + len line + 1
                then send (join NEWLINE chunk) ;; ret ([], 0)
                else ret (chunk, buf)) ;;
         let '(chunk, buf) := r' in
         ret (chunk ++ [line], buf + len line + 1)) ([], 0) ;;
  match fst r with
  | [] => ret tt
  | chunk => send (join NEWLINE chunk)
  end.

(** The chunking loop of [molit_bot.py], which collects the chunks. *)
Definition split_chunks (lines : list pystr) : list pystr :=
  let '(chunks, cur, buf) :=
    fold_left (fun (acc : list pystr * list pystr * Z) line =>
      let '(chunks, cur, buf) := acc in
      let '(chunks, cur, buf) :=
        if CHUNK_BUDGET <? buf + len line + 1
        then (chunks ++ [join NEWLINE cur], [], 0)
        else (chunks, cur, buf) in
      (chunks, cur ++ [line], buf + len line + 1)) lines ([], [], 0) in
  match cur with
  | [] => chunks
  | _ => chunks ++ [join NEWLINE cur]
  end.

(** The loop over [wanted] that both [main]s start with. *)
Definition collect (since_kst now_kst : datetime) : M (list Item.t) :=
  for_in WANTED (fun name all_items =>
    code <- lift (dict_lookup name CATEGORY_TO_SECTION) ;;
    found <- fetch_recent_for_section code name since_kst now_kst MAX_PAGES ;;
    ret (all_items ++ found)) [].

(** What both [main]s do with the items collected. *)
Definition deliver (now_kst : datetime) (all_items : list Item.t) : M unit :=
  match this with
  | molit_bot_now =>
      sent <- load_cache ;;
      let new_items :=
        filter (fun it => negb (set_contains (AStr it.(Item.link)) sent)) all_items in
      match new_items with
      | [] => send (no_news now_kst)
      | _ =>
          let new_items := sort_newest_first new_items in
          send_chunks (digest_lines now_kst new_items) ;;
          save_cache (fold_left (fun s it => set_add (AStr it.(Item.link)) s)
                                new_items sent)
      end
  | molit_bot =>
      match all_items with
      | [] => send (no_news now_kst)
      | _ =>
          let all_items := sort_newest_first all_items in
          let chunks := split_chunks (digest_lines now_kst all_items) in
          for_in chunks (fun c (_ : unit) => send c ;; emit (Sleep 300)) tt
      end
  end.

Definition main : M unit :=
  let now_kst := w.(clock) in
  let since_kst := now_kst - timedelta 0 24 in
  all_items <- collect since_kst now_kst ;;
  deliver now_kst all_items.

End Scripts.

(** ** Sample worlds, for the examples *)

Definition cell (s : pystr) : node := Tag (py "td") [] [Text s].

Definition anchor (href title : pystr) : node :=
  Tag (py "a") [(py "href", href)] [Text title].

(** A row of the listing table: number, title, category, date, views. *)
Definition listing_row (href title cat day : pystr) : node :=
  Tag (py "tr") []
    [cell (py "1"); Tag (py "td") [] [anchor href title]; cell cat; cell day;
     cell (py "7")].

Definition document (body : list node) : node :=
  Tag (py "[document]") [] [Tag (py "html") [] [Tag (py "body") [] body]].

(** A listing page: a link outside the table, a row of today, a row
    without a date, a row of last week and a row of a single cell. *)
Definition sample_listing : node :=
  Eval vm_compute in
  document
    [anchor (py "/USR/NEWS/m_71/dtl.jsp?id=9") (py "more");
     Tag (py "table") []
       [listing_row (py "/USR/NEWS/m_71/dtl.jsp?id=1") (py " first ") (py "주택토지")
                    (py "2025-08-12");
        listing_row (py "/USR/NEWS/m_71/dtl.jsp?id=2") (py "second") (py "주택토지")
                    (py "");
        listing_row (py "/USR/NEWS/m_71/dtl.jsp?id=3") (py "third") (py "주택토지")
                    (py "2025-08-01");
        Tag (py "tr") [] [Tag (py "td") [] [anchor (py "/USR/NEWS/m_71/dtl.jsp?id=4")
                                                   (py "fourth")]]]].

(** 2025-08-12 15:00 KST. *)
Definition sample_now : datetime :=
  Eval vm_compute in
  match make_datetime 2025 8 12 15 0 with Some t => t | None => 0 end.

Definition sample_link (id : pystr) : pystr :=
  BASE ++ py "/USR/NEWS/m_71/dtl.jsp?id=" ++ id.

(** Page 1 of every section is [sample_listing], later pages are empty;
    the detail pages carry 11:00 of the day (1), 16:30 of the day before
    (2) and 14:00 of the day before (4); every message is accepted. *)
Definition sample_world : World := {|
  urljoin := fun base href => base ++ href;
  BeautifulSoup := fun text =>
    if str_eqb text (py "listing") then sample_listing else document [Text text];
  set_order := fun l => l;
  BOT_TOKEN := Some (py "token");
  CHAT_ID := Some (py "@channel");
  SUMMARY_CHARS := 220;
  clock := sample_now;
  http_list := fun _ page =>
    if page =? 1 then Answer 200 (py "listing") else Answer 200 [];
  http_detail := fun link =>
    if str_eqb link (sample_link (py "1")) then Answer 200 (py "등록일 2025-08-12 11:00")
    else if str_eqb link (sample_link (py "2")) then Answer 200 (py "등록일 2025-08-11 16:30")
    else if str_eqb link (sample_link (py "4")) then Answer 200 (py "등록일 2025-08-11 14:00")
    else Answer 404 [];
  http_post := fun _ => Answer 200 [];
  disk_write := WriteOk
|}.

(** The same world with another iteration order of sets. *)
Definition reordered (order : list atom -> list atom) (w : World) : World := {|
  urljoin := w.(urljoin); BeautifulSoup := w.(BeautifulSoup);
  set_order := order;
  BOT_TOKEN := w.(BOT_TOKEN); CHAT_ID := w.(CHAT_ID);
  SUMMARY_CHARS := w.(SUMMARY_CHARS); clock := w.(clock);
  http_list := w.(http_list); http_detail := w.(http_detail);
  http_post := w.(http_post); disk_write := w.(disk_write)
|}.

(** The same world with other answers to the listing requests. *)
Definition relisted (answers : pystr -> Z -> response) (w : World) : World := {|
  urljoin := w.(urljoin); BeautifulSoup := w.(BeautifulSoup);
  set_order := w.(set_order);
  BOT_TOKEN := w.(BOT_TOKEN); CHAT_ID := w.(CHAT_ID);
  SUMMARY_CHARS := w.(SUMMARY_CHARS); clock := w.(clock);
  http_list := answers; http_detail := w.(http_detail);
  http_post := w.(http_post); disk_write := w.(disk_write)
|}.

(** The same world with other credentials. *)
Definition with_credentials (token chat : option pystr) (w : World) : World := {|
  urljoin := w.(urljoin); BeautifulSoup := w.(BeautifulSoup);
  set_order := w.(set_order);
  BOT_TOKEN := token; CHAT_ID := chat;
  SUMMARY_CHARS := w.(SUMMARY_CHARS); clock := w.(clock);
  http_list := w.(http_list); http_detail := w.(http_detail);
  http_post := w.(http_post); disk_write := w.(disk_write)
|}.

(** The same world with other answers to the posts. *)
Definition reposted (answers : pystr -> response) (w : World) : World := {|
  urljoin := w.(urljoin); BeautifulSoup := w.(BeautifulSoup);
  set_order := w.(set_order);
  BOT_TOKEN := w.(BOT_TOKEN); CHAT_ID := w.(CHAT_ID);
  SUMMARY_CHARS := w.(SUMMARY_CHARS); clock := w.(clock);
  http_list := w.(http_list); http_detail := w.(http_detail);
  http_post := answers; disk_write := w.(disk_write)
|}.

(** The same world with other answers to the detail requests. *)
Definition redetailed (answers : pystr -> response) (w : World) : World := {|
  urljoin := w.(urljoin); BeautifulSoup := w.(BeautifulSoup);
  set_order := w.(set_order);
  BOT_TOKEN := w.(BOT_TOKEN); CHAT_ID := w.(CHAT_ID);
  SUMMARY_CHARS := w.(SUMMARY_CHARS); clock := w.(clock);
  http_list := w.(http_list); http_detail := answers;
  http_post := w.(http_post); disk_write := w.(disk_write)
|}.

(** The time stamp of a page, when the function returns one. *)
Definition parse_result (html : pystr) : option datetime :=
  match parse_detail_datetime_kst html with
  | Ok r => r
  | Raise _ => None
  end.

(** A time stamp as the site writes it: [YYYY-MM-DD], a gap, [HH:MM]. *)
Definition stamp_text (y m d : Z) (gap : pystr) (hh mm : Z) : pystr :=
  digits4 y ++ [HYPHEN] ++ digits2 m ++ [HYPHEN] ++ digits2 d ++ gap
    ++ digits2 hh ++ [COLON] ++ digits2 mm.

(** White space only. *)
Definition blank (s : pystr) : Prop := Forall (fun c => isspace c = true) s.

(** An item is at least as new as the one after it. *)
Definition not_older (a b : Item.t) : Prop := b.(Item.dt) <= a.(Item.dt).

(** The items of one time stamp. *)
Definition stamped (t : datetime) (it : Item.t) : bool := it.(Item.dt) =? t.

(** One round of the loop that builds the lines of the digest, on the
    pair of [last_cat] and [lines]. *)
Definition digest_step (this : script) (acc : option pystr * list pystr) (it : Item.t)
  : option pystr * list pystr :=
  let '(last_cat, lines) := acc in
  let changed :=
    match last_cat with
    | Some c => negb (str_eqb it.(Item.category) c)
    | None => true
    end in
  let lines :=
    if changed then lines ++ [py "[" ++ it.(Item.category) ++ py "]"] else lines in
  ((if changed then Some it.(Item.category) else last_cat), lines ++ [block this it]).

(** What [molit_bot.py] does with its chunks: each is posted and followed
    by a pause. *)
Definition posted_with_pauses (chunks : list pystr) : list event :=
  flat_map (fun c => [Post c; Sleep 300]) chunks.

(** A run that starts with nothing done and no cache file. *)
Definition fresh : state := {| trace := []; cache_file := NoFile |}.

(** 301 links, in the order they are added to a set. *)
Definition many_links : list atom :=
  Eval vm_compute in map (fun i => AStr (sample_link (digits4 i))) (py_range 0 301).

(** ** Vocabulary of the statements *)

(** A chunk, as the lines put into it, respects the budget: its text fits,
    or it is one line that is itself longer than the budget. *)
Definition within_budget (g : list pystr) : Prop :=
  len (join NEWLINE g) <= CHUNK_BUDGET \/ (exists l, g = [l] /\ CHUNK_BUDGET < len l).

(** What the running counter [buf] of the chunking loops holds. *)
Definition weight (g : list pystr) : Z :=
  fold_right (fun l acc => len l + 1 + acc) 0 g.

(** What the chunking loops keep true of the chunk they are filling. *)
Definition open_ok (cur : list pystr) : Prop :=
  weight cur <= CHUNK_BUDGET \/ exists l, cur = [l].

(** The events a run added to the trace. *)
Definition added (st st' : state) (evs : list event) : Prop :=
  st'.(trace) = st.(trace) ++ evs.

(** Both credentials are set and not empty. *)
Definition configured (w : World) : bool :=
  negb (falsy w.(BOT_TOKEN) || falsy w.(CHAT_ID)).

(** The channel takes this text: the request is answered, and for
    [molit_bot_now.py], which checks the status, not with an error. *)
Definition delivered (w : World) (this : script) (text : pystr) : bool :=
  match w.(http_post) text with
  | NoAnswer => false
  | Answer status _ =>
      match this with
      | molit_bot_now => negb ((400 <=? status) && (status <? 600))
      | molit_bot => true
      end
  end.

(** The state after some more events, the cache file untouched. *)
Definition log (evs : list event) (st : state) : state :=
  {| trace := st.(trace) ++ evs; cache_file := st.(cache_file) |}.

(** An HTTP status [raise_for_status] raises on. *)
Definition is_error (status : Z) : bool := (400 <=? status) && (status <? 600).

(** The exceptions of a failed request. *)
Definition transport (e : exn) : Prop :=
  e = ConnectionError \/ exists status, e = HTTPError status.

(** The text of a detail page, when the request for it succeeds. *)
Definition detail_text (w : World) (link : pystr) : option pystr :=
  match w.(http_detail) link with
  | Answer status text => if is_error status then None else Some text
  | NoAnswer => None
  end.

(** The rows of a listing page, or the exception of the request for it. *)
Definition page_rows (w : World) (this : script) (section_code : pystr) (page : Z)
  : result (list Row.t) :=
  match w.(http_list) section_code page with
  | Answer status text =>
      if is_error status then Raise (HTTPError status)
      else Ok (parse_list_rows w this (w.(BeautifulSoup) text))
  | NoAnswer => Raise ConnectionError
  end.

(** The row raises the stop signal: its coarse date parses and is a day
    before the day of [now - 24h]. *)
Definition stale (now_kst : datetime) (row : Row.t) : bool :=
  match strptime_ymd row.(Row.date_str) with
  | Some d => d <? date_of (now_kst - timedelta 1 0)
  | None => false
  end.

(** The item [fetch_recent_for_section] builds from a row, the text of its
    detail page and the time stamp found there. *)
Definition item_of (w : World) (this : script) (section_name : pystr)
    (row : Row.t) (text : pystr) (d : datetime) : Item.t :=
  {| Item.dt := d; Item.title := row.(Row.title); Item.link := row.(Row.link);
     Item.category := section_name;
     Item.summary :=
       match this with
       | molit_bot_now => Some (extract_summary w text w.(SUMMARY_CHARS))
       | molit_bot => None
       end |}.

(** What becomes of a row in the loop over a page. *)
Inductive fate : Type :=
| Stale                 (* raises the stop signal, is passed over *)
| Dropped               (* detail page fetched, nothing kept *)
| Crash (e : exn)       (* detail page fetched, its time stamp is impossible *)
| Keep (it : Item.t).   (* detail page fetched, item appended *)

Definition fate_of (w : World) (this : script) (section_name : pystr)
    (since_kst now_kst : datetime) (row : Row.t) : fate :=
  if stale now_kst row then Stale
  else
    match detail_text w row.(Row.link) with
    | None => Dropped
    | Some text =>
        match parse_detail_datetime_kst text with
        | Raise e => Crash e
        | Ok None => Dropped
        | Ok (Some d) =>
            if (since_kst <=? d) && (d <=? now_kst)
            then Keep (item_of w this section_name row text d)
            else Dropped
        end
    end.

Section Fates.

Variables (w : World) (this : script).
Variables (section_code section_name : pystr) (since_kst now_kst : datetime).

Let fate_of' := fate_of w this section_name since_kst now_kst.

(** The items the rows of a page contribute. *)
Definition kept (rows : list Row.t) : list Item.t :=
  flat_map (fun row => match fate_of' row with Keep it => [it] | _ => [] end) rows.

(** The detail requests the rows of a page cause. *)
Definition asked (rows : list Row.t) : list event :=
  flat_map (fun row =>
    match fate_of' row with
    | Stale => []
    | _ => [GetDetail row.(Row.link)]
    end) rows.

(** The exception of the first row that crashes, if one does. *)
Fixpoint crash_of (rows : list Row.t) : option exn :=
  match rows with
  | [] => None
  | row :: rest =>
      match fate_of' row with
      | Crash e => Some e
      | _ => crash_of rest
      end
  end.

(** The rows up to the first that crashes, that one included. *)
Fixpoint upto_crash (rows : list Row.t) : list Row.t :=
  match rows with
  | [] => []
  | row :: rest =>
      match fate_of' row with
      | Crash _ => [row]
      | _ => row :: upto_crash rest
      end
  end.

(** The pager as a function from the world to the outcome and the
    events of [for page in pages], for comparison with the loop. *)
Fixpoint pager (pages : list Z) (items : list Item.t)
  : result (list Item.t) * list event :=
  match pages with
  | [] => (Ok items, [])
  | page :: rest =>
      match page_rows w this section_code page with
      | Raise e => (Raise e, [GetList section_code page])
      | Ok [] => (Ok items, [GetList section_code page])
      | Ok rows =>
          match crash_of rows with
          | Some e =>
              (Raise e, GetList section_code page :: asked (upto_crash rows))
          | None =>
              if existsb (stale now_kst) rows
              then (Ok (items ++ kept rows), GetList section_code page :: asked rows)
              else
                let '(r, evs) := pager rest (items ++ kept rows) in
                (r, GetList section_code page :: asked rows
                      ++ Sleep (match this with molit_bot_now => 400 | molit_bot => 500 end)
                      :: evs)
          end
      end
  end.

End Fates.

(** The item carries the time stamp found on the detail page of its link,
    and that time stamp lies in the window. *)
Definition resolved_in_window (w : World) (since_kst now_kst : datetime)
    (it : Item.t) : Prop :=
  since_kst <= it.(Item.dt) <= now_kst
  /\ exists text,
       detail_text w it.(Item.link) = Some text
       /\ parse_detail_datetime_kst text = Ok (Some it.(Item.dt)).

(** The page ends the pagination: it is empty or one of its rows raises
    the stop signal. *)
Definition stops (w : World) (this : script) (now_kst : datetime)
    (section_code : pystr) (page : Z) : Prop :=
  exists rows,
    page_rows w this section_code page = Ok rows
    /\ (rows = [] \/ existsb (stale now_kst) rows = true).

(** The events of collecting: requests and the pauses between pages. *)
Definition fetching (e : event) : Prop :=
  match e with
  | GetList _ _ | GetDetail _ | Sleep _ => True
  | Post _ | ReadCache | WriteCache => False
  end.

(** The loop over the categories as a function from the world to the
    outcome and the events, for comparison with [collect]. *)
Fixpoint collector (w : World) (this : script) (since_kst now_kst : datetime)
    (names : list pystr) (all_items : list Item.t)
  : result (list Item.t) * list event :=
  match names with
  | [] => (Ok all_items, [])
  | name :: rest =>
      match dict_lookup name CATEGORY_TO_SECTION with
      | Raise e => (Raise e, [])
      | Ok code =>
          match pager w this code name since_kst now_kst
                      (py_range 1 (MAX_PAGES + 1)) [] with
          | (Raise e, evs) => (Raise e, evs)
          | (Ok found, evs) =>
              let '(r, evs') :=
                collector w this since_kst now_kst rest (all_items ++ found) in
              (r, evs ++ evs')
          end
      end
  end.

(** The events of delivering: everything but requests to the site. *)
Definition delivering (e : event) : Prop :=
  match e with
  | Post _ | Sleep _ | ReadCache | WriteCache => True
  | GetList _ _ | GetDetail _ => False
  end.

(** The row [parse_list_rows] makes of an anchor: the anchor lies in a
    table row, title and link are the anchor's, and category and date are
    the third and the second cell from the end of that table row when it
    has four cells or more, and empty otherwise. *)
Definition row_of_anchor (w : World) (a : located) (r : Row.t) : Prop :=
  exists tr,
    find_parent (py "tr") a = Some tr
    /\ r.(Row.title) = get_text [] a.(el)
    /\ (forall href, attr (py "href") a.(el) = Some href ->
        r.(Row.link) = w.(urljoin) BASE href)
    /\ let tds := map (get_text []) (find_all (py "td") tr) in
       (4 <= len tds ->
        r.(Row.category) = nth 2 (rev tds) [] /\ r.(Row.date_str) = nth 1 (rev tds) [])
       /\ (len tds < 4 -> r.(Row.category) = [] /\ r.(Row.date_str) = []).

(** The anchor lies in a table row. *)
Definition in_table_row (a : located) : bool :=
  match find_parent (py "tr") a with Some _ => true | None => false end.

(** The pages a run asked the listing for, in order. *)
Definition listings (evs : list event) : list (pystr * Z) :=
  flat_map (fun e => match e with GetList c p => [(c, p)] | _ => [] end) evs.

(** The row shows no date the listing parser can read. *)
Definition undated (row : Row.t) : Prop := strptime_ymd row.(Row.date_str) = None.

(** The reasons collecting can end with an exception [e]: a listing
    request among the events failed with it, or a detail page that was
    requested and answered carries a time stamp that raises it. *)
Definition listing_cause (w : World) (this : script) (evs : list event) (e : exn) : Prop :=
  exists c p, In (GetList c p) evs /\ page_rows w this c p = Raise e.

Definition stamp_cause (w : World) (evs : list event) (e : exn) : Prop :=
  exists link text,
    In (GetDetail link) evs /\ detail_text w link = Some text
    /\ parse_detail_datetime_kst text = Raise e.

(** * Properties *)

(** ** Lists and strings *)

Lemma len_app {A} (a b : list A) : len (a ++ b) = len a + len b.
Proof. unfold len. rewrite length_app. lia. Qed.

Lemma len_nonneg {A} (a : list A) : 0 <= len a.
Proof. unfold len. lia. Qed.

Lemma len_cons {A} (x : A) (a : list A) : len (x :: a) = 1 + len a.
Proof. unfold len. cbn [List.length]. lia. Qed.

Lemma weight_app (g h : list pystr) : weight (g ++ h) = weight g + weight h.
Proof. unfold weight. induction g as [|l g IH]; cbn [app fold_right]; lia. Qed.

Lemma weight_nonneg (g : list pystr) : 0 <= weight g.
Proof.
  unfold weight. induction g as [|l g IH]; cbn [fold_right]; [lia|].
  pose proof (len_nonneg l). lia.
Qed.

Lemma len_join (g : list pystr) : g <> [] -> len (join NEWLINE g) = weight g - 1.
Proof.
  induction g as [|l g IH]; [congruence|]. intros _.
  destruct g as [|l' g].
  - cbn [join weight fold_right]. lia.
  - change (join NEWLINE (l :: l' :: g)) with (l ++ NEWLINE ++ join NEWLINE (l' :: g)).
    rewrite !len_app, IH by congruence.
    change (weight (l :: l' :: g)) with (len l + 1 + weight (l' :: g)).
    change (len NEWLINE) with 1. lia.
Qed.

(** ** Runs *)

Lemma added_refl (st : state) : added st st [].
Proof. unfold added. now rewrite app_nil_r. Qed.

Lemma added_trans (st st1 st2 : state) (e1 e2 : list event) :
  added st st1 e1 -> added st1 st2 e2 -> added st st2 (e1 ++ e2).
Proof. unfold added. intros H1 H2. rewrite H2, H1. now rewrite app_assoc. Qed.

Lemma added_inj (st st' : state) (e1 e2 : list event) :
  added st st' e1 -> added st st' e2 -> e1 = e2.
Proof. unfold added. intros H1 H2. rewrite H1 in H2. now apply app_inv_head in H2. Qed.

Lemma emit_run (e : event) (st : state) :
  exists st', emit e st = (Ok tt, st') /\ added st st' [e]
              /\ st'.(cache_file) = st.(cache_file).
Proof. eexists. split; [reflexivity|]. split; reflexivity. Qed.

Create HintDb runs.
#[local] Hint Resolve added_refl : runs.

(** ** The chunking loops *)

Lemma open_ok_within (cur : list pystr) : open_ok cur -> within_budget cur.
Proof.
  intros [H|[l ->]].
  - destruct cur as [|l cur].
    + left. cbn. unfold CHUNK_BUDGET. lia.
    + left. rewrite len_join by congruence. lia.
  - destruct (Z_le_gt_dec (len l) CHUNK_BUDGET) as [H|H].
    + left. exact H.
    + right. exists l. split; [reflexivity|lia].
Qed.

Lemma open_ok_nil : open_ok [].
Proof. left. cbn. unfold CHUNK_BUDGET. lia. Qed.

Lemma open_ok_single (l : pystr) : open_ok [l].
Proof. right. now exists l. Qed.

Lemma open_ok_snoc (cur : list pystr) (l : pystr) :
  weight cur + len l + 1 <= CHUNK_BUDGET -> open_ok (cur ++ [l]).
Proof. intros H. left. rewrite weight_app. cbn [weight fold_right]. lia. Qed.

Lemma weight_snoc (cur : list pystr) (l : pystr) :
  weight (cur ++ [l]) = weight cur + len l + 1.
Proof. rewrite weight_app. cbn [weight fold_right]. lia. Qed.

Lemma split_chunks_fold (lines : list pystr) :
  forall (gs : list (list pystr)) (cur : list pystr),
    Forall within_budget gs -> open_ok cur ->
    exists gs' cur',
      fold_left (fun (acc : list pystr * list pystr * Z) line =>
        let '(chunks, cur, buf) := acc in
        let '(chunks, cur, buf) :=
          if CHUNK_BUDGET <? buf + len line + 1
          then (chunks ++ [join NEWLINE cur], [], 0)
          else (chunks, cur, buf) in
        (chunks, cur ++ [line], buf + len line + 1))
        lines (map (join NEWLINE) gs, cur, weight cur)
      = (map (join NEWLINE) gs', cur', weight cur')
      /\ List.concat gs' ++ cur' = List.concat gs ++ cur ++ lines
      /\ Forall within_budget gs' /\ open_ok cur'.
Proof.
  induction lines as [|line lines IH]; intros gs cur Hgs Hcur.
  - exists gs, cur. cbn [fold_left]. rewrite app_nil_r. auto.
  - cbn [fold_left].
    destruct (CHUNK_BUDGET <? weight cur + len line + 1) eqn:E.
    + destruct (IH (gs ++ [cur]) [line]) as (gs' & cur' & H1 & H2 & H3 & H4).
      * apply Forall_app. split; [exact Hgs|]. constructor; [|constructor].
        now apply open_ok_within.
      * apply open_ok_single.
      * exists gs', cur'. rewrite map_app in H1. cbn [map] in H1.
        change (weight [line]) with (len line + 1 + 0) in H1.
        replace (len line + 1 + 0) with (0 + len line + 1) in H1 by lia.
        split; [exact H1|]. split; [|auto].
        rewrite H2, concat_app. cbn [List.concat]. rewrite app_nil_r, <- !app_assoc.
        reflexivity.
    + apply Z.ltb_ge in E.
      destruct (IH gs (cur ++ [line])) as (gs' & cur' & H1 & H2 & H3 & H4).
      * exact Hgs.
      * apply open_ok_snoc. lia.
      * exists gs', cur'. rewrite weight_snoc in H1.
        split; [exact H1|]. split; [|auto].
        rewrite H2, <- !app_assoc. reflexivity.
Qed.

Lemma split_chunks_groups (lines : list pystr) :
  exists gs : list (list pystr),
    split_chunks lines = map (join NEWLINE) gs
    /\ List.concat gs = lines
    /\ Forall within_budget gs.
Proof.
  unfold split_chunks.
  destruct (split_chunks_fold lines [] [] (Forall_nil _) open_ok_nil)
    as (gs & cur & H1 & H2 & H3 & H4).
  cbn [map weight fold_right List.concat app] in H1, H2.
  rewrite H1. destruct cur as [|l cur].
  - exists gs. rewrite app_nil_r in H2. auto.
  - exists (gs ++ [l :: cur]). rewrite map_app. cbn [map].
    split; [reflexivity|]. split.
    + rewrite concat_app. cbn [List.concat]. now rewrite app_nil_r.
    + apply Forall_app. split; [exact H3|]. constructor; [|constructor].
      now apply open_ok_within.
Qed.

Lemma send_run (w : World) (this : script) (text : pystr) (st : state) :
  exists r st',
    send w this text st = (r, st')
    /\ st'.(cache_file) = st.(cache_file)
    /\ ((configured w = false /\ r = Raise RuntimeError /\ st' = st)
        \/ (configured w = true /\ added st st' [Post text])).
Proof.
  unfold send, configured.
  destruct (falsy (BOT_TOKEN w) || falsy (CHAT_ID w)) eqn:E; cbn [negb].
  - exists (Raise RuntimeError), st. unfold raise. auto 6.
  - unfold bind. destruct (emit_run (Post text) st) as (st1 & -> & Ha & Hc).
    destruct (http_post w text) as [|status body].
    + eexists _, st1. unfold raise. split; [reflexivity|]. auto 6.
    + destruct this.
      * unfold raise_for_status.
        destruct ((400 <=? status) && (status <? 600));
          eexists _, st1; (split; [reflexivity|]); auto 6.
      * eexists _, st1. split; [reflexivity|]. auto 6.
Qed.

Lemma send_chunks_loop (w : World) (this : script) (lines : list pystr) :
  forall (cur : list pystr) (st : state),
    open_ok cur ->
    exists gs r st',
      for_in lines (fun line (acc : list pystr * Z) =>
           let '(chunk, buf) := acc in
           r' <- (if CHUNK_BUDGET <? buf + len line + 1
                  then send w this (join NEWLINE chunk) ;; ret ([], 0)
                  else ret (chunk, buf)) ;;
           let '(chunk, buf) := r' in
           ret (chunk ++ [line], buf + len line + 1)) (cur, weight cur) st
      = (r, st')
      /\ added st st' (map Post (map (join NEWLINE) gs))
      /\ st'.(cache_file) = st.(cache_file)
      /\ Forall within_budget gs
      /\ (configured w = false -> gs = [])
      /\ match r with
         | Ok (cur', buf') =>
             buf' = weight cur' /\ open_ok cur'
             /\ List.concat gs ++ cur' = cur ++ lines
         | Raise e =>
             exists rest, List.concat gs ++ rest = cur ++ lines
         end.
Proof.
  induction lines as [|line lines IH]; intros cur st Hcur.
  - exists [], (Ok (cur, weight cur)), st. cbn [for_in map List.concat app].
    unfold ret. rewrite app_nil_r. auto 10 with runs.
  - cbn [for_in]. unfold bind at 1. unfold bind at 1.
    destruct (CHUNK_BUDGET <? weight cur + len line + 1) eqn:E.
    + unfold bind at 1.
      destruct (send_run w this (join NEWLINE cur) st) as (r0 & st0 & -> & Hc0 & Hs).
      destruct Hs as [(_ & -> & ->)|(Hconf & Ha0)].
      * exists [], (Raise RuntimeError), st. cbn [map List.concat app].
        split; [reflexivity|]. split; [auto with runs|]. split; [reflexivity|].
        split; [constructor|]. split; [reflexivity|]. now exists (cur ++ line :: lines).
      * destruct r0 as [[]|e].
        -- unfold ret at 1. unfold ret at 1.
           destruct (IH [line] st0 (open_ok_single line))
             as (gs & r & st' & Hrun & Ha & Hc & Hgs & _ & Hr).
           change (weight [line]) with (len line + 1 + 0) in Hrun.
           replace (len line + 1 + 0) with (0 + len line + 1) in Hrun by lia.
           cbn [app] in Hrun |- *. rewrite Hrun.
           exists (cur :: gs), r, st'. split; [reflexivity|].
           split; [exact (added_trans _ _ _ _ _ Ha0 Ha)|].
           split; [congruence|].
           split; [constructor; [now apply open_ok_within|exact Hgs]|].
           split; [congruence|].
           destruct r as [[cur' buf']|e].
           ++ destruct Hr as (Hb & Ho & Hcat). split; [exact Hb|]. split; [exact Ho|].
              cbn [List.concat]. rewrite <- app_assoc, Hcat. reflexivity.
           ++ destruct Hr as (rest & Hcat). exists rest.
              cbn [List.concat]. rewrite <- app_assoc, Hcat. reflexivity.
        -- exists [cur], (Raise e), st0. split; [reflexivity|].
           split; [exact Ha0|]. split; [exact Hc0|].
           split; [constructor; [now apply open_ok_within|constructor]|].
           split; [congruence|].
           exists (line :: lines). cbn [List.concat]. now rewrite app_nil_r.
    + apply Z.ltb_ge in E. unfold ret at 1. unfold ret at 1.
      destruct (IH (cur ++ [line]) st) as (gs & r & st' & Hrun & Ha & Hc & Hgs & Hn & Hr).
      { apply open_ok_snoc. lia. }
      rewrite weight_snoc in Hrun. rewrite Hrun.
      exists gs, r, st'. split; [reflexivity|]. split; [exact Ha|].
      split; [exact Hc|]. split; [exact Hgs|]. split; [exact Hn|].
      destruct r as [[cur' buf']|e].
      * destruct Hr as (Hb & Ho & Hcat). rewrite <- app_assoc in Hcat. auto.
      * destruct Hr as (rest & Hcat). exists rest. now rewrite <- app_assoc in Hcat.
Qed.

Lemma send_ok (w : World) (this : script) (text : pystr) (st : state) :
  configured w = true -> delivered w this text = true ->
  exists st', send w this text st = (Ok tt, st')
              /\ st'.(cache_file) = st.(cache_file) /\ added st st' [Post text].
Proof.
  unfold send, configured, delivered. intros Hc Hd.
  destruct (falsy (BOT_TOKEN w) || falsy (CHAT_ID w)); [discriminate|].
  unfold bind. destruct (emit_run (Post text) st) as (st1 & -> & Ha & Hf).
  destruct (http_post w text) as [|status body]; [discriminate|].
  destruct this.
  - unfold raise_for_status. destruct ((400 <=? status) && (status <? 600));
      [discriminate|]. exists st1. auto.
  - exists st1. auto.
Qed.

Lemma send_chunks_loop_ok (w : World) (this : script) (lines : list pystr) :
  configured w = true -> (forall t, delivered w this t = true) ->
  forall (acc : list pystr * Z) (st : state),
    exists acc' st',
      for_in lines (fun line (acc : list pystr * Z) =>
           let '(chunk, buf) := acc in
           r' <- (if CHUNK_BUDGET <? buf + len line + 1
                  then send w this (join NEWLINE chunk) ;; ret ([], 0)
                  else ret (chunk, buf)) ;;
           let '(chunk, buf) := r' in
           ret (chunk ++ [line], buf + len line + 1)) acc st
      = (Ok acc', st').
Proof.
  intros Hc Hd. induction lines as [|line lines IH]; intros [cur buf] st.
  - eexists _, _. reflexivity.
  - cbn [for_in]. unfold bind at 1. unfold bind at 1.
    destruct (CHUNK_BUDGET <? buf + len line + 1).
    + unfold bind at 1.
      destruct (send_ok w this (join NEWLINE cur) st Hc (Hd _)) as (st1 & -> & _).
      unfold ret at 1. unfold ret at 1. apply IH.
    + unfold ret at 1. unfold ret at 1. apply IH.
Qed.

Lemma send_chunks_groups (w : World) (this : script) (lines : list pystr) (st : state) :
  exists gs r st',
    send_chunks w this lines st = (r, st')
    /\ added st st' (map Post (map (join NEWLINE) gs))
    /\ st'.(cache_file) = st.(cache_file)
    /\ Forall within_budget gs
    /\ (exists rest, List.concat gs ++ rest = lines)
    /\ (r = Ok tt -> List.concat gs = lines)
    /\ (configured w = false -> gs = [])
    /\ (configured w = true -> (forall t, delivered w this t = true) -> r = Ok tt).
Proof.
  unfold send_chunks. unfold bind at 1.
  destruct (send_chunks_loop w this lines [] st open_ok_nil)
    as (gs & r & st1 & Hrun & Ha & Hc & Hgs & Hn & Hr).
  change (weight []) with 0 in Hrun. rewrite Hrun.
  destruct r as [[cur buf]|e].
  - destruct Hr as (_ & Ho & Hcat). cbn [app fst] in Hcat |- *.
    destruct cur as [|l cur].
    + rewrite app_nil_r in Hcat.
      exists gs, (Ok tt), st1. unfold ret.
      split; [reflexivity|]. split; [exact Ha|]. split; [exact Hc|].
      split; [exact Hgs|]. split; [exists []; now rewrite app_nil_r|]. auto.
    + destruct (send_run w this (join NEWLINE (l :: cur)) st1)
        as (r0 & st2 & Hsent & Hc2 & Hs).
      rewrite Hsent.
      destruct Hs as [(Hconf & -> & ->)|(Hconf & Ha2)].
      * exists gs, (Raise RuntimeError), st1.
        split; [reflexivity|]. split; [exact Ha|]. split; [exact Hc|].
        split; [exact Hgs|]. split; [now exists (l :: cur)|].
        split; [discriminate|]. split; [exact Hn|]. congruence.
      * exists (gs ++ [l :: cur]), r0, st2.
        split; [reflexivity|]. rewrite !map_app. cbn [map].
        split; [exact (added_trans _ _ _ _ _ Ha Ha2)|]. split; [congruence|].
        split; [apply Forall_app; split; [exact Hgs|];
                constructor; [now apply open_ok_within|constructor]|].
        rewrite concat_app. cbn [List.concat]. rewrite app_nil_r.
        split; [exists []; now rewrite app_nil_r|].
        split; [intros _; exact Hcat|]. split; [congruence|].
        intros _ Hd.
        destruct (send_ok w this (join NEWLINE (l :: cur)) st1 Hconf (Hd _))
          as (st3 & Hsend & _).
        congruence.
  - destruct Hr as (rest & Hcat). cbn [app] in Hcat.
    exists gs, (Raise e), st1.
    split; [reflexivity|]. split; [exact Ha|]. split; [exact Hc|].
    split; [exact Hgs|]. split; [now exists rest|].
    split; [discriminate|]. split; [exact Hn|].
    intros Hconf Hd.
    destruct (send_chunks_loop_ok w this lines Hconf Hd ([], 0) st) as (a & s & Hok).
    congruence.
Qed.

(** ** The cache of delivered links *)

Lemma str_eqb_eq (a b : pystr) : str_eqb a b = true <-> a = b.
Proof.
  revert b. induction a as [|x a IH]; intros [|y b]; cbn [str_eqb];
    try (split; congruence).
  rewrite andb_true_iff, Z.eqb_eq, IH. split; [intros []|intros [=]]; subst; auto.
Qed.

Lemma str_eqb_refl (a : pystr) : str_eqb a a = true.
Proof. now apply str_eqb_eq. Qed.

Lemma load_cache_run (st : state) :
  exists s st',
    load_cache st = (Ok s, st')
    /\ added st st' [ReadCache]
    /\ st'.(cache_file) = st.(cache_file)
    /\ match st.(cache_file) with
       | Json (JObj kv) =>
           match py_set (dict_get (py "links") (JArr []) kv) with
           | Ok s' => s = s'
           | Raise _ => s = []
           end
       | _ => s = []
       end.
Proof.
  unfold load_cache, try_except, bind, read_file.
  destruct (emit_run ReadCache st) as (st1 & -> & Ha & Hc).
  rewrite Hc.
  destruct (cache_file st) as [| | |j]; try (exists [], st1; cbn; now auto).
  destruct j; try (exists [], st1; cbn; now auto).
  unfold ret, lift.
  destruct (py_set (dict_get (py "links") (JArr []) kv)) as [s|e].
  - exists s, st1. auto.
  - exists [], st1. cbn. auto.
Qed.

Lemma find_none_rev {A} (f : A -> bool) (l : list A) :
  (forall x, In x l -> f x = false) -> find f (rev l) = None.
Proof.
  intros H. destruct (find f (rev l)) as [x|] eqn:E; [|reflexivity].
  apply find_some in E. destruct E as [Hin Hf].
  apply in_rev in Hin. rewrite (H x Hin) in Hf. discriminate.
Qed.

Lemma py_set_atoms (l : list atom) :
  py_set (JArr (map json_of_atom l)) = Ok (set_of_list l).
Proof.
  unfold py_set.
  assert (H1 : forallb (fun j => match atom_of_json j with Some _ => true | None => false end)
                 (map json_of_atom l) = true).
  { apply forallb_forall. intros j Hj. apply in_map_iff in Hj.
    destruct Hj as (a & <- & _). now destruct a. }
  rewrite H1. f_equal. f_equal. clear H1.
  induction l as [|a l IH]; [reflexivity|].
  cbn [map flat_map]. rewrite IH. now destruct a.
Qed.

(** C8. [load_cache] never raises: whatever the file at [CACHE_PATH] is, it
    returns a set and leaves the file as it was.  The set is empty when the
    file is missing, cannot be opened or is not JSON, when the document is
    not an object and when the object has no ["links"] field; a well-formed
    file yields the set of its links. *)
Theorem load_cache_fail_open (st : state) :
  exists (s : pyset) (st' : state),
    load_cache st = (Ok s, st')
    /\ added st st' [ReadCache]
    /\ st'.(cache_file) = st.(cache_file)
    /\ (st.(cache_file) = NoFile \/ st.(cache_file) = Unreadable
        \/ st.(cache_file) = Garbage -> s = [])
    /\ (forall j, st.(cache_file) = Json j -> (forall kv, j <> JObj kv) -> s = [])
    /\ (forall kv, st.(cache_file) = Json (JObj kv) ->
        (forall v, ~ In (py "links", v) kv) -> s = [])
    /\ (forall kv l, st.(cache_file) = Json (JObj kv) ->
        dict_get (py "links") (JArr []) kv = JArr (map json_of_atom l) ->
        s = set_of_list l).
Proof.
  destruct (load_cache_run st) as (s & st' & Hrun & Ha & Hc & Hs).
  exists s, st'. repeat split; try assumption.
  - intros [H|[H|H]]; rewrite H in Hs; exact Hs.
  - intros j Hj Hno. rewrite Hj in Hs. destruct j; try exact Hs.
    now destruct (Hno kv).
  - intros kv Hf Hno. rewrite Hf in Hs.
    unfold dict_get in Hs. rewrite find_none_rev in Hs.
    + exact Hs.
    + intros [k v] Hin. cbn [fst].
      destruct (str_eqb k (py "links")) eqn:E; [|reflexivity].
      apply str_eqb_eq in E. subst k. now destruct (Hno v).
  - intros kv l Hf Hl. rewrite Hf, Hl, py_set_atoms in Hs. exact Hs.
Qed.

Lemma save_cache_run (w : World) (s : pyset) (st : state) :
  exists st',
    save_cache w s st = (Ok tt, st')
    /\ added st st' [WriteCache]
    /\ match w.(disk_write) with
       | WriteOk =>
           exists evicted kept,
             w.(set_order) s = evicted ++ kept
             /\ st'.(cache_file)
                = Json (JObj [(py "links", JArr (map json_of_atom kept))])
             /\ len kept = Z.min MAX_CACHE (len (w.(set_order) s))
       | OpenFails => st'.(cache_file) = st.(cache_file)
       | DumpFails => st'.(cache_file) = Garbage
       end.
Proof.
  unfold save_cache, try_except, bind.
  destruct (emit_run WriteCache st) as (st1 & -> & Ha & Hc).
  destruct (disk_write w).
  - eexists. split; [reflexivity|]. split; [exact Ha|].
    set (l := set_order w s).
    destruct (MAX_CACHE <? len l) eqn:E.
    + exists (firstn (Z.to_nat (len l - MAX_CACHE)) l), (slice_last MAX_CACHE l).
      unfold slice_last. rewrite firstn_skipn.
      split; [reflexivity|]. split; [reflexivity|].
      apply Z.ltb_lt in E. unfold len in *. rewrite length_skipn.
      unfold MAX_CACHE in *. lia.
    + exists [], l. split; [reflexivity|]. split; [reflexivity|].
      apply Z.ltb_ge in E. lia.
  - exists st1. unfold raise, ret. auto.
  - eexists. unfold set_file, raise, ret. cbn. split; [reflexivity|]. auto.
Qed.

(** What [save_cache] does, whatever the order of the set.  It never
    raises.  When the file can be written it then holds at most [MAX_CACHE]
    links: all of the set when it has no more than that, and otherwise the
    last [MAX_CACHE] of the order in which [list(links_set)] enumerates the
    set, those before them in that order being dropped.  When the file
    cannot be opened it stays as it was; when the write breaks off it is
    left cut short. *)
Theorem save_cache_keeps_the_tail (w : World) (s : pyset) (st : state) :
  exists st',
    save_cache w s st = (Ok tt, st')
    /\ added st st' [WriteCache]
    /\ (w.(disk_write) = WriteOk ->
        exists evicted kept,
          w.(set_order) s = evicted ++ kept
          /\ st'.(cache_file)
             = Json (JObj [(py "links", JArr (map json_of_atom kept))])
          /\ len kept <= MAX_CACHE
          /\ (len (w.(set_order) s) <= MAX_CACHE -> evicted = [])
          /\ (MAX_CACHE < len (w.(set_order) s) -> len kept = MAX_CACHE))
    /\ (w.(disk_write) = OpenFails -> st'.(cache_file) = st.(cache_file))
    /\ (w.(disk_write) = DumpFails -> st'.(cache_file) = Garbage).
Proof.
  destruct (save_cache_run w s st) as (st' & Hrun & Ha & Hw).
  exists st'. split; [exact Hrun|]. split; [exact Ha|].
  split; [|split; intros Hf; rewrite Hf in Hw; exact Hw].
  intros Hok. rewrite Hok in Hw.
  destruct Hw as (evicted & kept & Hsplit & Hfile & Hlen).
  exists evicted, kept. split; [exact Hsplit|]. split; [exact Hfile|].
  split; [lia|]. split; [|lia].
  intros Hsmall. rewrite Hsplit, len_app in Hlen, Hsmall.
  destruct evicted as [|a evicted]; [reflexivity|]. rewrite len_cons in *.
  pose proof (len_nonneg evicted). lia.
Qed.

Lemma save_cache_keeps_the_tail_witness :
  exists st',
    save_cache sample_world many_links fresh = (Ok tt, st')
    /\ exists evicted kept,
         many_links = evicted ++ kept
         /\ st'.(cache_file) = Json (JObj [(py "links", JArr (map json_of_atom kept))])
         /\ len kept = 300.
Proof.
  destruct (save_cache_keeps_the_tail sample_world many_links fresh)
    as (st' & Hrun & _ & Hw & _).
  exists st'. split; [exact Hrun|].
  destruct (Hw eq_refl) as (evicted & kept & H1 & H2 & _ & _ & H3).
  exists evicted, kept. split; [exact H1|]. split; [exact H2|].
  apply H3. vm_compute. reflexivity.
Defined.

(** C3 fails on the code.  [save_cache] cuts [list(links_set)] to its last
    [MAX_CACHE] entries, which would drop the oldest links if the list were
    in insertion order; [links_set] is a set, and its order is not that.
    Where a set enumerates its elements newest first, saving the 301 links
    of [many_links] keeps the link that was added first and drops the one
    that was added last. *)
Lemma save_cache_not_fifo :
  let w := reordered (@rev atom) sample_world in
  let s := set_of_list many_links in
  let kept := rev (firstn 300 many_links) in
  s = many_links
  /\ save_cache w s fresh
     = (Ok tt, {| trace := [WriteCache];
                  cache_file := Json (JObj [(py "links", JArr (map json_of_atom kept))]) |})
  /\ set_contains (nth 0 many_links ANone) kept = true
  /\ set_contains (nth 300 many_links ANone) kept = false.
Proof. vm_compute. repeat split. Qed.

(** ** The pager *)

Lemma log_nil (st : state) : log [] st = st.
Proof. destruct st. unfold log. cbn. now rewrite app_nil_r. Qed.

Lemma log_app (e1 e2 : list event) (st : state) :
  log e2 (log e1 st) = log (e1 ++ e2) st.
Proof. unfold log. cbn. now rewrite app_assoc. Qed.

Lemma log_added (evs : list event) (st : state) : added st (log evs st) evs.
Proof. reflexivity. Qed.

Lemma log_inj (e1 e2 : list event) (st : state) : log e1 st = log e2 st -> e1 = e2.
Proof. unfold log. intros [= H]. now apply app_inv_head in H. Qed.

Lemma get_detail_run (w : World) (link : pystr) (st : state) :
  get_detail w link st = (Ok (detail_text w link), log [GetDetail link] st).
Proof.
  unfold get_detail, detail_text, try_except, bind, emit, raise_for_status, is_error.
  change {| trace := trace st ++ [GetDetail link]; cache_file := cache_file st |}
    with (log [GetDetail link] st).
  destruct (http_detail w link) as [|status text]; [reflexivity|].
  destruct ((400 <=? status) && (status <? 600)); reflexivity.
Qed.

Lemma row_body_run (w : World) (this : script) (name : pystr) (since now : datetime)
    (row : Row.t) (items : list Item.t) (b : bool) (st : state) :
  row_body w this name since now row (items, b) st
  = match fate_of w this name since now row with
    | Stale => (Ok (items, true), st)
    | Dropped => (Ok (items, b), log [GetDetail row.(Row.link)] st)
    | Crash e => (Raise e, log [GetDetail row.(Row.link)] st)
    | Keep it => (Ok (items ++ [it], b), log [GetDetail row.(Row.link)] st)
    end.
Proof.
  unfold row_body, fate_of, stale.
  destruct (match strptime_ymd (Row.date_str row) with
            | Some d => d <? date_of (now - timedelta 1 0)
            | None => false
            end); [reflexivity|].
  unfold bind at 1. rewrite get_detail_run.
  destruct (detail_text w (Row.link row)) as [text|]; [|reflexivity].
  unfold bind, lift.
  destruct (parse_detail_datetime_kst text) as [[d|]|e]; try reflexivity.
  destruct ((since <=? d) && (d <=? now)); reflexivity.
Qed.

Section PagerRuns.

Variables (w : World) (this : script).
Variables (code name : pystr) (since now : datetime).

Lemma stale_fate (row : Row.t) :
  stale now row = true <-> fate_of w this name since now row = Stale.
Proof.
  unfold fate_of. destruct (stale now row); [tauto|].
  split; [discriminate|].
  destruct (detail_text w (Row.link row)) as [text|]; [|discriminate].
  destruct (parse_detail_datetime_kst text) as [[d|]|e]; try discriminate.
  destruct ((since <=? d) && (d <=? now)); discriminate.
Qed.

Lemma rows_run (rows : list Row.t) :
  forall (items : list Item.t) (b : bool) (st : state),
    for_in rows (row_body w this name since now) (items, b) st
    = (match crash_of w this name since now rows with
       | None => Ok (items ++ kept w this name since now rows,
                     b || existsb (stale now) rows)
       | Some e => Raise e
       end,
       log (asked w this name since now (upto_crash w this name since now rows)) st).
Proof.
  induction rows as [|row rows IH]; intros items b st.
  - cbn. unfold ret. now rewrite app_nil_r, orb_false_r, log_nil.
  - cbn [for_in]. unfold bind. rewrite row_body_run.
    cbn [crash_of upto_crash kept asked flat_map existsb].
    fold (kept w this name since now rows).
    fold (asked w this name since now).
    pose proof (stale_fate row) as Hs.
    destruct (fate_of w this name since now row) as [| |e|it] eqn:F.
    + rewrite IH. cbn [flat_map]. rewrite F.
      fold (asked w this name since now (upto_crash w this name since now rows)).
      replace (stale now row) with true by (symmetry; now apply Hs).
      cbn [app orb]. now rewrite orb_true_r.
    + rewrite IH, log_app. cbn [flat_map]. rewrite F.
      fold (asked w this name since now (upto_crash w this name since now rows)).
      destruct (stale now row); [now discriminate (proj1 Hs eq_refl)|].
      reflexivity.
    + cbn [flat_map]. rewrite F. reflexivity.
    + rewrite IH, log_app. cbn [flat_map]. rewrite F.
      fold (asked w this name since now (upto_crash w this name since now rows)).
      destruct (stale now row); [now discriminate (proj1 Hs eq_refl)|].
      now rewrite <- app_assoc.
Qed.

Lemma upto_crash_none (rows : list Row.t) :
  crash_of w this name since now rows = None ->
  upto_crash w this name since now rows = rows.
Proof.
  induction rows as [|row rows IH]; [reflexivity|].
  cbn [crash_of upto_crash].
  destruct (fate_of w this name since now row); try discriminate;
    intros H; now rewrite IH.
Qed.

Lemma get_soup_run (page : Z) (st : state) :
  get_soup w code page st
  = (match w.(http_list) code page with
     | NoAnswer => Raise ConnectionError
     | Answer status text =>
         if is_error status then Raise (HTTPError status)
         else Ok (w.(BeautifulSoup) text)
     end, log [GetList code page] st).
Proof.
  unfold get_soup, bind, emit, raise_for_status, is_error.
  change {| trace := trace st ++ [GetList code page]; cache_file := cache_file st |}
    with (log [GetList code page] st).
  destruct (http_list w code page) as [|status text]; [reflexivity|].
  destruct ((400 <=? status) && (status <? 600)); reflexivity.
Qed.

Lemma fetch_is_pager (pages : list Z) :
  forall (items : list Item.t) (st : state),
    for_break pages (page_body w this code name since now) items st
    = (fst (pager w this code name since now pages items),
       log (snd (pager w this code name since now pages items)) st).
Proof.
  induction pages as [|page pages IH]; intros items st.
  - cbn. unfold ret. now rewrite log_nil.
  - cbn [for_break pager]. unfold bind at 1. unfold page_body at 1.
    unfold bind at 1. rewrite get_soup_run. unfold page_rows.
    destruct (http_list w code page) as [|status text]; [reflexivity|].
    destruct (is_error status); [reflexivity|].
    destruct (parse_list_rows w this (BeautifulSoup w text)) as [|row rows] eqn:R;
      [reflexivity|].
    unfold bind at 1. rewrite rows_run.
    destruct (crash_of w this name since now (row :: rows)) as [e|] eqn:C.
    + cbn [fst snd]. rewrite log_app. reflexivity.
    + rewrite (upto_crash_none _ C). cbn [orb].
      destruct (existsb (stale now) (row :: rows)).
      * unfold ret. cbn [fst snd]. rewrite log_app. reflexivity.
      * unfold bind at 1. unfold emit, ret.
        match goal with
        | |- context [ {| trace := trace ?s ++ [?e]; cache_file := cache_file ?s |} ] =>
            change {| trace := trace s ++ [e]; cache_file := cache_file s |}
              with (log [e] s)
        end.
        rewrite IH, !log_app.
        destruct (pager w this code name since now pages
                    (items ++ kept w this name since now (row :: rows))) as [r evs].
        cbn [fst snd app]. reflexivity.
Qed.

End PagerRuns.

Section PagerFacts.

Variables (w : World) (this : script).
Variables (code name : pystr) (since now : datetime).


Lemma keep_inv (row : Row.t) (it : Item.t) :
  fate_of w this name since now row = Keep it ->
  exists text d,
    stale now row = false
    /\ detail_text w row.(Row.link) = Some text
    /\ parse_detail_datetime_kst text = Ok (Some d)
    /\ since <= d <= now
    /\ it = item_of w this name row text d.
Proof.
  unfold fate_of. destruct (stale now row); [discriminate|].
  destruct (detail_text w (Row.link row)) as [text|]; [|discriminate].
  destruct (parse_detail_datetime_kst text) as [[d|]|e] eqn:P; try discriminate.
  destruct ((since <=? d) && (d <=? now)) eqn:W; [|discriminate].
  intros [= <-]. exists text, d. apply andb_true_iff in W. destruct W as [W1 W2].
  apply Z.leb_le in W1, W2. auto 6.
Qed.

Lemma keep_fate (row : Row.t) (text : pystr) (d : datetime) :
  stale now row = false ->
  detail_text w row.(Row.link) = Some text ->
  parse_detail_datetime_kst text = Ok (Some d) ->
  since <= d <= now ->
  fate_of w this name since now row = Keep (item_of w this name row text d).
Proof.
  intros Hs Ht Hp [H1 H2]. unfold fate_of. rewrite Hs, Ht, Hp.
  apply Z.leb_le in H1, H2. now rewrite H1, H2.
Qed.

Lemma in_kept (rows : list Row.t) (it : Item.t) :
  In it (kept w this name since now rows)
  <-> exists row, In row rows /\ fate_of w this name since now row = Keep it.
Proof.
  unfold kept. rewrite in_flat_map. split; intros (row & Hin & H); exists row.
  - split; [exact Hin|]. destruct (fate_of w this name since now row); try contradiction.
    destruct H as [->|[]]. reflexivity.
  - split; [exact Hin|]. rewrite H. now left.
Qed.

Lemma in_asked (rows : list Row.t) (e : event) :
  In e (asked w this name since now rows)
  <-> exists row, In row rows /\ stale now row = false /\ e = GetDetail row.(Row.link).
Proof.
  unfold asked. rewrite in_flat_map. split; intros (row & Hin & H); exists row.
  - split; [exact Hin|]. pose proof (stale_fate w this name since now row) as Hs.
    destruct (stale now row).
    + rewrite (proj1 Hs eq_refl) in H. contradiction.
    + destruct (fate_of w this name since now row); try contradiction;
        destruct H as [<-|[]]; auto.
  - split; [exact Hin|]. destruct H as [Hs ->].
    pose proof (stale_fate w this name since now row) as Hf.
    destruct (fate_of w this name since now row); try (now left).
    rewrite (proj2 Hf eq_refl) in Hs. discriminate.
Qed.

Lemma asked_no_listing (rows : list Row.t) (c : pystr) (p : Z) :
  ~ In (GetList c p) (asked w this name since now rows).
Proof. rewrite in_asked. intros (row & _ & _ & H). discriminate. Qed.

Lemma listings_app (e1 e2 : list event) :
  listings (e1 ++ e2) = listings e1 ++ listings e2.
Proof. unfold listings. apply flat_map_app. Qed.

Lemma listings_asked (rows : list Row.t) : listings (asked w this name since now rows) = [].
Proof.
  unfold listings, asked. induction rows as [|row rows IH]; [reflexivity|].
  cbn [flat_map]. rewrite flat_map_app, IH, app_nil_r.
  destruct (fate_of w this name since now row); reflexivity.
Qed.

Lemma in_listings (evs : list event) (c : pystr) (p : Z) :
  In (c, p) (listings evs) <-> In (GetList c p) evs.
Proof.
  unfold listings. rewrite in_flat_map. split.
  - intros (e & Hin & H). destruct e; try contradiction.
    destruct H as [[= <- <-]|[]]. exact Hin.
  - intros H. exists (GetList c p). split; [exact H|now left].
Qed.

Lemma kept_resolved (rows : list Row.t) :
  Forall (resolved_in_window w since now) (kept w this name since now rows).
Proof.
  apply Forall_forall. intros it Hin. apply in_kept in Hin.
  destruct Hin as (row & _ & Hk). apply keep_inv in Hk.
  destruct Hk as (text & d & _ & Ht & Hp & Hw & ->).
  split; [exact Hw|]. exists text. auto.
Qed.

(** What the pager returns is what it started from and the items kept
    from the pages it went through. *)
Lemma pager_extends (pages : list Z) :
  forall items items' evs,
    pager w this code name since now pages items = (Ok items', evs) ->
    exists extra, items' = items ++ extra
                  /\ Forall (resolved_in_window w since now) extra.
Proof.
  induction pages as [|page pages IH]; intros items items' evs; cbn [pager].
  - intros [= <- <-]. exists []. now rewrite app_nil_r.
  - destruct (page_rows w this code page) as [[|row rows]|e]; try discriminate.
    + intros [= <- <-]. exists []. now rewrite app_nil_r.
    + remember (row :: rows) as rs eqn:Hrs.
      destruct (crash_of w this name since now rs); [discriminate|].
      destruct (existsb (stale now) rs).
      * intros [= <- <-]. exists (kept w this name since now rs).
        split; [reflexivity|apply kept_resolved].
      * destruct (pager w this code name since now pages
                    (items ++ kept w this name since now rs)) as [r evs'] eqn:E.
        intros [= -> <-]. apply IH in E. destruct E as (extra & -> & Hx).
        exists (kept w this name since now rs ++ extra). rewrite app_assoc.
        split; [reflexivity|]. apply Forall_app. split; [apply kept_resolved|exact Hx].
Qed.

Lemma py_range_cons (lo hi : Z) :
  lo < hi -> py_range lo hi = lo :: py_range (lo + 1) hi.
Proof.
  intros H. unfold py_range.
  replace (Z.to_nat (hi - lo)) with (S (Z.to_nat (hi - (lo + 1)))) by lia.
  cbn [seq map]. f_equal; [lia|].
  rewrite <- seq_shift, map_map. apply map_ext. intros i. lia.
Qed.

Lemma py_range_nil (lo hi : Z) : hi <= lo -> py_range lo hi = [].
Proof. intros H. unfold py_range. now replace (Z.to_nat (hi - lo)) with O by lia. Qed.

Lemma len_py_range (lo hi : Z) : len (py_range lo hi) = Z.max 0 (hi - lo).
Proof. unfold py_range, len. rewrite length_map, length_seq. lia. Qed.

(** The listing requests of the pager go to its own section, to pages
    of the range, each at most once and in order; a page that stops the
    pagination is the last one asked for. *)
Lemma pager_listings (n : nat) :
  forall (lo : Z) (items : list Item.t) r evs,
    pager w this code name since now (py_range lo (lo + Z.of_nat n)) items = (r, evs) ->
    len (listings evs) <= Z.of_nat n
    /\ (forall c p, In (GetList c p) evs -> c = code /\ lo <= p < lo + Z.of_nat n)
    /\ (forall p, In (GetList code p) evs -> stops w this now code p ->
        forall q, p < q -> ~ In (GetList code q) evs).
Proof.
  induction n as [|n IH]; intros lo items r evs.
  - rewrite py_range_nil by lia. cbn [pager]. intros [= <- <-].
    cbn. unfold len. cbn. split; [lia|]. split; intros; contradiction.
  - rewrite py_range_cons by lia.
    replace (lo + Z.of_nat (S n)) with (lo + 1 + Z.of_nat n) by lia.
    cbn [pager].
    assert (Hone : forall tail : list event,
               (forall c p, ~ In (GetList c p) tail) -> listings tail = [] ->
               len (listings (GetList code lo :: tail)) <= Z.of_nat (S n)
               /\ (forall c p, In (GetList c p) (GetList code lo :: tail) ->
                   c = code /\ lo <= p < lo + 1 + Z.of_nat n)
               /\ (forall p, In (GetList code p) (GetList code lo :: tail) ->
                   stops w this now code p ->
                   forall q, p < q -> ~ In (GetList code q) (GetList code lo :: tail))).
    { intros tail Hno Hl. split.
      - change (listings (GetList code lo :: tail)) with ((code, lo) :: listings tail).
        rewrite Hl. unfold len. cbn. lia.
      - split.
        + intros c p [[= <- <-]|H]; [split; [reflexivity|lia]|now apply Hno in H].
        + intros p [[= <-]|H] _ q Hq [[= ->]|H']; try (now apply Hno in H);
            try (now apply Hno in H'). lia. }
    destruct (page_rows w this code lo) as [[|row rows]|e] eqn:R.
    + intros [= <- <-]. apply Hone; [intros c p []|reflexivity].
    + remember (row :: rows) as rs eqn:Hrs.
      destruct (crash_of w this name since now rs).
      * intros [= <- <-]. apply Hone; [intros; apply asked_no_listing|].
        apply listings_asked.
      * destruct (existsb (stale now) rs) eqn:Hst.
        -- intros [= <- <-]. apply Hone; [intros; apply asked_no_listing|].
           apply listings_asked.
        -- destruct (pager w this code name since now (py_range (lo + 1) (lo + 1 + Z.of_nat n))
                       (items ++ kept w this name since now rs)) as [r' evs'] eqn:E.
           intros [= <- <-]. apply IH in E. destruct E as (Hlen & Hwhere & Hstop).
           assert (Hin : forall c p,
                      In (GetList c p)
                         (GetList code lo :: asked w this name since now rs ++ Sleep
                            match this with molit_bot_now => 400 | molit_bot => 500 end
                            :: evs')
                      -> (c = code /\ p = lo) \/ In (GetList c p) evs').
           { intros c p [[= <- <-]|H]; [now left|].
             apply in_app_or in H. destruct H as [H|[H|H]].
             - now apply asked_no_listing in H.
             - discriminate.
             - now right. }
           split; [|split].
           ++ change (listings (GetList code lo :: ?x)) with ((code, lo) :: listings x).
              rewrite len_cons, listings_app, listings_asked. cbn [app].
              change (listings (Sleep ?m :: evs')) with (listings evs'). lia.
           ++ intros c p H. apply Hin in H. destruct H as [[-> ->]|H].
              ** split; [reflexivity|lia].
              ** apply Hwhere in H. destruct H as [-> H]. split; [reflexivity|lia].
           ++ intros p H Hs q Hq H'. apply Hin in H. apply Hin in H'.
              destruct H as [[_ ->]|H].
              ** destruct Hs as (rows' & Hr & Hs). rewrite R in Hr.
                 injection Hr as <-. destruct Hs as [Hs|Hs]; congruence.
              ** destruct H' as [[_ ->]|H'].
                 --- apply Hwhere in H. lia.
                 --- exact (Hstop p H Hs q Hq H').
    + intros [= <- <-]. apply Hone; [intros c p []|reflexivity].
Qed.

Lemma asked_fetching (rows : list Row.t) : Forall fetching (asked w this name since now rows).
Proof.
  apply Forall_forall. intros e H. apply in_asked in H.
  destruct H as (row & _ & _ & ->). exact I.
Qed.

Lemma pager_fetching (pages : list Z) :
  forall items r evs,
    pager w this code name since now pages items = (r, evs) -> Forall fetching evs.
Proof.
  induction pages as [|page pages IH]; intros items r evs; cbn [pager].
  - intros [= <- <-]. constructor.
  - destruct (page_rows w this code page) as [[|row rows]|e].
    + intros [= <- <-]. repeat constructor.
    + remember (row :: rows) as rs eqn:Hrs.
      destruct (crash_of w this name since now rs).
      * intros [= <- <-]. constructor; [exact I|apply asked_fetching].
      * destruct (existsb (stale now) rs).
        -- intros [= <- <-]. constructor; [exact I|apply asked_fetching].
        -- destruct (pager w this code name since now pages
                       (items ++ kept w this name since now rs)) as [r' evs'] eqn:E.
           intros [= <- <-]. constructor; [exact I|].
           apply Forall_app. split; [apply asked_fetching|].
           constructor; [exact I|]. exact (IH _ _ _ E).
    + intros [= <- <-]. repeat constructor.
Qed.

(** On a page the pager went through, every row that does not raise the
    stop signal had its detail page requested, and its item, if it has
    one, is in the result. *)
Lemma pager_complete (pages : list Z) :
  forall items items' evs,
    pager w this code name since now pages items = (Ok items', evs) ->
    forall p rows row,
      In (GetList code p) evs -> page_rows w this code p = Ok rows ->
      In row rows -> stale now row = false ->
      In (GetDetail row.(Row.link)) evs
      /\ (forall it, fate_of w this name since now row = Keep it -> In it items').
Proof.
  induction pages as [|page pages IH]; intros items items' evs; cbn [pager].
  - intros [= <- <-] p rows row [].
  - destruct (page_rows w this code page) as [[|row0 rows0]|e] eqn:R; try discriminate.
    + intros [= <- <-] p rows row [[= <-]|[]] Hr Hin. rewrite R in Hr.
      injection Hr as <-. destruct Hin.
    + remember (row0 :: rows0) as rs eqn:Hrs.
      destruct (crash_of w this name since now rs); [discriminate|].
      assert (Hhere : forall row, In row rs -> stale now row = false ->
                 In (GetDetail row.(Row.link)) (asked w this name since now rs)
                 /\ (forall it, fate_of w this name since now row = Keep it ->
                                In it (kept w this name since now rs))).
      { intros row Hin Hs. split.
        - apply in_asked. exists row. auto.
        - intros it Hk. apply in_kept. exists row. auto. }
      destruct (existsb (stale now) rs).
      * intros [= <- <-] p rows row [[= <-]|H] Hr Hin Hs.
        -- rewrite R in Hr. injection Hr as <-.
           destruct (Hhere row Hin Hs) as [H1 H2]. split.
           ++ now right.
           ++ intros it Hk. apply in_or_app. right. now apply H2.
        -- now apply asked_no_listing in H.
      * destruct (pager w this code name since now pages
                    (items ++ kept w this name since now rs)) as [r' evs'] eqn:E.
        intros [= -> <-] p rows row H Hr Hin Hs.
        destruct (pager_extends _ _ _ _ E) as (extra & Hx & _).
        destruct H as [[= <-]|H].
        -- rewrite R in Hr. injection Hr as <-.
           destruct (Hhere row Hin Hs) as [H1 H2]. split.
           ++ right. apply in_or_app. now left.
           ++ intros it Hk. rewrite Hx. apply in_or_app. left.
              apply in_or_app. right. now apply H2.
        -- apply in_app_or in H. destruct H as [H|[H|H]].
           ++ now apply asked_no_listing in H.
           ++ discriminate.
           ++ destruct (IH _ _ _ E p rows row H Hr Hin Hs) as [H1 H2]. split.
              ** right. apply in_or_app. right. now right.
              ** exact H2.
Qed.

(** A listing request that fails ends the pager there and then, with the
    exception of the request. *)
Lemma pager_failure (pages : list Z) :
  forall items r evs,
    pager w this code name since now pages items = (r, evs) ->
    forall c p e,
      In (GetList c p) evs -> page_rows w this c p = Raise e ->
      r = Raise e /\ exists evs0, evs = evs0 ++ [GetList c p].
Proof.
  induction pages as [|page pages IH]; intros items r evs; cbn [pager].
  - intros [= <- <-] c p e [].
  - destruct (page_rows w this code page) as [[|row0 rows0]|e0] eqn:R.
    + intros [= <- <-] c p e [[= <- <-]|[]] Hr. congruence.
    + remember (row0 :: rows0) as rs eqn:Hrs.
      destruct (crash_of w this name since now rs) as [ec|].
      * intros [= <- <-] c p e [[= <- <-]|H] Hr; [congruence|].
        now apply asked_no_listing in H.
      * destruct (existsb (stale now) rs).
        -- intros [= <- <-] c p e [[= <- <-]|H] Hr; [congruence|].
           now apply asked_no_listing in H.
        -- destruct (pager w this code name since now pages
                       (items ++ kept w this name since now rs)) as [r' evs'] eqn:E.
           intros [= <- <-] c p e [[= <- <-]|H] Hr; [congruence|].
           apply in_app_or in H. destruct H as [H|[H|H]].
           ++ now apply asked_no_listing in H.
           ++ discriminate.
           ++ destruct (IH _ _ _ E c p e H Hr) as (-> & evs0 & ->).
              split; [reflexivity|].
              exists (GetList code page :: asked w this name since now rs ++ Sleep
                        match this with molit_bot_now => 400 | molit_bot => 500 end
                        :: evs0).
              cbn [app]. rewrite <- app_assoc. reflexivity.
    + intros [= <- <-] c p e [[= <- <-]|[]] Hr.
      split; [congruence|]. now exists [].
Qed.

End PagerFacts.

(** ** Collecting over the categories *)

Section Collecting.

Variables (w : World) (this : script) (since now : datetime).

Lemma collect_is_collector (names : list pystr) :
  forall (all_items : list Item.t) (st : state),
    for_in names (fun name all_items =>
      code <- lift (dict_lookup name CATEGORY_TO_SECTION) ;;
      found <- fetch_recent_for_section w this code name since now MAX_PAGES ;;
      ret (all_items ++ found)) all_items st
    = (fst (collector w this since now names all_items),
       log (snd (collector w this since now names all_items)) st).
Proof.
  induction names as [|name names IH]; intros all_items st.
  - cbn. unfold ret. now rewrite log_nil.
  - cbn [for_in collector]. unfold bind at 1. unfold bind at 1. unfold lift at 1.
    destruct (dict_lookup name CATEGORY_TO_SECTION) as [code|e].
    + unfold bind at 1. unfold fetch_recent_for_section. rewrite fetch_is_pager.
      destruct (pager w this code name since now (py_range 1 (MAX_PAGES + 1)) [])
        as [[found|e] evs].
      * cbn [fst snd]. unfold ret at 1. rewrite IH, log_app.
        destruct (collector w this since now names (all_items ++ found)).
        reflexivity.
      * reflexivity.
    + cbn [fst snd]. now rewrite log_nil.
Qed.

Lemma collect_run (st : state) :
  collect w this since now st
  = (fst (collector w this since now WANTED []),
     log (snd (collector w this since now WANTED [])) st).
Proof. apply collect_is_collector. Qed.

Lemma collector_fetching (names : list pystr) :
  forall all_items r evs,
    collector w this since now names all_items = (r, evs) -> Forall fetching evs.
Proof.
  induction names as [|name names IH]; intros all_items r evs; cbn [collector].
  - intros [= <- <-]. constructor.
  - destruct (dict_lookup name CATEGORY_TO_SECTION) as [code|e].
    + destruct (pager w this code name since now (py_range 1 (MAX_PAGES + 1)) [])
        as [[found|e] evs1] eqn:P.
      * destruct (collector w this since now names (all_items ++ found))
          as [r' evs'] eqn:C.
        intros [= <- <-]. apply Forall_app. split.
        -- exact (pager_fetching _ _ _ _ _ _ _ _ _ _ P).
        -- exact (IH _ _ _ C).
      * intros [= <- <-]. exact (pager_fetching _ _ _ _ _ _ _ _ _ _ P).
    + intros [= <- <-]. constructor.
Qed.

Lemma collector_resolved (names : list pystr) :
  forall all_items items evs,
    collector w this since now names all_items = (Ok items, evs) ->
    Forall (resolved_in_window w since now) all_items ->
    Forall (resolved_in_window w since now) items.
Proof.
  induction names as [|name names IH]; intros all_items items evs; cbn [collector].
  - now intros [= <- <-].
  - destruct (dict_lookup name CATEGORY_TO_SECTION) as [code|e]; [|discriminate].
    destruct (pager w this code name since now (py_range 1 (MAX_PAGES + 1)) [])
      as [[found|e] evs1] eqn:P; [|discriminate].
    destruct (collector w this since now names (all_items ++ found))
      as [r' evs'] eqn:C.
    intros [= -> <-] Hall. apply (IH _ _ _ C).
    apply Forall_app. split; [exact Hall|].
    destruct (pager_extends _ _ _ _ _ _ _ _ _ _ P) as (extra & -> & Hx).
    exact Hx.
Qed.

Lemma collector_failure (names : list pystr) :
  forall all_items r evs,
    collector w this since now names all_items = (r, evs) ->
    forall c p e,
      In (GetList c p) evs -> page_rows w this c p = Raise e ->
      r = Raise e /\ exists evs0, evs = evs0 ++ [GetList c p].
Proof.
  induction names as [|name names IH]; intros all_items r evs; cbn [collector].
  - intros [= <- <-] c p e [].
  - destruct (dict_lookup name CATEGORY_TO_SECTION) as [code|e0].
    + destruct (pager w this code name since now (py_range 1 (MAX_PAGES + 1)) [])
        as [[found|e1] evs1] eqn:P.
      * destruct (collector w this since now names (all_items ++ found))
          as [r' evs'] eqn:C.
        intros [= <- <-] c p e H Hr. apply in_app_or in H. destruct H as [H|H].
        -- destruct (pager_failure _ _ _ _ _ _ _ _ _ _ P c p e H Hr) as [? _].
           discriminate.
        -- destruct (IH _ _ _ C c p e H Hr) as (-> & evs0 & ->).
           split; [reflexivity|]. exists (evs1 ++ evs0). now rewrite app_assoc.
      * intros [= <- <-] c p e H Hr.
        exact (pager_failure _ _ _ _ _ _ _ _ _ _ P c p e H Hr).
    + intros [= <- <-] c p e [].
Qed.

End Collecting.

(** ** What the pager guarantees *)

Lemma fetch_run (w : World) (this : script) (code name : pystr) (since now : datetime)
    (max_pages : Z) (st : state) :
  fetch_recent_for_section w this code name since now max_pages st
  = (fst (pager w this code name since now
                (py_range 1 (1 + Z.of_nat (Z.to_nat max_pages))) []),
     log (snd (pager w this code name since now
                (py_range 1 (1 + Z.of_nat (Z.to_nat max_pages))) [])) st).
Proof.
  unfold fetch_recent_for_section. rewrite fetch_is_pager.
  replace (py_range 1 (max_pages + 1))
    with (py_range 1 (1 + Z.of_nat (Z.to_nat max_pages))); [reflexivity|].
  unfold py_range. f_equal. f_equal. lia.
Qed.

(** C1. Every item [fetch_recent_for_section] returns, in either script,
    carries the time stamp read from the detail page of its link, and
    that time stamp [dt] satisfies [since <= dt <= now], both ends
    included.  So a link whose detail page resolves to a time outside the
    window has no item, whatever date its listing row shows.  The same
    holds of the items [main] collects over the categories and hands to
    the digest. *)
Theorem collected_items_in_window (w : World) (this : script) (since now : datetime) :
  (forall code name max_pages st items st',
      fetch_recent_for_section w this code name since now max_pages st = (Ok items, st') ->
      Forall (resolved_in_window w since now) items
      /\ (forall link text d,
            detail_text w link = Some text ->
            parse_detail_datetime_kst text = Ok (Some d) ->
            ~ (since <= d <= now) ->
            forall it, In it items -> it.(Item.link) <> link))
  /\ (forall st all_items st',
        collect w this since now st = (Ok all_items, st') ->
        Forall (resolved_in_window w since now) all_items).
Proof.
  split.
  - intros code name max_pages st items st' Hrun. rewrite fetch_run in Hrun.
    destruct (pager w this code name since now
                (py_range 1 (1 + Z.of_nat (Z.to_nat max_pages))) []) as [r evs] eqn:P.
    cbn [fst snd] in Hrun. injection Hrun as -> _.
    destruct (pager_extends _ _ _ _ _ _ _ _ _ _ P) as (extra & -> & Hx).
    cbn [app]. split; [exact Hx|].
    intros link text d Ht Hp Hout it Hin Hlink.
    rewrite Forall_forall in Hx. destruct (Hx it Hin) as (Hw & text' & Ht' & Hp').
    rewrite Hlink, Ht in Ht'. injection Ht' as <-. rewrite Hp in Hp'.
    injection Hp' as ->. contradiction.
  - intros st all_items st' Hrun. rewrite collect_run in Hrun.
    destruct (collector w this since now WANTED []) as [r evs] eqn:C.
    cbn [fst snd] in Hrun. injection Hrun as -> _.
    exact (collector_resolved _ _ _ _ _ _ _ _ C (Forall_nil _)).
Qed.

Lemma collected_items_in_window_witness :
  let since := sample_now - timedelta 0 24 in
  let run := fetch_recent_for_section sample_world molit_bot_now (py "p_sec_2")
               (py "주택토지") since sample_now 3 fresh in
  exists items, fst run = Ok items /\ List.length items = 2%nat
    /\ Forall (resolved_in_window sample_world since sample_now) items.
Proof.
  intros since run.
  exists (match fst run with Ok l => l | Raise _ => [] end).
  split; [vm_compute; reflexivity|]. split; [vm_compute; reflexivity|].
  apply (proj1 (collected_items_in_window sample_world molit_bot_now since sample_now)
           (py "p_sec_2") (py "주택토지") 3 fresh _ (snd run)).
  vm_compute. reflexivity.
Defined.

(** C2. In one call of [fetch_recent_for_section], in either script:
    the listing is asked for at most [max_pages] pages (3 in [main]), all
    of the section at hand; once a page is empty or has a row whose date
    is earlier than the day of [now - 24h], no later page is asked for;
    and on every page that was asked for, each row that does not itself
    raise the stop signal has its detail page requested and its item, if
    it yields one, returned, whether or not the signal was raised by a row
    before or after it.  The loop over the rows of a page does the same
    requests and keeps the same items whether it starts with the signal
    raised or not. *)
Theorem pagination_stops (w : World) (this : script) (code name : pystr)
    (since now : datetime) (max_pages : Z) (st : state) :
  exists r evs,
    fetch_recent_for_section w this code name since now max_pages st = (r, log evs st)
    /\ len (listings evs) <= Z.max 0 max_pages
    /\ (forall c p, In (GetList c p) evs -> c = code /\ 1 <= p <= max_pages)
    /\ (forall p, In (GetList code p) evs -> stops w this now code p ->
        forall q, p < q -> ~ In (GetList code q) evs)
    /\ (forall items, r = Ok items ->
        forall p rows row,
          In (GetList code p) evs -> page_rows w this code p = Ok rows ->
          In row rows -> stale now row = false ->
          In (GetDetail row.(Row.link)) evs
          /\ (forall it, fate_of w this name since now row = Keep it -> In it items))
    /\ (forall rows items st1,
          let raised := for_in rows (row_body w this name since now) (items, true) st1 in
          let quiet := for_in rows (row_body w this name since now) (items, false) st1 in
          snd raised = snd quiet
          /\ match fst raised, fst quiet with
             | Ok (kept1, flag1), Ok (kept2, flag2) =>
                 kept1 = kept2 /\ flag1 = true
                 /\ flag2 = existsb (stale now) rows
             | Raise e1, Raise e2 => e1 = e2
             | _, _ => False
             end)
    /\ MAX_PAGES = 3.
Proof.
  rewrite fetch_run.
  destruct (pager w this code name since now
              (py_range 1 (1 + Z.of_nat (Z.to_nat max_pages))) []) as [r evs] eqn:P.
  exists r, evs. cbn [fst snd]. split; [reflexivity|].
  destruct (pager_listings _ _ _ _ _ _ _ _ _ _ _ P) as (Hlen & Hwhere & Hstop).
  split; [lia|]. split.
  { intros c p H. apply Hwhere in H. destruct H as [-> H]. split; [reflexivity|lia]. }
  split; [exact Hstop|]. split.
  { intros items -> p rows row. exact (pager_complete _ _ _ _ _ _ _ _ _ _ P p rows row). }
  split; [|reflexivity].
  intros rows items st1. cbn zeta. rewrite !rows_run. cbn [fst snd].
  split; [reflexivity|].
  destruct (crash_of w this name since now rows); [reflexivity|].
  cbn [orb]. auto.
Qed.

Lemma pagination_stops_witness :
  exists r evs,
    fetch_recent_for_section sample_world molit_bot (py "p_sec_9") (py "국토도시")
      (sample_now - timedelta 0 24) sample_now MAX_PAGES fresh = (r, log evs fresh)
    /\ listings evs = [(py "p_sec_9", 1)].
Proof.
  destruct (pagination_stops sample_world molit_bot (py "p_sec_9") (py "국토도시")
              (sample_now - timedelta 0 24) sample_now MAX_PAGES fresh)
    as (r & evs & Hrun & _).
  exists r, evs. split; [exact Hrun|].
  assert (H : snd (fetch_recent_for_section sample_world molit_bot (py "p_sec_9")
                     (py "국토도시") (sample_now - timedelta 0 24) sample_now
                     MAX_PAGES fresh) = log evs fresh) by now rewrite Hrun.
  vm_compute in H. injection H as H. rewrite <- H. reflexivity.
Defined.

Lemma strptime_ymd_empty : strptime_ymd [] = None.
Proof. reflexivity. Qed.

(** ** Delivering *)

Lemma log_of_added (st st' : state) (evs : list event) :
  added st st' evs -> st'.(cache_file) = st.(cache_file) -> st' = log evs st.
Proof. destruct st'. unfold added, log. cbn. now intros -> ->. Qed.

Lemma load_cache_log (st : state) :
  exists s, load_cache st = (Ok s, log [ReadCache] st).
Proof.
  destruct (load_cache_run st) as (s & st' & Hrun & Ha & Hc & _).
  exists s. now rewrite Hrun, (log_of_added _ _ _ Ha Hc).
Qed.

Lemma for_in_cons {A S} (x : A) (xs : list A) (body : A -> S -> M S) (s : S)
    (st : state) :
  for_in (x :: xs) body s st
  = match body x s st with
    | (Ok s', st') => for_in xs body s' st'
    | (Raise e, st') => (Raise e, st')
    end.
Proof. reflexivity. Qed.

Lemma send_unconfigured (w : World) (this : script) (text : pystr) (st : state) :
  configured w = false -> send w this text st = (Raise RuntimeError, st).
Proof.
  intros Hc. destruct (send_run w this text st) as (r & st' & Hrun & _ & H).
  destruct H as [(_ & -> & ->)|(Hc' & _)]; [exact Hrun|congruence].
Qed.

Lemma send_chunks_loop_unconfigured (w : World) (this : script) (lines : list pystr) :
  configured w = false ->
  forall (cur : list pystr) (buf : Z) (st : state),
    for_in lines (fun line (acc : list pystr * Z) =>
           let '(chunk, buf) := acc in
           r' <- (if CHUNK_BUDGET <? buf + len line + 1
                  then send w this (join NEWLINE chunk) ;; ret ([], 0)
                  else ret (chunk, buf)) ;;
           let '(chunk, buf) := r' in
           ret (chunk ++ [line], buf + len line + 1)) (cur, buf) st
    = (Raise RuntimeError, st)
    \/ exists buf',
         for_in lines (fun line (acc : list pystr * Z) =>
           let '(chunk, buf) := acc in
           r' <- (if CHUNK_BUDGET <? buf + len line + 1
                  then send w this (join NEWLINE chunk) ;; ret ([], 0)
                  else ret (chunk, buf)) ;;
           let '(chunk, buf) := r' in
           ret (chunk ++ [line], buf + len line + 1)) (cur, buf) st
         = (Ok (cur ++ lines, buf'), st).
Proof.
  intros Hc.
  assert (Hstep : forall line cur buf st,
             (r' <- (if CHUNK_BUDGET <? buf + len line + 1
                     then send w this (join NEWLINE cur) ;; ret ([], 0)
                     else ret (cur, buf)) ;;
              let '(chunk, buf) := r' in
              ret (chunk ++ [line], buf + len line + 1)) st
             = if CHUNK_BUDGET <? buf + len line + 1
               then (Raise RuntimeError, st)
               else (Ok (cur ++ [line], buf + len line + 1), st)).
  { intros line cur buf st. unfold bind.
    destruct (CHUNK_BUDGET <? buf + len line + 1); [|reflexivity].
    now rewrite send_unconfigured. }
  induction lines as [|line lines IH]; intros cur buf st.
  - right. exists buf. cbn. unfold ret. now rewrite app_nil_r.
  - rewrite !for_in_cons, Hstep.
    destruct (CHUNK_BUDGET <? buf + len line + 1); [now left|].
    cbv beta iota.
    destruct (IH (cur ++ [line]) (buf + len line + 1) st) as [H|(buf' & H)].
    + left. exact H.
    + right. exists buf'. rewrite <- app_assoc in H. exact H.
Qed.

Lemma send_chunks_unconfigured (w : World) (this : script) (lines : list pystr)
    (st : state) :
  configured w = false -> lines <> [] ->
  send_chunks w this lines st = (Raise RuntimeError, st).
Proof.
  intros Hc Hne. unfold send_chunks. unfold bind at 1.
  destruct (send_chunks_loop_unconfigured w this lines Hc [] 0 st) as [H|(buf' & H)];
    rewrite H; [reflexivity|].
  cbn [app fst]. destruct lines as [|l lines]; [congruence|].
  now apply send_unconfigured.
Qed.

Lemma in_insert_newest_first (x y : Item.t) (l : list Item.t) :
  In y (insert_newest_first x l) <-> y = x \/ In y l.
Proof.
  induction l as [|z l IH]; cbn [insert_newest_first In].
  - intuition congruence.
  - destruct (Item.dt x <=? Item.dt z); cbn [In]; rewrite ?IH; intuition congruence.
Qed.

Lemma in_sort_newest_first (y : Item.t) (l : list Item.t) :
  In y (sort_newest_first l) <-> In y l.
Proof.
  unfold sort_newest_first.
  assert (H : forall acc, In y (fold_left (fun acc x => insert_newest_first x acc) l acc)
                          <-> In y acc \/ In y l).
  { induction l as [|x l IH]; intros acc; cbn [fold_left In]; [tauto|].
    rewrite IH, in_insert_newest_first. intuition congruence. }
  rewrite H. cbn [In]. tauto.
Qed.

Lemma sort_newest_first_nil (l : list Item.t) : sort_newest_first l = [] -> l = [].
Proof.
  intros H. destruct l as [|x l]; [reflexivity|].
  assert (Hin : In x (sort_newest_first (x :: l))) by (apply in_sort_newest_first; now left).
  rewrite H in Hin. destruct Hin.
Qed.

(** The lines of a digest are its header, an empty line, and after them
    only category lines and blocks of the items it was given. *)
Lemma digest_lines_content (this : script) (now : datetime) (items : list Item.t) :
  exists rest,
    digest_lines this now items = header now :: [] :: rest
    /\ forall line, In line rest ->
         exists it, In it items
           /\ (line = py "[" ++ it.(Item.category) ++ py "]" \/ line = block this it).
Proof.
  unfold digest_lines.
  assert (H : forall (last : option pystr) (ls : list pystr),
             exists rest,
               snd (fold_left (fun (acc : option pystr * list pystr) it =>
                 let '(last_cat, lines) := acc in
                 let changed :=
                   match last_cat with
                   | Some c => negb (str_eqb it.(Item.category) c)
                   | None => true
                   end in
                 let lines :=
                   if changed then lines ++ [py "[" ++ it.(Item.category) ++ py "]"]
                   else lines in
                 ((if changed then Some it.(Item.category) else last_cat),
                  lines ++ [block this it])) items (last, ls)) = ls ++ rest
               /\ forall line, In line rest ->
                    exists it, In it items
                      /\ (line = py "[" ++ it.(Item.category) ++ py "]"
                          \/ line = block this it)).
  { induction items as [|it items IH]; intros last ls.
    - exists []. cbn. rewrite app_nil_r. split; [reflexivity|]. intros line [].
    - cbn [fold_left].
      destruct (match last with
                | Some c => negb (str_eqb (Item.category it) c)
                | None => true
                end);
        cbv beta iota zeta;
        match goal with
        | |- context [fold_left ?f items (?a, ?b)] =>
            destruct (IH a b) as (rest & Heq & Hin)
        end.
      + exists ((py "[" ++ Item.category it ++ py "]") :: block this it :: rest).
        split.
        * etransitivity; [exact Heq|]. rewrite <- !app_assoc. reflexivity.
        * intros line [<-|[<-|H]].
          -- exists it. split; [now left|now left].
          -- exists it. split; [now left|now right].
          -- destruct (Hin line H) as (it' & Hi & Hl). exists it'. split; [now right|exact Hl].
      + exists (block this it :: rest). split.
        * etransitivity; [exact Heq|]. rewrite <- !app_assoc. reflexivity.
        * intros line [<-|H].
          -- exists it. split; [now left|now right].
          -- destruct (Hin line H) as (it' & Hi & Hl). exists it'.
             split; [now right|exact Hl]. }
  destruct (H None [header now; []]) as (rest & Heq & Hin).
  exists rest. split; [exact Heq|exact Hin].
Qed.

Lemma send_log (w : World) (this : script) (text : pystr) (st : state) :
  exists r evs,
    send w this text st = (r, log evs st)
    /\ (evs = [] \/ evs = [Post text])
    /\ (configured w = false -> r = Raise RuntimeError /\ evs = []).
Proof.
  destruct (send_run w this text st) as (r & st' & Hrun & Hc & H).
  destruct H as [(Hconf & -> & ->)|(Hconf & Ha)].
  - exists (Raise RuntimeError), []. rewrite log_nil. auto.
  - exists r, [Post text]. rewrite Hrun, (log_of_added _ _ _ Ha Hc).
    split; [reflexivity|]. split; [now right|congruence].
Qed.

Lemma send_each_run (w : World) (this : script) (chunks : list pystr) :
  forall st : state,
    exists r evs,
      for_in chunks (fun c (_ : unit) => send w this c ;; emit (Sleep 300)) tt st
      = (r, log evs st)
      /\ Forall delivering evs
      /\ (configured w = false -> chunks <> [] -> r = Raise RuntimeError /\ evs = []).
Proof.
  induction chunks as [|c chunks IH]; intros st.
  - exists (Ok tt), []. cbn. unfold ret. rewrite log_nil.
    split; [reflexivity|]. split; [constructor|congruence].
  - rewrite for_in_cons. unfold bind at 1.
    destruct (send_log w this c st) as (r & evs & Hsend & Hev & Hun).
    rewrite Hsend.
    destruct r as [[]|e].
    + change (emit (Sleep 300) (log evs st))
        with (Ok tt, log [Sleep 300] (log evs st)).
      cbv beta iota.
      destruct (IH (log [Sleep 300] (log evs st))) as (r' & evs' & Hrun & Hd & _).
      exists r', (evs ++ [Sleep 300] ++ evs').
      split; [etransitivity; [exact Hrun|];
              rewrite !log_app, ?app_assoc; reflexivity|]. split.
      * apply Forall_app. split.
        -- destruct Hev as [->| ->]; repeat constructor.
        -- constructor; [exact I|exact Hd].
      * intros Hc _. destruct (Hun Hc) as [? _]. discriminate.
    + exists (Raise e), evs. split; [reflexivity|]. split.
      * destruct Hev as [->| ->]; repeat constructor.
      * intros Hc _. destruct (Hun Hc) as [[= ->] ->]. auto.
Qed.

Lemma split_chunks_nonempty (lines : list pystr) :
  lines <> [] -> split_chunks lines <> [].
Proof.
  intros Hne. destruct (split_chunks_groups lines) as (gs & -> & Hcat & _).
  destruct gs as [|g gs]; [cbn in Hcat; congruence|discriminate].
Qed.

Lemma digest_lines_nonempty (this : script) (now : datetime) (items : list Item.t) :
  digest_lines this now items <> [].
Proof.
  destruct (digest_lines_content this now items) as (rest & -> & _). discriminate.
Qed.

(** Without credentials nothing is delivered: the first [send] raises. *)
Lemma deliver_unconfigured (w : World) (this : script) (now : datetime)
    (all_items : list Item.t) (st : state) :
  configured w = false ->
  deliver w this now all_items st
  = (Raise RuntimeError,
     log match this with molit_bot_now => [ReadCache] | molit_bot => [] end st).
Proof.
  intros Hc. unfold deliver. destruct this.
  - unfold bind at 1. destruct (load_cache_log st) as (sent & ->).
    destruct (filter _ all_items) as [|it new_items].
    + now apply send_unconfigured.
    + unfold bind. rewrite send_chunks_unconfigured;
        [reflexivity|exact Hc|apply digest_lines_nonempty].
  - rewrite log_nil. destruct all_items as [|it all_items].
    + now apply send_unconfigured.
    + destruct (send_each_run w molit_bot
                  (split_chunks (digest_lines molit_bot now
                                   (sort_newest_first (it :: all_items)))) st)
        as (r & evs & Hrun & _ & Hun).
      rewrite Hrun.
      destruct (Hun Hc) as [-> ->].
      * apply split_chunks_nonempty, digest_lines_nonempty.
      * now rewrite log_nil.
Qed.

(** Delivering makes no request to the site. *)
Lemma deliver_events (w : World) (this : script) (now : datetime)
    (all_items : list Item.t) (st : state) :
  exists r st' evs,
    deliver w this now all_items st = (r, st')
    /\ added st st' evs /\ Forall delivering evs.
Proof.
  unfold deliver. destruct this.
  - unfold bind at 1. destruct (load_cache_log st) as (sent & ->).
    set (st1 := log [ReadCache] st).
    destruct (filter _ all_items) as [|it new_items].
    + destruct (send_log w molit_bot_now (no_news molit_bot_now now) st1)
        as (r & evs & -> & Hev & _).
      exists r, (log evs st1), ([ReadCache] ++ evs). split; [reflexivity|].
      split; [unfold st1; rewrite log_app; apply log_added|].
      constructor; [exact I|]. destruct Hev as [->| ->]; repeat constructor.
    + unfold bind.
      destruct (send_chunks_groups w molit_bot_now
                  (digest_lines molit_bot_now now (sort_newest_first (it :: new_items)))
                  st1) as (gs & r & st2 & -> & Ha & _).
      assert (Hposts : Forall delivering (map Post (map (join NEWLINE) gs))).
      { apply Forall_forall. intros e He. apply in_map_iff in He.
        destruct He as (t & <- & _). exact I. }
      destruct r as [[]|e].
      * destruct (save_cache_run w
                    (fold_left (fun s it0 => set_add (AStr (Item.link it0)) s)
                       (sort_newest_first (it :: new_items)) sent) st2)
          as (st3 & -> & Ha3 & _).
        exists (Ok tt), st3, ([ReadCache] ++ map Post (map (join NEWLINE) gs) ++ [WriteCache]).
        split; [reflexivity|]. split.
        -- apply (added_trans _ st1); [apply log_added|].
           exact (added_trans _ _ _ _ _ Ha Ha3).
        -- constructor; [exact I|]. apply Forall_app. split; [exact Hposts|].
           repeat constructor.
      * exists (Raise e), st2, ([ReadCache] ++ map Post (map (join NEWLINE) gs)).
        split; [reflexivity|]. split.
        -- apply (added_trans _ st1); [apply log_added|exact Ha].
        -- constructor; [exact I|exact Hposts].
  - destruct all_items as [|it all_items].
    + destruct (send_log w molit_bot (no_news molit_bot now) st) as (r & evs & -> & Hev & _).
      exists r, (log evs st), evs. split; [reflexivity|]. split; [apply log_added|].
      destruct Hev as [->| ->]; repeat constructor.
    + destruct (send_each_run w molit_bot
                  (split_chunks (digest_lines molit_bot now
                                   (sort_newest_first (it :: all_items)))) st)
        as (r & evs & -> & Hd & _).
      exists r, (log evs st), evs. split; [reflexivity|]. split; [apply log_added|exact Hd].
Qed.

Lemma main_run (w : World) (this : script) (st : state) :
  main w this st
  = match collector w this (w.(clock) - timedelta 0 24) w.(clock) WANTED [] with
    | (Ok all_items, evs) => deliver w this w.(clock) all_items (log evs st)
    | (Raise e, evs) => (Raise e, log evs st)
    end.
Proof.
  unfold main, bind. rewrite collect_run.
  destruct (collector w this (clock w - timedelta 0 24) (clock w) WANTED [])
    as [[all_items|e] evs]; reflexivity.
Qed.

(** ** The run as a whole *)

Lemma page_rows_transport (w : World) (this : script) (c : pystr) (p : Z) (e : exn) :
  page_rows w this c p = Raise e -> transport e.
Proof.
  unfold page_rows, transport. destruct (http_list w c p) as [|status text].
  - intros [= <-]. now left.
  - destruct (is_error status); [|discriminate]. intros [= <-]. right. now exists status.
Qed.

(** C4 fails as stated: when the listing of the first category does not
    answer, [main] raises at that request.  The listings of the two other
    categories, which would answer and have items inside the window, are
    never asked for. *)
Lemma listing_failure_is_not_contained :
  let w := relisted (fun code page =>
                       if str_eqb code (py "p_sec_2") then NoAnswer
                       else sample_world.(http_list) code page) sample_world in
  main w molit_bot_now fresh
  = (Raise ConnectionError, log [GetList (py "p_sec_2") 1] fresh)
  /\ (exists it1 it2 st',
        fetch_recent_for_section w molit_bot_now (py "p_sec_9") (py "국토도시")
          (w.(clock) - timedelta 0 24) w.(clock) MAX_PAGES fresh
        = (Ok [it1; it2], st')).
Proof.
  intros w. split; [vm_compute; reflexivity|].
  eexists _, _, _. vm_compute. reflexivity.
Qed.

Lemma fetching_not_delivery (evs : list event) :
  Forall fetching evs -> (forall t, ~ In (Post t) evs) /\ ~ In WriteCache evs.
Proof.
  intros H. rewrite Forall_forall in H. split; [intros t Hin|intros Hin];
    exact (H _ Hin).
Qed.

(** C5 fails as stated: with [BOT_TOKEN] unset, [main] raises only after
    it has asked for the listing of each of the three categories and for
    detail pages, and has read the cache. *)
Lemma credentials_are_checked_after_fetching :
  let w := with_credentials None (Some (py "@channel")) sample_world in
  let run := main w molit_bot_now fresh in
  fst run = Raise RuntimeError
  /\ listings (trace (snd run)) = [(py "p_sec_2", 1); (py "p_sec_9", 1); (py "p_sec_1", 1)]
  /\ nth 1 (trace (snd run)) WriteCache = GetDetail (sample_link (py "1"))
  /\ last (trace (snd run)) WriteCache = ReadCache.
Proof. vm_compute. repeat split. Qed.

Lemma in_concat_prefix {A} (gs : list (list A)) (rest l : list A) (g : list A) (x : A) :
  List.concat gs ++ rest = l -> In g gs -> In x g -> In x l.
Proof.
  intros <- Hg Hx. apply in_or_app. left. apply in_concat. now exists g.
Qed.

(** C6. In [molit_bot_now.py], what follows collecting works on the items
    whose link is not in the set [load_cache] returned, and on no other:
    an item whose link is in that set is not among the items of the
    digest, inside the window or not, and every text that is posted is
    either the notice that there is nothing new or is made of lines of the
    digest of the remaining items: the header, the empty line, and
    category lines and blocks of items whose link is not in the set. *)
Theorem delivered_links_are_left_out (w : World) (now : datetime)
    (all_items : list Item.t) (st : state) :
  exists sent,
    load_cache st = (Ok sent, log [ReadCache] st)
    /\ let new_items :=
         filter (fun it => negb (set_contains (AStr it.(Item.link)) sent)) all_items in
       (forall it, In it (sort_newest_first new_items)
                   <-> In it all_items /\ set_contains (AStr it.(Item.link)) sent = false)
       /\ deliver w molit_bot_now now all_items st
          = match new_items with
            | [] => send w molit_bot_now (no_news molit_bot_now now)
            | _ =>
                send_chunks w molit_bot_now
                  (digest_lines molit_bot_now now (sort_newest_first new_items)) ;;
                save_cache w (fold_left (fun s it => set_add (AStr it.(Item.link)) s)
                                        (sort_newest_first new_items) sent)
            end (log [ReadCache] st)
       /\ (forall r st' evs t,
             deliver w molit_bot_now now all_items st = (r, st') ->
             added st st' evs -> In (Post t) evs ->
             (new_items = [] /\ t = no_news molit_bot_now now)
             \/ exists g,
                  t = join NEWLINE g
                  /\ forall line, In line g ->
                       line = header now \/ line = []
                       \/ exists it,
                            In it all_items
                            /\ set_contains (AStr it.(Item.link)) sent = false
                            /\ (line = py "[" ++ it.(Item.category) ++ py "]"
                                \/ line = block molit_bot_now it)).
Proof.
  destruct (load_cache_log st) as (sent & Hload). exists sent.
  split; [exact Hload|]. cbn zeta.
  set (new_items := filter (fun it => negb (set_contains (AStr (Item.link it)) sent))
                           all_items).
  assert (Hmem : forall it, In it (sort_newest_first new_items)
                   <-> In it all_items /\ set_contains (AStr (Item.link it)) sent = false).
  { intros it. rewrite in_sort_newest_first. unfold new_items.
    rewrite filter_In, negb_true_iff. tauto. }
  assert (Hrun : deliver w molit_bot_now now all_items st
            = match new_items with
              | [] => send w molit_bot_now (no_news molit_bot_now now)
              | _ =>
                  send_chunks w molit_bot_now
                    (digest_lines molit_bot_now now (sort_newest_first new_items)) ;;
                  save_cache w (fold_left (fun s it => set_add (AStr it.(Item.link)) s)
                                          (sort_newest_first new_items) sent)
              end (log [ReadCache] st)).
  { unfold deliver. unfold bind at 1. rewrite Hload. fold new_items.
    destruct new_items; reflexivity. }
  split; [exact Hmem|]. split; [exact Hrun|].
  intros r st' evs t Hd Ha Hin. rewrite Hrun in Hd.
  destruct new_items as [|it0 new_items'] eqn:Hnew.
  - left. split; [reflexivity|].
    destruct (send_log w molit_bot_now (no_news molit_bot_now now) (log [ReadCache] st))
      as (r1 & evs1 & Hs & Hev & _).
    rewrite Hs in Hd. injection Hd as <- <-. rewrite log_app in Ha.
    rewrite <- (added_inj _ _ _ _ (log_added _ st) Ha) in Hin. cbn [app In] in Hin.
    destruct Hin as [Hin|Hin]; [discriminate|].
    destruct Hev as [->| ->]; [destruct Hin|].
    destruct Hin as [[= <-]|[]]. reflexivity.
  - right. rewrite <- Hnew in *. clear Hnew.
    set (lines := digest_lines molit_bot_now now (sort_newest_first new_items)) in *.
    unfold bind in Hd.
    destruct (send_chunks_groups w molit_bot_now lines (log [ReadCache] st))
      as (gs & r1 & st1 & Hs & Ha1 & Hc1 & _ & (rest & Hcat) & _).
    rewrite Hs in Hd.
    assert (Hposts : forall evs2,
               (forall t', In (Post t') evs2 -> False) ->
               added (log [ReadCache] st) st' (map Post (map (join NEWLINE) gs) ++ evs2) ->
               exists g, In g gs /\ t = join NEWLINE g).
    { intros evs2 Hno Ha2.
      pose proof (added_trans _ _ _ _ _ (log_added [ReadCache] st) Ha2) as Ha3.
      rewrite (added_inj _ _ _ _ Ha Ha3) in Hin. cbn [app In] in Hin.
      destruct Hin as [Hin|Hin]; [discriminate|].
      apply in_app_or in Hin. destruct Hin as [Hin|Hin]; [|now apply Hno in Hin].
      apply in_map_iff in Hin. destruct Hin as (t' & [= ->] & Hin).
      apply in_map_iff in Hin. destruct Hin as (g & <- & Hg). now exists g. }
    assert (Hg : exists g, In g gs /\ t = join NEWLINE g).
    { destruct r1 as [[]|e].
      - destruct (save_cache_run w
                    (fold_left (fun s it => set_add (AStr (Item.link it)) s)
                       (sort_newest_first new_items) sent) st1)
          as (st2 & Hsave & Ha2 & _).
        rewrite Hsave in Hd. injection Hd as _ <-.
        apply (Hposts [WriteCache]).
        + intros t' [|[]]. discriminate.
        + exact (added_trans _ _ _ _ _ Ha1 Ha2).
      - injection Hd as _ <-. apply (Hposts []).
        + intros t' [].
        + now rewrite app_nil_r. }
    destruct Hg as (g & Hgin & ->). exists g. split; [reflexivity|].
    intros line Hline.
    pose proof (in_concat_prefix _ _ _ _ _ Hcat Hgin Hline) as Hl.
    unfold lines in Hl.
    destruct (digest_lines_content molit_bot_now now (sort_newest_first new_items))
      as (rest' & Heq & Hcontent).
    rewrite Heq in Hl. destruct Hl as [<-|[<-|Hl]]; [now left|now right; left|].
    right. right. destruct (Hcontent line Hl) as (it & Hit & Hshape).
    exists it. apply Hmem in Hit. tauto.
Qed.

Lemma delivered_links_are_left_out_witness :
  let st := {| trace := [];
               cache_file :=
                 Json (JObj [(py "links", JArr [JStr (sample_link (py "1"))])]) |} in
  let run := main sample_world molit_bot_now st in
  fst run = Ok tt
  /\ List.length (filter (fun e => match e with Post _ => true | _ => false end)
                         (trace (snd run))) = 1%nat
  /\ exists sent, load_cache st = (Ok sent, log [ReadCache] st)
                  /\ set_contains (AStr (sample_link (py "1"))) sent = true.
Proof.
  intros st run. split; [vm_compute; reflexivity|]. split; [vm_compute; reflexivity|].
  destruct (delivered_links_are_left_out sample_world sample_now [] st)
    as (sent & Hload & _).
  exists sent. split; [exact Hload|].
  assert (H : fst (load_cache st) = Ok sent) by now rewrite Hload.
  vm_compute in H. injection H as <-. vm_compute. reflexivity.
Defined.

(** C7. The chunking loops of both [main]s put the lines, in order and
    each exactly once, into chunks; a chunk's text is within the budget of
    3500 characters unless the chunk is one line that is itself longer,
    and no line is ever split.  [molit_bot.py] collects the chunks;
    [molit_bot_now.py] posts each as it is closed, so there the chunks
    posted before a [send] raises hold a prefix of the lines, and all of
    them when every [send] succeeds, which is the case when the
    credentials are set and the channel takes every text. *)
Theorem chunks_respect_the_budget :
  (forall lines : list pystr,
     exists gs : list (list pystr),
       split_chunks lines = map (join NEWLINE) gs
       /\ List.concat gs = lines
       /\ Forall within_budget gs)
  /\ (forall (w : World) (lines : list pystr) (st : state),
        exists gs r st',
          send_chunks w molit_bot_now lines st = (r, st')
          /\ added st st' (map Post (map (join NEWLINE) gs))
          /\ Forall within_budget gs
          /\ (exists rest, List.concat gs ++ rest = lines)
          /\ (r = Ok tt -> List.concat gs = lines)
          /\ (configured w = true ->
              (forall t, delivered w molit_bot_now t = true) -> r = Ok tt))
  /\ CHUNK_BUDGET = 3500.
Proof.
  split; [exact split_chunks_groups|]. split; [|reflexivity].
  intros w lines st.
  destruct (send_chunks_groups w molit_bot_now lines st)
    as (gs & r & st' & H1 & H2 & _ & H3 & H4 & H5 & _ & H6).
  exists gs, r, st'. auto 10.
Qed.

Lemma chunks_respect_the_budget_witness :
  exists gs r st',
    send_chunks sample_world molit_bot_now [py "one"; py "two"] fresh = (r, st')
    /\ added fresh st' (map Post (map (join NEWLINE) gs))
    /\ List.concat gs = [py "one"; py "two"].
Proof.
  destruct (proj1 (proj2 chunks_respect_the_budget) sample_world [py "one"; py "two"] fresh)
    as (gs & r & st' & Hrun & Ha & _ & _ & Hall & Hok).
  exists gs, r, st'. split; [exact Hrun|]. split; [exact Ha|].
  apply Hall, Hok; [reflexivity|]. intros t. reflexivity.
Defined.

(** ** The listing parser *)

Lemma nth_from_end_rev (k : nat) (l : list pystr) :
  (1 <= k <= List.length l)%nat -> nth_from_end k l = nth (k - 1) (rev l) [].
Proof.
  intros H. unfold nth_from_end. rewrite rev_nth by lia. f_equal. lia.
Qed.

Lemma parse_list_rows_fold (w : World) (anchors : list located) :
  forall acc : list Row.t,
    exists rows,
      fold_left (fun rows a =>
        let title := get_text [] a.(el) in
        let href := match attr (py "href") a.(el) with Some h => h | None => [] end in
        let link := w.(urljoin) BASE href in
        match find_parent (py "tr") a with
        | None => rows
        | Some tr =>
            let tds := map (get_text []) (find_all (py "td") tr) in
            let category := if 4 <=? len tds then nth_from_end 3 tds else [] in
            let date_str := if 4 <=? len tds then nth_from_end 2 tds else [] in
            rows ++ [{| Row.title := title; Row.link := link;
                        Row.category := category; Row.date_str := date_str |}]
        end) anchors acc = acc ++ rows
      /\ Forall2 (row_of_anchor w) (filter in_table_row anchors) rows.
Proof.
  induction anchors as [|a anchors IH]; intros acc.
  - exists []. cbn. rewrite app_nil_r. split; [reflexivity|constructor].
  - cbn [fold_left filter]. unfold in_table_row at 1.
    destruct (find_parent (py "tr") a) as [tr|] eqn:Htr.
    + match goal with
      | |- context [fold_left ?f anchors (acc ++ [?r])] =>
          destruct (IH (acc ++ [r])) as (rows & Heq & Hall); exists (r :: rows)
      end.
      split; [etransitivity; [exact Heq|]; now rewrite <- app_assoc|].
      constructor; [|exact Hall].
      exists tr. split; [exact Htr|]. cbn [Row.title Row.link Row.category Row.date_str].
      split; [reflexivity|]. split; [now intros href ->|]. cbn zeta.
      set (tds := map (get_text []) (find_all (py "td") tr)).
      split.
      * intros H4. replace (4 <=? len tds) with true by (symmetry; now apply Z.leb_le).
        unfold len in H4. rewrite !nth_from_end_rev by lia. auto.
      * intros H4. replace (4 <=? len tds) with false by (symmetry; apply Z.leb_gt; lia).
        auto.
    + destruct (IH acc) as (rows & Heq & Hall). exists rows. auto.
Qed.



(** ** Examples *)

Example strptime_ymd_reads_a_date :
  strptime_ymd (py "2025-08-12") = Some (ymd2ord 2025 8 12)
  /\ strptime_ymd (py "2025-8-1") = Some (ymd2ord 2025 8 1)
  /\ strptime_ymd (py "2025-02-29") = None
  /\ strptime_ymd (py "12.08.2025") = None.
Proof. vm_compute. repeat split. Qed.

Example parse_detail_datetime_kst_finds_the_stamp :
  parse_detail_datetime_kst (py "<p>등록일 2025-08-12   11:00 조회 7</p>")
  = Ok (make_datetime 2025 8 12 11 0)
  /\ parse_detail_datetime_kst (py "<th>등록일</th> 2025-08-12 11:00") = Ok None
  /\ parse_detail_datetime_kst (py "등록일 2025-08-12") = Ok None
  /\ parse_detail_datetime_kst (py "등록일 2025-02-30 11:00") = Raise ValueError.
Proof. vm_compute. repeat split. Qed.

(** The row of the 12th with 11:00 on its detail page is kept at 15:00 of
    that day; two days later at 09:00 it is passed over. *)
Example row_of_today :
  let row := {| Row.title := py "first"; Row.link := sample_link (py "1");
                Row.category := py "주택토지"; Row.date_str := py "2025-08-12" |} in
  let later := match make_datetime 2025 8 14 9 0 with Some t => t | None => 0 end in
  (exists it, fate_of sample_world molit_bot_now (py "주택토지")
                (sample_now - timedelta 0 24) sample_now row = Keep it
              /\ strftime it.(Item.dt) = py "2025-08-12 11:00")
  /\ fate_of sample_world molit_bot_now (py "주택토지")
       (later - timedelta 0 24) later row = Stale.
Proof.
  split.
  - eexists. split.
    + vm_compute. reflexivity.
    + vm_compute. reflexivity.
  - vm_compute. reflexivity.
Qed.

Example main_posts_one_digest :
  let run := main sample_world molit_bot_now fresh in
  fst run = Ok tt
  /\ listings (trace (snd run)) = [(py "p_sec_2", 1); (py "p_sec_9", 1); (py "p_sec_1", 1)]
  /\ List.length (filter (fun e => match e with Post _ => true | _ => false end)
                         (trace (snd run))) = 1%nat
  /\ last (trace (snd run)) ReadCache = WriteCache
  /\ cache_file (snd run)
     = Json (JObj [(py "links", JArr [JStr (sample_link (py "1"));
                                       JStr (sample_link (py "2"))])]).
Proof. vm_compute. repeat split. Qed.

(** ** More on [send] *)

(** A call of [send] posts its text once, and not at all when a
    credential is missing. *)
Theorem send_posts_once (w : World) (this : script) (text : pystr) (st : state) :
  exists r evs,
    send w this text st = (r, log evs st)
    /\ (configured w = false -> r = Raise RuntimeError /\ evs = [])
    /\ (configured w = true -> evs = [Post text]).
Proof.
  destruct (send_run w this text st) as (r & st' & Hrun & Hc & H).
  destruct H as [(Hconf & -> & ->)|(Hconf & Ha)].
  - exists (Raise RuntimeError), []. rewrite log_nil.
    split; [exact Hrun|]. split; [auto|congruence].
  - exists r, [Post text]. rewrite Hrun, (log_of_added _ _ _ Ha Hc).
    split; [reflexivity|]. split; [congruence|auto].
Qed.

(** [molit_bot_now.py] checks the status of the answer and raises on a
    4xx or 5xx; [molit_bot.py] does not look at it, so there a rejected
    message passes for a delivered one. *)
Theorem send_and_the_status (w : World) (text body : pystr) (status : Z) (st : state) :
  configured w = true ->
  w.(http_post) text = Answer status body ->
  send w molit_bot text st = (Ok tt, log [Post text] st)
  /\ send w molit_bot_now text st
     = (if is_error status then Raise (HTTPError status) else Ok tt, log [Post text] st).
Proof.
  unfold configured, send, is_error. intros Hc Hp.
  destruct (falsy (BOT_TOKEN w) || falsy (CHAT_ID w)); [discriminate|].
  unfold bind, emit. rewrite Hp. unfold raise_for_status, raise, ret.
  split; [reflexivity|].
  destruct ((400 <=? status) && (status <? 600)); reflexivity.
Qed.

Lemma send_and_the_status_witness :
  let w := reposted (fun _ => Answer 400 []) sample_world in
  send w molit_bot (py "hello") fresh = (Ok tt, log [Post (py "hello")] fresh)
  /\ send w molit_bot_now (py "hello") fresh
     = (Raise (HTTPError 400), log [Post (py "hello")] fresh).
Proof.
  intros w.
  exact (send_and_the_status w (py "hello") [] 400 fresh eq_refl eq_refl).
Defined.

(** ** More on [parse_detail_datetime_kst] *)

Lemma re_search_detail_needs_label (s : pystr) :
  contains LABEL s = false -> re_search_detail s = None.
Proof.
  induction s as [|c s IH]; cbn [contains re_search_detail]; unfold re_detail_at.
  - destruct (strip_prefix LABEL []); [discriminate|reflexivity].
  - destruct (strip_prefix LABEL (c :: s)); [discriminate|exact IH].
Qed.

(** A page that does not show the label has no time stamp: the function
    returns [None] and does not raise. *)
Theorem no_label_no_stamp (html : pystr) :
  contains LABEL html = false -> parse_detail_datetime_kst html = Ok None.
Proof.
  intros H. unfold parse_detail_datetime_kst.
  now rewrite re_search_detail_needs_label.
Qed.

Lemma no_label_no_stamp_witness :
  parse_detail_datetime_kst (py "2025-08-12 11:00") = Ok None.
Proof. apply no_label_no_stamp. vm_compute. reflexivity. Defined.

Lemma make_datetime_inv (y m d hh mm : Z) (dt : datetime) :
  make_datetime y m d hh mm = Some dt ->
  (1 <= y <= 9999 /\ 1 <= m <= 12 /\ 1 <= d <= days_in_month y m
   /\ 0 <= hh <= 23 /\ 0 <= mm <= 59)
  /\ dt = ymd2ord y m d * DAY_US + (hh * 3600 + mm * 60) * 1000000.
Proof.
  unfold make_datetime, make_date.
  destruct ((1 <=? y) && (y <=? 9999) && (1 <=? m) && (m <=? 12)
            && (1 <=? d) && (d <=? days_in_month y m)) eqn:E1; [|discriminate].
  destruct ((0 <=? hh) && (hh <=? 23) && (0 <=? mm) && (mm <=? 59)) eqn:E2;
    [|discriminate].
  intros [= <-]. split; [|reflexivity].
  repeat (apply andb_true_iff in E1; destruct E1 as [E1 ?]).
  repeat (apply andb_true_iff in E2; destruct E2 as [E2 ?]).
  lia.
Qed.

(** A time stamp the function returns is a real date and time of day, on
    the minute: its day is the day read from the page and nothing is left
    below the minute. *)
Theorem stamp_is_a_minute_of_a_day (html : pystr) (dt : datetime) :
  parse_detail_datetime_kst html = Ok (Some dt) ->
  exists y m d hh mm,
    make_datetime y m d hh mm = Some dt
    /\ 1 <= y <= 9999 /\ 1 <= m <= 12 /\ 1 <= d <= days_in_month y m
    /\ 0 <= hh <= 23 /\ 0 <= mm <= 59
    /\ date_of dt = ymd2ord y m d
    /\ dt mod DAY_US = (hh * 60 + mm) * 60000000.
Proof.
  unfold parse_detail_datetime_kst.
  destruct (re_search_detail html) as [g|]; [|discriminate].
  destruct (strptime_ymd_hm g) as [dt'|] eqn:P; [|discriminate].
  intros [= ->]. unfold strptime_ymd_hm in P.
  match type of P with
  | match ?x with _ => _ end = _ => destruct x as [[[[[[y m] d] hh] mm] r]|]; [|discriminate]
  end.
  destruct r; [|discriminate].
  exists y, m, d, hh, mm. split; [exact P|].
  apply make_datetime_inv in P. destruct P as [(Hy & Hm & Hd & Hh & Hmm) ->].
  repeat (split; [assumption|]).
  unfold date_of, DAY_US. split.
  - symmetry. apply (Z.div_unique _ _ _ ((hh * 3600 + mm * 60) * 1000000)); lia.
  - symmetry. apply (Z.mod_unique _ _ (ymd2ord y m d)); lia.
Qed.

Lemma stamp_is_a_minute_of_a_day_witness :
  exists y m d hh mm,
    make_datetime y m d hh mm = parse_result (py "등록일 2025-08-12 11:00")
    /\ 1 <= y <= 9999.
Proof.
  destruct (stamp_is_a_minute_of_a_day (py "등록일 2025-08-12 11:00") 63890679600000000)
    as (y & m & d & hh & mm & H & Hy & _).
  - vm_compute. reflexivity.
  - exists y, m, d, hh, mm. split; [|exact Hy]. rewrite H. vm_compute. reflexivity.
Defined.

(** *** Reading a stamp back *)

Lemma digit_range (n : Z) : 48 <= digit n <= 57.
Proof. unfold digit. pose proof (Z.mod_pos_bound n 10). lia. Qed.

Lemma isspace_ascii_digit (c : Z) : 48 <= c <= 57 -> isspace c = false.
Proof.
  intros H. unfold isspace.
  repeat match goal with
         | |- context [?a <=? ?b] => destruct (Z.leb_spec a b); try lia
         | |- context [?a =? ?b] => destruct (Z.eqb_spec a b); try lia
         end; reflexivity.
Qed.

Lemma in_py_range (lo hi v : Z) : lo <= v < hi -> In v (py_range lo hi).
Proof.
  intros H. unfold py_range. apply in_map_iff. exists (Z.to_nat (v - lo)).
  split; [lia|]. apply in_seq. lia.
Qed.

(** Each directive reads the two digits [digits2] writes, for the values
    of its range, and hands the value on. *)
Ltac read_two_digits lo hi v k :=
  let Hin := fresh "Hin" in
  intros ? Hin; apply (in_py_range lo hi) in Hin; vm_compute in Hin;
  intros Hk;
  repeat (destruct Hin as [<-|Hin];
          [cbn; cbn in Hk; rewrite Hk; reflexivity|]);
  destruct Hin.

Lemma re_m_reads (R : Type) (k : Z -> pystr -> option R) (r : pystr) (x : R) :
  forall m, 1 <= m < 13 -> k m r = Some x -> re_alt re_m k (digits2 m ++ r) = Some x.
Proof. read_two_digits 1 13 m k. Qed.

Lemma re_dd_reads (R : Type) (k : Z -> pystr -> option R) (r : pystr) (x : R) :
  forall d, 1 <= d < 32 -> k d r = Some x -> re_alt re_dd k (digits2 d ++ r) = Some x.
Proof. read_two_digits 1 32 d k. Qed.

Lemma re_H_reads (R : Type) (k : Z -> pystr -> option R) (r : pystr) (x : R) :
  forall hh, 0 <= hh < 24 -> k hh r = Some x -> re_alt re_H k (digits2 hh ++ r) = Some x.
Proof. read_two_digits 0 24 hh k. Qed.

Lemma re_M_reads (R : Type) (k : Z -> pystr -> option R) (r : pystr) (x : R) :
  forall mm, 0 <= mm < 60 -> k mm r = Some x -> re_alt re_M k (digits2 mm ++ r) = Some x.
Proof. read_two_digits 0 60 mm k. Qed.

Lemma re_d_digit (n : Z) (r : pystr) : re_d (digit n :: r) = Some (n mod 10, r).
Proof.
  unfold re_d, DECIMAL_ZEROS. cbn [find].
  pose proof (digit_range n) as H.
  replace ((48 <=? digit n) && (digit n <? 48 + 10)) with true
    by (symmetry; apply andb_true_iff; split; [apply Z.leb_le|apply Z.ltb_lt]; lia).
  unfold digit. f_equal. f_equal. lia.
Qed.

Lemma re_Y_reads (R : Type) (k : Z -> pystr -> option R) (r : pystr) (x : R) (y : Z) :
  0 <= y <= 9999 -> k y r = Some x -> re_alt re_Y k (digits4 y ++ r) = Some x.
Proof.
  intros Hy Hk. unfold re_Y, digits4. cbn [app re_alt]. unfold re_two.
  rewrite !re_d_digit.
  replace ((((y / 1000) mod 10 * 10 + (y / 100) mod 10) * 10 + (y / 10) mod 10) * 10
           + y mod 10) with y.
  - now rewrite Hk.
  - assert (H1 : y / 100 = y / 10 / 10) by (rewrite Z.div_div by lia; reflexivity).
    assert (H2 : y / 1000 = y / 10 / 10 / 10) by (rewrite !Z.div_div by lia; reflexivity).
    rewrite H2, H1. clear H1 H2 Hk.
    Z.div_mod_to_equations. lia.
Qed.

Lemma re_ws_star_reads (R : Type) (k : pystr -> option R) (ws : pystr) :
  forall (c : Z) (s : pystr) (x : R),
    Forall (fun a => isspace a = true) ws -> isspace c = false ->
    k (c :: s) = Some x -> re_ws_star k (ws ++ c :: s) = Some x.
Proof.
  induction ws as [|a ws IH]; intros c s x Hws Hc Hk.
  - cbn [app re_ws_star]. now rewrite Hc.
  - inversion Hws as [|? ? Ha Hws']; subst. cbn [app re_ws_star]. rewrite Ha.
    now rewrite (IH c s x Hws' Hc Hk).
Qed.

Lemma re_ws_plus_reads (R : Type) (k : pystr -> option R) (a : Z) (ws : pystr)
    (c : Z) (s : pystr) (x : R) :
  Forall (fun a => isspace a = true) (a :: ws) -> isspace c = false ->
  k (c :: s) = Some x -> re_ws_plus k ((a :: ws) ++ c :: s) = Some x.
Proof.
  intros Hws Hc Hk. inversion Hws as [|? ? Ha Hws']; subst.
  cbn [app re_ws_plus]. rewrite Ha. now apply re_ws_star_reads.
Qed.

Lemma re_ascii_digits_2 (R : Type) (k : pystr -> option R) (v : Z) (r : pystr) :
  re_ascii_digits 2 k (digits2 v ++ r) = k r.
Proof.
  unfold digits2. cbn [app re_ascii_digits].
  pose proof (digit_range (v / 10)). pose proof (digit_range v).
  replace ((48 <=? digit (v / 10)) && (digit (v / 10) <=? 57)) with true
    by (symmetry; apply andb_true_iff; split; apply Z.leb_le; lia).
  replace ((48 <=? digit v) && (digit v <=? 57)) with true
    by (symmetry; apply andb_true_iff; split; apply Z.leb_le; lia).
  reflexivity.
Qed.

Lemma re_ascii_digits_4 (R : Type) (k : pystr -> option R) (v : Z) (r : pystr) :
  re_ascii_digits 4 k (digits4 v ++ r) = k r.
Proof.
  unfold digits4. cbn [app re_ascii_digits].
  pose proof (digit_range (v / 1000)). pose proof (digit_range (v / 100)).
  pose proof (digit_range (v / 10)). pose proof (digit_range v).
  replace ((48 <=? digit (v / 1000)) && (digit (v / 1000) <=? 57)) with true
    by (symmetry; apply andb_true_iff; split; apply Z.leb_le; lia).
  replace ((48 <=? digit (v / 100)) && (digit (v / 100) <=? 57)) with true
    by (symmetry; apply andb_true_iff; split; apply Z.leb_le; lia).
  replace ((48 <=? digit (v / 10)) && (digit (v / 10) <=? 57)) with true
    by (symmetry; apply andb_true_iff; split; apply Z.leb_le; lia).
  replace ((48 <=? digit v) && (digit v <=? 57)) with true
    by (symmetry; apply andb_true_iff; split; apply Z.leb_le; lia).
  reflexivity.
Qed.

Lemma re_lit_reads (R : Type) (k : Z -> pystr -> option R) (c v : Z) (r : pystr) (x : R) :
  k v r = Some x -> re_alt [re_lit c v] k (c :: r) = Some x.
Proof. intros H. cbn [re_alt]. unfold re_lit. now rewrite Z.eqb_refl, H. Qed.

Lemma strptime_reads_stamp (y m d hh mm a : Z) (ws : pystr) :
  0 <= y <= 9999 -> 1 <= m <= 12 -> 1 <= d <= 31 -> 0 <= hh <= 23 -> 0 <= mm <= 59 ->
  blank (a :: ws) ->
  strptime_ymd_hm (stamp_text y m d (a :: ws) hh mm) = make_datetime y m d hh mm.
Proof.
  intros Hy Hm Hd Hh Hmm Hgap. unfold strptime_ymd_hm.
  assert (E : re_ymd (fun y m d =>
                re_ws_plus (re_alt re_H (fun hh =>
                re_alt [re_lit COLON 0] (fun _ =>
                re_alt re_M (fun mm r => Some (y, m, d, hh, mm, r))))))
                (stamp_text y m d (a :: ws) hh mm)
              = Some (y, m, d, hh, mm, [])).
  { unfold re_ymd, stamp_text.
    apply re_Y_reads; [lia|]. cbn [app]. apply re_lit_reads.
    apply re_m_reads; [lia|]. cbn [app]. apply re_lit_reads.
    apply re_dd_reads; [lia|].
    change (digits2 hh ++ [COLON] ++ digits2 mm)
      with (digit (hh / 10) :: [digit hh] ++ [COLON] ++ digits2 mm).
    apply re_ws_plus_reads;
      [exact Hgap|apply isspace_ascii_digit, digit_range|].
    change (digit (hh / 10) :: [digit hh] ++ [COLON] ++ digits2 mm)
      with (digits2 hh ++ [COLON] ++ digits2 mm).
    apply re_H_reads; [lia|]. cbn [app]. apply re_lit_reads.
    rewrite <- (app_nil_r (digits2 mm)). apply re_M_reads; [lia|]. reflexivity. }
  rewrite E. reflexivity.
Qed.

Lemma strip_prefix_app (p s : pystr) : strip_prefix p (p ++ s) = Some s.
Proof.
  induction p as [|c p IH]; [reflexivity|]. cbn [app strip_prefix].
  now rewrite Z.eqb_refl.
Qed.

Lemma re_stamp_reads (R : Type) (k : pystr -> option R) (y m d hh mm a : Z)
    (ws after : pystr) (x : R) :
  blank (a :: ws) -> k after = Some x ->
  re_stamp k (stamp_text y m d (a :: ws) hh mm ++ after) = Some x.
Proof.
  intros Hgap Hk. unfold re_stamp, stamp_text. rewrite <- !app_assoc.
  rewrite re_ascii_digits_4. cbn [app re_char]. unfold HYPHEN at 1 2.
  rewrite Z.eqb_refl, re_ascii_digits_2. cbn [app re_char].
  unfold HYPHEN at 1 2. rewrite Z.eqb_refl, re_ascii_digits_2.
  change (digits2 hh ++ [COLON] ++ digits2 mm ++ after)
    with (digit (hh / 10) :: [digit hh] ++ [COLON] ++ digits2 mm ++ after).
  change ((a :: ws) ++ digit (hh / 10) :: ?t) with ((a :: ws) ++ digit (hh / 10) :: t).
  apply re_ws_plus_reads; [exact Hgap|apply isspace_ascii_digit, digit_range|].
  change (digit (hh / 10) :: digit hh :: COLON :: digits2 mm ++ after)
    with (digits2 hh ++ COLON :: digits2 mm ++ after).
  rewrite re_ascii_digits_2. cbn [re_char]. rewrite Z.eqb_refl.
  rewrite re_ascii_digits_2. exact Hk.
Qed.

Lemma re_search_detail_skips (before s : pystr) :
  ~ In (hd 0 LABEL) before -> re_search_detail (before ++ s) = re_search_detail s.
Proof.
  induction before as [|c before IH]; intros Hno; [reflexivity|].
  cbn [app re_search_detail]. unfold re_detail_at at 1.
  assert (Hc : c <> hd 0 LABEL) by (intros ->; apply Hno; now left).
  assert (E : strip_prefix LABEL (c :: before ++ s) = None).
  { unfold LABEL in *. cbn [strip_prefix hd] in *.
    destruct (Z.eqb_spec 46321 c); [congruence|reflexivity]. }
  rewrite E. apply IH. intros H. apply Hno. now right.
Qed.



(** ** What a run can raise *)

Lemma parse_detail_raises_value_error (text : pystr) (e : exn) :
  parse_detail_datetime_kst text = Raise e -> e = ValueError.
Proof.
  unfold parse_detail_datetime_kst.
  destruct (re_search_detail text) as [g|]; [|discriminate].
  destruct (strptime_ymd_hm g); [discriminate|]. now intros [= <-].
Qed.

Lemma crash_is_value_error (w : World) (this : script) (name : pystr)
    (since now : datetime) (row : Row.t) (e : exn) :
  fate_of w this name since now row = Crash e -> e = ValueError.
Proof.
  unfold fate_of. destruct (stale now row); [discriminate|].
  destruct (detail_text w (Row.link row)) as [text|]; [|discriminate].
  destruct (parse_detail_datetime_kst text) as [[d|]|e'] eqn:P; try discriminate.
  - destruct ((since <=? d) && (d <=? now)); discriminate.
  - intros [= <-]. exact (parse_detail_raises_value_error _ _ P).
Qed.

Lemma crash_of_value_error (w : World) (this : script) (name : pystr)
    (since now : datetime) (rows : list Row.t) (e : exn) :
  crash_of w this name since now rows = Some e -> e = ValueError.
Proof.
  induction rows as [|row rows IH]; cbn [crash_of]; [discriminate|].
  destruct (fate_of w this name since now row) eqn:F; try exact IH.
  intros [= <-]. exact (crash_is_value_error _ _ _ _ _ _ _ F).
Qed.

Lemma pager_exceptions (w : World) (this : script) (code name : pystr)
    (since now : datetime) (pages : list Z) :
  forall items e evs,
    pager w this code name since now pages items = (Raise e, evs) ->
    transport e \/ e = ValueError.
Proof.
  induction pages as [|page pages IH]; intros items e evs; cbn [pager]; [discriminate|].
  destruct (page_rows w this code page) as [[|row rows]|e0] eqn:R; try discriminate.
  - remember (row :: rows) as rs eqn:Hrs.
    destruct (crash_of w this name since now rs) as [ec|] eqn:C.
    + intros [= <- _]. right. exact (crash_of_value_error _ _ _ _ _ _ _ C).
    + destruct (existsb (stale now) rs); [discriminate|].
      destruct (pager w this code name since now pages
                  (items ++ kept w this name since now rs)) as [r' evs'] eqn:E.
      intros [= -> _]. exact (IH _ _ _ E).
  - intros [= <- _]. left. exact (page_rows_transport _ _ _ _ _ R).
Qed.

Lemma collector_exceptions (w : World) (this : script) (since now : datetime)
    (names : list pystr) :
  Forall (fun name => exists code, dict_lookup name CATEGORY_TO_SECTION = Ok code) names ->
  forall all_items e evs,
    collector w this since now names all_items = (Raise e, evs) ->
    transport e \/ e = ValueError.
Proof.
  induction 1 as [|name names (code & Hcode) _ IH]; intros all_items e evs;
    cbn [collector]; [discriminate|].
  rewrite Hcode.
  destruct (pager w this code name since now (py_range 1 (MAX_PAGES + 1)) [])
    as [[found|e1] evs1] eqn:P.
  - destruct (collector w this since now names (all_items ++ found)) as [r' evs'] eqn:C.
    intros [= -> _]. exact (IH _ _ _ C).
  - intros [= <- _]. exact (pager_exceptions _ _ _ _ _ _ _ _ _ _ P).
Qed.

Lemma wanted_are_known :
  Forall (fun name => exists code, dict_lookup name CATEGORY_TO_SECTION = Ok code) WANTED.
Proof. repeat constructor; eexists; vm_compute; reflexivity. Qed.

Lemma send_exceptions (w : World) (this : script) (text : pystr) (st st' : state)
    (e : exn) :
  send w this text st = (Raise e, st') -> e = RuntimeError \/ transport e.
Proof.
  unfold send. destruct (falsy (BOT_TOKEN w) || falsy (CHAT_ID w)).
  - intros [= <- _]. now left.
  - unfold bind, emit. destruct (http_post w text) as [|status body].
    + intros [= <- _]. right. now left.
    + destruct this; [|discriminate]. unfold raise_for_status.
      destruct ((400 <=? status) && (status <? 600)); [|discriminate].
      intros [= <- _]. right. right. now exists status.
Qed.

Lemma send_chunks_exceptions (w : World) (this : script) (lines : list pystr)
    (st st' : state) (e : exn) :
  send_chunks w this lines st = (Raise e, st') -> e = RuntimeError \/ transport e.
Proof.
  unfold send_chunks. unfold bind at 1.
  assert (Hloop : forall lines acc st st' e,
             for_in lines (fun line (acc : list pystr * Z) =>
               let '(chunk, buf) := acc in
               r' <- (if CHUNK_BUDGET <? buf + len line + 1
                      then send w this (join NEWLINE chunk) ;; ret ([], 0)
                      else ret (chunk, buf)) ;;
               let '(chunk, buf) := r' in
               ret (chunk ++ [line], buf + len line + 1)) acc st = (Raise e, st') ->
             e = RuntimeError \/ transport e).
  { clear. intros lines. induction lines as [|line lines IH]; intros [cur buf] st st' e.
    - discriminate.
    - rewrite for_in_cons. unfold bind at 1.
      destruct (CHUNK_BUDGET <? buf + len line + 1).
      + unfold bind at 1.
        destruct (send w this (join NEWLINE cur) st) as [[[]|e0] st0] eqn:S.
        * unfold ret at 1 2. apply IH.
        * intros [= <- _]. exact (send_exceptions _ _ _ _ _ _ S).
      + unfold ret at 1 2. apply IH. }
  match goal with
  | |- context [for_in lines ?f ?a st] => destruct (for_in lines f a st) as [[acc|e0] st0] eqn:L
  end.
  - destruct (fst acc); [discriminate|]. apply send_exceptions.
  - intros [= <- _]. exact (Hloop _ _ _ _ _ L).
Qed.

Lemma deliver_exceptions (w : World) (this : script) (now : datetime)
    (all_items : list Item.t) (st st' : state) (e : exn) :
  deliver w this now all_items st = (Raise e, st') -> e = RuntimeError \/ transport e.
Proof.
  unfold deliver. destruct this.
  - unfold bind at 1. destruct (load_cache_log st) as (sent & ->).
    destruct (filter _ all_items).
    + apply send_exceptions.
    + unfold bind.
      match goal with
      | |- context [send_chunks ?a ?b ?c ?d] =>
          destruct (send_chunks a b c d) as [[[]|e0] st0] eqn:S
      end.
      * match goal with
        | |- context [save_cache ?a ?b ?c] =>
            destruct (save_cache_run a b c) as (st2 & -> & _)
        end.
        discriminate.
      * intros [= <- _]. exact (send_chunks_exceptions _ _ _ _ _ _ S).
  - destruct all_items as [|it all_items]; [apply send_exceptions|].
    generalize (split_chunks (digest_lines molit_bot now
                                (sort_newest_first (it :: all_items)))).
    intros chunks. revert st. induction chunks as [|c chunks IH]; intros st.
    + discriminate.
    + rewrite for_in_cons. unfold bind at 1.
      destruct (send w molit_bot c st) as [[[]|e0] st0] eqn:S.
      * unfold emit. apply IH.
      * intros [= <- _]. exact (send_exceptions _ _ _ _ _ _ S).
Qed.



Lemma crash_of_in (w : World) (this : script) (name : pystr) (since now : datetime)
    (rows : list Row.t) (row : Row.t) (e : exn) :
  In row rows -> fate_of w this name since now row = Crash e ->
  exists e', crash_of w this name since now rows = Some e'.
Proof.
  induction rows as [|row0 rows IH]; intros Hin F; [destruct Hin|].
  cbn [crash_of]. destruct Hin as [->|Hin].
  - rewrite F. now exists e.
  - destruct (fate_of w this name since now row0); try exact (IH Hin F).
    now eexists.
Qed.

(** The time stamp of a detail page is parsed outside the [try] that
    guards the request.  So one row of the first page whose detail page
    shows the label with digits that are no date ends the call with
    [ValueError]; the items of the rows before it are not returned. *)
Theorem impossible_stamp_ends_the_call (w : World) (this : script) (code name : pystr)
    (since now : datetime) (max_pages : Z) (st : state)
    (rows : list Row.t) (row : Row.t) (text : pystr) (e : exn) :
  1 <= max_pages ->
  page_rows w this code 1 = Ok rows -> In row rows -> stale now row = false ->
  detail_text w row.(Row.link) = Some text ->
  parse_detail_datetime_kst text = Raise e ->
  exists evs,
    fetch_recent_for_section w this code name since now max_pages st
    = (Raise ValueError, log (GetList code 1 :: evs) st)
    /\ Forall (fun ev => exists link, ev = GetDetail link) evs.
Proof.
  intros Hmax Hrows Hin Hs Ht Hp.
  assert (F : fate_of w this name since now row = Crash e).
  { unfold fate_of. now rewrite Hs, Ht, Hp. }
  destruct (crash_of_in _ _ _ _ _ _ _ _ Hin F) as (e' & Hc).
  pose proof (crash_of_value_error _ _ _ _ _ _ _ Hc) as ->.
  rewrite fetch_run, py_range_cons by lia. cbn [pager]. rewrite Hrows.
  destruct rows as [|row0 rows0]; [destruct Hin|].
  rewrite Hc. cbn [fst snd].
  eexists. split; [reflexivity|].
  apply Forall_forall. intros ev Hev. apply in_asked in Hev.
  destruct Hev as (r & _ & _ & ->). now eexists.
Qed.

Lemma impossible_stamp_ends_the_call_witness :
  let w := redetailed (fun link =>
              if str_eqb link (sample_link (py "2"))
              then Answer 200 (py "등록일 2025-02-30 11:00")
              else sample_world.(http_detail) link) sample_world in
  exists evs,
    fetch_recent_for_section w molit_bot (py "p_sec_1") (py "일반")
      (sample_now - timedelta 0 24) sample_now MAX_PAGES fresh
    = (Raise ValueError, log (GetList (py "p_sec_1") 1 :: evs) fresh).
Proof.
  intros w.
  destruct (impossible_stamp_ends_the_call w molit_bot (py "p_sec_1") (py "일반")
              (sample_now - timedelta 0 24) sample_now MAX_PAGES fresh
              (parse_list_rows w molit_bot sample_listing)
              {| Row.title := py "second"; Row.link := sample_link (py "2");
                 Row.category := py "주택토지"; Row.date_str := [] |}
              (py "등록일 2025-02-30 11:00") ValueError) as (evs & H & _).
  - vm_compute. discriminate.
  - vm_compute. reflexivity.
  - vm_compute. tauto.
  - vm_compute. reflexivity.
  - vm_compute. reflexivity.
  - vm_compute. reflexivity.
  - exists evs. exact H.
Defined.

(** ** [extract_summary] *)

Lemma length_lstrip (s : pystr) : (List.length (lstrip s) <= List.length s)%nat.
Proof.
  induction s as [|c s IH]; cbn [lstrip]; [lia|].
  destruct (isspace c); cbn [List.length]; lia.
Qed.

Lemma in_lstrip (c : Z) (s : pystr) : In c (lstrip s) -> In c s.
Proof.
  induction s as [|a s IH]; cbn [lstrip]; [tauto|].
  destruct (isspace a); [intros H; right; now apply IH|tauto].
Qed.

Lemma len_rstrip (s : pystr) : len (rstrip s) <= len s.
Proof.
  unfold rstrip, len. rewrite length_rev.
  pose proof (length_lstrip (rev s)) as H. rewrite length_rev in H. lia.
Qed.

Lemma in_rstrip (c : Z) (s : pystr) : In c (rstrip s) -> In c s.
Proof.
  unfold rstrip. intros H. apply in_rev in H. apply in_lstrip in H.
  now apply in_rev.
Qed.

Lemma in_collapse_ws_aux (c : Z) (s : pystr) :
  forall b, In c (collapse_ws_aux b s) -> c = 32 \/ (isspace c = false /\ In c s).
Proof.
  induction s as [|a s IH]; intros b; cbn [collapse_ws_aux]; [intros []|].
  destruct (isspace a) eqn:E.
  - destruct b.
    + intros H. destruct (IH _ H) as [->|[H1 H2]]; [now left|right; cbn; tauto].
    + intros [<-|H]; [now left|].
      destruct (IH _ H) as [->|[H1 H2]]; [now left|right; cbn; tauto].
  - intros [<-|H]; [right; split; [exact E|now left]|].
    destruct (IH _ H) as [->|[H1 H2]]; [now left|right; cbn; tauto].
Qed.

Lemma in_firstn {A} (x : A) (n : nat) (s : list A) : In x (firstn n s) -> In x s.
Proof. intros H. rewrite <- (firstn_skipn n s). apply in_or_app. now left. Qed.

Lemma in_slice_to {A} (x : A) (limit : Z) (s : list A) : In x (slice_to limit s) -> In x s.
Proof. unfold slice_to. destruct (limit <? 0); apply in_firstn. Qed.

Lemma len_slice_to {A} (limit : Z) (s : list A) :
  0 <= limit -> len (slice_to limit s) <= limit.
Proof.
  intros H. unfold slice_to, len. replace (limit <? 0) with false by (symmetry; lia).
  rewrite length_firstn. lia.
Qed.

(** The summary is one line of words: the only white space in it is the
    plain space, so no line break, tab or no-break space of the page gets
    into a message.  With a limit of zero or more it has at most
    [limit + 1] characters: the text as it is when it fits, and otherwise
    its first [limit] characters, trailing space removed, and an
    ellipsis. *)
Theorem summary_is_short_and_plain (w : World) (html : pystr) (limit : Z) :
  let s := extract_summary w html limit in
  (forall c, In c s -> isspace c = true -> c = 32)
  /\ (0 <= limit ->
      len s <= limit + 1
      /\ (len s <= limit \/ exists cut, s = cut ++ ELLIPSIS /\ len cut <= limit)).
Proof.
  cbn zeta. unfold extract_summary.
  set (text := collapse_ws _).
  assert (Htext : forall c, In c text -> isspace c = true -> c = 32).
  { intros c Hin Hs. unfold text, collapse_ws in Hin.
    apply in_collapse_ws_aux in Hin. destruct Hin as [->|[Hn _]]; [reflexivity|congruence]. }
  destruct (limit <? len text) eqn:E.
  - split.
    + intros c Hin Hs. apply in_app_or in Hin. destruct Hin as [Hin|Hin].
      * apply Htext; [|exact Hs]. now apply in_rstrip, in_slice_to in Hin.
      * destruct Hin as [<-|[]]. discriminate.
    + intros Hl.
      assert (Hcut : len (rstrip (slice_to limit text)) <= limit).
      { pose proof (len_rstrip (slice_to limit text)).
        pose proof (len_slice_to limit text Hl). lia. }
      split.
      * rewrite len_app. change (len ELLIPSIS) with 1. lia.
      * right. eexists. split; [reflexivity|exact Hcut].
  - apply Z.ltb_ge in E. split; [exact Htext|]. intros Hl. split; [lia|now left].
Qed.

Lemma summary_is_short_and_plain_witness :
  let s := extract_summary sample_world
             (py "  a long" ++ [9] ++ py "text" ++ [10] ++ py " that  goes on ") 8 in
  s = py "a long t…" /\ len s <= 8 + 1.
Proof.
  intros s. split; [vm_compute; reflexivity|].
  apply (proj2 (summary_is_short_and_plain sample_world _ 8)). lia.
Defined.

(** ** The order of the digest *)

Lemma insert_newest_first_perm (x : Item.t) (l : list Item.t) :
  Permutation (insert_newest_first x l) (x :: l).
Proof.
  induction l as [|y l IH]; cbn [insert_newest_first]; [reflexivity|].
  destruct (Item.dt x <=? Item.dt y); [|reflexivity].
  rewrite IH. apply perm_swap.
Qed.

Lemma insert_newest_first_sorted (x : Item.t) (l : list Item.t) :
  StronglySorted not_older l -> StronglySorted not_older (insert_newest_first x l).
Proof.
  induction 1 as [|y l Hl IH Hy]; cbn [insert_newest_first].
  - repeat constructor.
  - destruct (Z.leb_spec (Item.dt x) (Item.dt y)) as [Hle|Hlt].
    + constructor; [exact IH|].
      apply Forall_forall. intros z Hz. apply in_insert_newest_first in Hz.
      destruct Hz as [->|Hz]; [exact Hle|].
      rewrite Forall_forall in Hy. now apply Hy.
    + constructor; [now constructor|].
      constructor; [unfold not_older; lia|].
      apply Forall_forall. intros z Hz. rewrite Forall_forall in Hy.
      specialize (Hy z Hz). unfold not_older in *. lia.
Qed.

Lemma insert_newest_first_stamped (t : datetime) (x : Item.t) (l : list Item.t) :
  StronglySorted not_older l ->
  filter (stamped t) (insert_newest_first x l)
  = filter (stamped t) l ++ (if stamped t x then [x] else []).
Proof.
  induction 1 as [|y l Hl IH Hy]; cbn [insert_newest_first].
  - cbn [filter app]. destruct (stamped t x); reflexivity.
  - destruct (Z.leb_spec (Item.dt x) (Item.dt y)) as [Hle|Hlt].
    + cbn [filter]. rewrite IH. destruct (stamped t y); reflexivity.
    + remember (y :: l) as yl eqn:Eyl.
      cbn [filter].
      destruct (stamped t x) eqn:Hx; [|now rewrite app_nil_r].
      subst yl.
      assert (Hnone : filter (stamped t) (y :: l) = []).
      { apply Z.eqb_eq in Hx.
        assert (Hall : forall z, In z (y :: l) -> stamped t z = false).
        { intros z [<-|Hz]; unfold stamped; apply Z.eqb_neq; [lia|].
          rewrite Forall_forall in Hy. specialize (Hy z Hz). unfold not_older in Hy. lia. }
        clear -Hall. induction (y :: l) as [|z zs IHz]; [reflexivity|].
        cbn [filter]. rewrite (Hall z) by now left.
        apply IHz. intros z' Hz'. apply Hall. now right. }
      rewrite Hnone. reflexivity.
Qed.

Lemma sort_newest_first_fold (l : list Item.t) :
  forall acc,
    StronglySorted not_older acc ->
    let sorted := fold_left (fun acc x => insert_newest_first x acc) l acc in
    StronglySorted not_older sorted
    /\ Permutation sorted (acc ++ l)
    /\ forall t, filter (stamped t) sorted = filter (stamped t) acc ++ filter (stamped t) l.
Proof.
  induction l as [|x l IH]; intros acc Hacc; cbn zeta; cbn [fold_left].
  - rewrite app_nil_r. split; [exact Hacc|]. split; [reflexivity|].
    intros t. cbn [filter]. now rewrite app_nil_r.
  - destruct (IH _ (insert_newest_first_sorted x acc Hacc)) as (H1 & H2 & H3).
    split; [exact H1|]. split.
    + rewrite H2, insert_newest_first_perm. apply Permutation_middle.
    + intros t. rewrite H3, insert_newest_first_stamped by exact Hacc.
      rewrite <- app_assoc. cbn [filter]. destruct (stamped t x); reflexivity.
Qed.

(** [items.sort(key=..., reverse=True)] as the scripts use it: the items
    come out newest first, none lost and none added, and items of one
    time stamp keep the order in which they were collected. *)
Theorem digest_order (l : list Item.t) :
  StronglySorted not_older (sort_newest_first l)
  /\ Permutation (sort_newest_first l) l
  /\ forall t, filter (stamped t) (sort_newest_first l) = filter (stamped t) l.
Proof.
  unfold sort_newest_first.
  destruct (sort_newest_first_fold l [] (SSorted_nil _)) as (H1 & H2 & H3).
  split; [exact H1|]. split; [exact H2|]. exact H3.
Qed.

(** ** Where the items and the detail requests come from *)

Section Provenance.

Variables (w : World) (this : script).
Variables (code name : pystr) (since now : datetime).

Lemma upto_crash_incl (rows : list Row.t) (row : Row.t) :
  In row (upto_crash w this name since now rows) -> In row rows.
Proof.
  induction rows as [|row0 rows IH]; cbn [upto_crash]; [tauto|].
  destruct (fate_of w this name since now row0);
    intros [H|H]; try (now left); try (right; exact (IH H)).
Qed.

(** A detail request of the pager is for a row of a page it fetched, a
    row that does not raise the stop signal; an item it returns is one it
    started from or the item of such a row. *)
Lemma pager_sound (pages : list Z) :
  forall items r evs,
    pager w this code name since now pages items = (r, evs) ->
    (forall link, In (GetDetail link) evs ->
       exists p rows row,
         In (GetList code p) evs /\ page_rows w this code p = Ok rows
         /\ In row rows /\ stale now row = false /\ row.(Row.link) = link)
    /\ (forall items' it, r = Ok items' -> In it items' ->
          In it items
          \/ exists p rows row,
               In (GetList code p) evs /\ page_rows w this code p = Ok rows
               /\ In row rows /\ fate_of w this name since now row = Keep it).
Proof.
  induction pages as [|page pages IH]; intros items r evs; cbn [pager].
  - intros [= <- <-]. split; [intros link []|].
    intros items' it [= <-] Hin. now left.
  - destruct (page_rows w this code page) as [[|row0 rows0]|e] eqn:R.
    + intros [= <- <-]. split.
      * intros link [H|[]]. discriminate.
      * intros items' it [= <-] Hin. now left.
    + remember (row0 :: rows0) as rs eqn:Hrs.
      assert (Hask : forall (sub : list Row.t) link tail,
                 (forall row, In row sub -> In row rs) ->
                 In (GetDetail link) (asked w this name since now sub) ->
                 exists p rows row,
                   In (GetList code p) (GetList code page :: tail)
                   /\ page_rows w this code p = Ok rows
                   /\ In row rows /\ stale now row = false /\ row.(Row.link) = link).
      { intros sub link tail Hsub H. apply in_asked in H.
        destruct H as (row & Hin & Hs & [= ->]).
        exists page, rs, row. split; [now left|]. auto. }
      assert (Hkept : forall it tail,
                 In it (kept w this name since now rs) ->
                 exists p rows row,
                   In (GetList code p) (GetList code page :: tail)
                   /\ page_rows w this code p = Ok rows
                   /\ In row rows /\ fate_of w this name since now row = Keep it).
      { intros it tail H. apply in_kept in H. destruct H as (row & Hin & Hk).
        exists page, rs, row. split; [now left|]. auto. }
      destruct (crash_of w this name since now rs) as [ec|].
      * intros [= <- <-]. split; [|discriminate].
        intros link [H|H]; [discriminate|].
        exact (Hask _ link _ (upto_crash_incl rs) H).
      * destruct (existsb (stale now) rs).
        -- intros [= <- <-]. split.
           ++ intros link [H|H]; [discriminate|].
              exact (Hask rs link _ (fun _ H => H) H).
           ++ intros items' it [= <-] Hin. apply in_app_or in Hin.
              destruct Hin as [Hin|Hin]; [now left|right]. now apply Hkept.
        -- destruct (pager w this code name since now pages
                       (items ++ kept w this name since now rs)) as [r' evs'] eqn:E.
           intros [= <- <-]. destruct (IH _ _ _ E) as [IH1 IH2].
           assert (Hlater : forall (P : Z -> list Row.t -> Row.t -> Prop),
                      (exists p rows row, In (GetList code p) evs' /\ P p rows row) ->
                      exists p rows row,
                        In (GetList code p)
                           (GetList code page :: asked w this name since now rs ++ Sleep
                              match this with molit_bot_now => 400 | molit_bot => 500 end
                              :: evs')
                        /\ P p rows row).
           { intros P (p & rows & row & Hp & H). exists p, rows, row.
             split; [|exact H]. right. apply in_or_app. right. now right. }
           split.
           ++ intros link [H|H]; [discriminate|].
              apply in_app_or in H. destruct H as [H|[H|H]].
              ** exact (Hask rs link _ (fun _ H => H) H).
              ** discriminate.
              ** apply (Hlater (fun p rows row =>
                          page_rows w this code p = Ok rows
                          /\ In row rows /\ stale now row = false /\ Row.link row = link)).
                 exact (IH1 link H).
           ++ intros items' it Hr Hin.
              destruct (IH2 items' it Hr Hin) as [H|H].
              ** apply in_app_or in H. destruct H as [H|H]; [now left|right].
                 now apply Hkept.
              ** right.
                 apply (Hlater (fun p rows row =>
                          page_rows w this code p = Ok rows
                          /\ In row rows /\ fate_of w this name since now row = Keep it)).
                 exact H.
    + intros [= <- <-]. split; [|discriminate].
      intros link [H|[]]. discriminate.
Qed.

End Provenance.

(** Nothing comes from nowhere.  Every detail request of a call is for the
    link of a row of a listing page the call fetched, a row that does not
    raise the stop signal.  Every item returned is made of such a row: it
    has the row's title and link, the name of the section asked for as its
    category, the time stamp read from the row's detail page and, in
    [molit_bot_now.py] only, the summary of that page. *)
Theorem items_come_from_listed_rows (w : World) (this : script) (code name : pystr)
    (since now : datetime) (max_pages : Z) (st st' : state)
    (r : result (list Item.t)) (evs : list event) :
  fetch_recent_for_section w this code name since now max_pages st = (r, st') ->
  added st st' evs ->
  (forall link, In (GetDetail link) evs ->
     exists p rows row,
       In (GetList code p) evs /\ page_rows w this code p = Ok rows
       /\ In row rows /\ stale now row = false /\ row.(Row.link) = link)
  /\ (forall items it, r = Ok items -> In it items ->
        exists p rows row text,
          In (GetList code p) evs /\ page_rows w this code p = Ok rows
          /\ In row rows /\ stale now row = false
          /\ detail_text w row.(Row.link) = Some text
          /\ parse_detail_datetime_kst text = Ok (Some it.(Item.dt))
          /\ it.(Item.title) = row.(Row.title)
          /\ it.(Item.link) = row.(Row.link)
          /\ it.(Item.category) = name
          /\ it.(Item.summary)
             = match this with
               | molit_bot_now => Some (extract_summary w text w.(SUMMARY_CHARS))
               | molit_bot => None
               end).
Proof.
  intros Hrun Ha. rewrite fetch_run in Hrun.
  destruct (pager w this code name since now
              (py_range 1 (1 + Z.of_nat (Z.to_nat max_pages))) []) as [r0 evs0] eqn:P.
  cbn [fst snd] in Hrun. injection Hrun as <- <-.
  pose proof (added_inj _ _ _ _ Ha (log_added evs0 st)) as ->.
  destruct (pager_sound _ _ _ _ _ _ _ _ _ _ P) as [H1 H2].
  split; [exact H1|].
  intros items it Hr Hin.
  destruct (H2 items it Hr Hin) as [[]|(p & rows & row & Hp & Hrows & Hrow & Hk)].
  apply keep_inv in Hk. destruct Hk as (text & d & Hs & Ht & Hd & _ & ->).
  exists p, rows, row, text. cbn [item_of Item.dt Item.title Item.link Item.category
                                   Item.summary].
  auto 12.
Qed.

Lemma items_come_from_listed_rows_witness :
  let run := fetch_recent_for_section sample_world molit_bot_now (py "p_sec_2")
               (py "주택토지") (sample_now - timedelta 0 24) sample_now MAX_PAGES fresh in
  exists p rows row,
    In (GetList (py "p_sec_2") p) (trace (snd run))
    /\ page_rows sample_world molit_bot_now (py "p_sec_2") p = Ok rows
    /\ In row rows /\ stale sample_now row = false
    /\ row.(Row.link) = sample_link (py "1").
Proof.
  intros run.
  refine (proj1 (items_come_from_listed_rows sample_world molit_bot_now (py "p_sec_2")
                   (py "주택토지") (sample_now - timedelta 0 24) sample_now MAX_PAGES
                   fresh (snd run) (fst run) (trace (snd run)) _ _)
                (sample_link (py "1")) _).
  - apply surjective_pairing.
  - reflexivity.
  - vm_compute. repeat (first [left; reflexivity|right]).
Defined.

(** ** The listing requests of a run *)

Lemma listings_delivering (evs : list event) : Forall delivering evs -> listings evs = [].
Proof.
  induction 1 as [|e evs He _ IH]; [reflexivity|].
  destruct e; try contradiction; exact IH.
Qed.

(** The pager asks for the pages of its range in order, from the first
    on, and stops somewhere. *)
Lemma pager_listings_prefix (w : World) (this : script) (code name : pystr)
    (since now : datetime) (n : nat) :
  forall (lo : Z) (items : list Item.t) r evs,
    pager w this code name since now (py_range lo (lo + Z.of_nat n)) items = (r, evs) ->
    exists k : Z,
      0 <= k <= Z.of_nat n /\ (1 <= Z.of_nat n -> 1 <= k)
      /\ (forall items', r = Ok items' -> 1 <= Z.of_nat n -> 1 <= k)
      /\ listings evs = map (pair code) (py_range lo (lo + k)).
Proof.
  induction n as [|n IH]; intros lo items r evs.
  - rewrite py_range_nil by lia. cbn [pager]. intros [= <- <-].
    exists 0. rewrite py_range_nil by lia. repeat split; lia.
  - rewrite py_range_cons by lia.
    replace (lo + Z.of_nat (S n)) with (lo + 1 + Z.of_nat n) by lia.
    cbn [pager].
    assert (Hone : forall tail : list event,
               listings tail = [] ->
               exists k : Z,
                 0 <= k <= Z.of_nat (S n) /\ (1 <= Z.of_nat (S n) -> 1 <= k)
                 /\ (forall items' : list Item.t, r = Ok items' ->
                     1 <= Z.of_nat (S n) -> 1 <= k)
                 /\ listings (GetList code lo :: tail)
                    = map (pair code) (py_range lo (lo + k))).
    { intros tail Hl. exists 1. repeat split; try lia.
      change (listings (GetList code lo :: tail)) with ((code, lo) :: listings tail).
      rewrite Hl, py_range_cons, py_range_nil by lia. reflexivity. }
    destruct (page_rows w this code lo) as [[|row rows]|e] eqn:R.
    + intros [= <- <-]. now apply Hone.
    + remember (row :: rows) as rs eqn:Hrs.
      destruct (crash_of w this name since now rs).
      * intros [= <- <-]. apply Hone, listings_asked.
      * destruct (existsb (stale now) rs) eqn:Hst.
        -- intros [= <- <-]. apply Hone, listings_asked.
        -- destruct (pager w this code name since now (py_range (lo + 1) (lo + 1 + Z.of_nat n))
                       (items ++ kept w this name since now rs)) as [r' evs'] eqn:E.
           intros [= <- <-]. apply IH in E. destruct E as (k & Hk & _ & _ & Hl).
           exists (1 + k). repeat split; try lia.
           change (listings (GetList code lo :: ?x)) with ((code, lo) :: listings x).
           rewrite listings_app, listings_asked. cbn [app].
           change (listings (Sleep ?m :: evs')) with (listings evs').
           rewrite Hl, (py_range_cons lo) by lia.
           replace (lo + (1 + k)) with (lo + 1 + k) by lia. reflexivity.
    + intros [= <- <-]. now apply Hone.
Qed.

Lemma wanted_names : WANTED = [py "주택토지"; py "국토도시"; py "일반"].
Proof. reflexivity. Qed.

(** A run asks the listing for the pages 1, 2, ... of 주택토지, then of
    국토도시, then of 일반, up to three pages each: nine listing requests
    at most, none of them made twice.  The first page of the first section
    is always asked for; a section is not asked at all only when the run
    has ended before it. *)
Theorem listing_requests_of_a_run (w : World) (this : script) (st st' : state)
    (r : result unit) (evs : list event) :
  main w this st = (r, st') -> added st st' evs ->
  exists k1 k2 k3 : Z,
    1 <= k1 <= 3 /\ 0 <= k2 <= 3 /\ 0 <= k3 <= 3
    /\ (k2 = 0 -> k3 = 0) /\ (r = Ok tt -> 1 <= k2 /\ 1 <= k3)
    /\ listings evs
       = map (pair (py "p_sec_2")) (py_range 1 (1 + k1))
         ++ map (pair (py "p_sec_9")) (py_range 1 (1 + k2))
         ++ map (pair (py "p_sec_1")) (py_range 1 (1 + k3))
    /\ len (listings evs) <= 9 /\ NoDup (listings evs).
Proof.
  intros Hrun Ha.
  assert (Hshape : exists k1 k2 k3 : Z,
             1 <= k1 <= 3 /\ 0 <= k2 <= 3 /\ 0 <= k3 <= 3
             /\ (k2 = 0 -> k3 = 0) /\ (r = Ok tt -> 1 <= k2 /\ 1 <= k3)
             /\ listings evs
                = map (pair (py "p_sec_2")) (py_range 1 (1 + k1))
                  ++ map (pair (py "p_sec_9")) (py_range 1 (1 + k2))
                  ++ map (pair (py "p_sec_1")) (py_range 1 (1 + k3))).
  { rewrite main_run, wanted_names in Hrun. cbn [collector] in Hrun.
    change (dict_lookup (py "주택토지") CATEGORY_TO_SECTION)
      with (@Ok pystr (py "p_sec_2")) in Hrun.
    change (dict_lookup (py "국토도시") CATEGORY_TO_SECTION)
      with (@Ok pystr (py "p_sec_9")) in Hrun.
    change (dict_lookup (py "일반") CATEGORY_TO_SECTION)
      with (@Ok pystr (py "p_sec_1")) in Hrun.
    change (py_range 1 (MAX_PAGES + 1)) with (py_range 1 (1 + Z.of_nat 3)) in Hrun.
    set (since := clock w - timedelta 0 24) in Hrun.
    cbv beta iota in Hrun. revert Hrun.
    destruct (pager w this (py "p_sec_2") (py "주택토지") since (clock w)
                (py_range 1 (1 + Z.of_nat 3)) []) as [[f1|e1] evs1] eqn:P1;
      apply pager_listings_prefix in P1; destruct P1 as (k1 & Hk1 & Hk1' & _ & L1).
    2:{ cbv beta iota. intros [= <- <-].
        pose proof (added_inj _ _ _ _ Ha (log_added evs1 st)) as ->.
        exists k1, 0, 0. rewrite L1. rewrite (py_range_nil 1 (1 + 0)) by lia.
        cbn [map]. rewrite !app_nil_r.
        repeat split; try lia; discriminate. }
    destruct (pager w this (py "p_sec_9") (py "국토도시") since (clock w)
                (py_range 1 (1 + Z.of_nat 3)) []) as [[f2|e2] evs2] eqn:P2;
      apply pager_listings_prefix in P2; destruct P2 as (k2 & Hk2 & Hk2' & _ & L2).
    2:{ cbv beta iota. intros [= <- <-].
        pose proof (added_inj _ _ _ _ Ha (log_added (evs1 ++ evs2) st)) as ->.
        exists k1, k2, 0. rewrite listings_app, L1, L2. rewrite (py_range_nil 1 (1 + 0)) by lia.
        cbn [map]. rewrite !app_nil_r.
        repeat split; try lia; discriminate. }
    destruct (pager w this (py "p_sec_1") (py "일반") since (clock w)
                (py_range 1 (1 + Z.of_nat 3)) []) as [[f3|e3] evs3] eqn:P3;
      apply pager_listings_prefix in P3; destruct P3 as (k3 & Hk3 & Hk3' & _ & L3).
    2:{ cbv beta iota. intros [= <- <-].
        pose proof (added_inj _ _ _ _ Ha (log_added (evs1 ++ evs2 ++ evs3) st)) as ->.
        exists k1, k2, k3. rewrite !listings_app, L1, L2, L3.
        repeat split; try lia; discriminate. }
    cbv beta iota.
    destruct (deliver_events w this (clock w) ((([] ++ f1) ++ f2) ++ f3)
                (log (evs1 ++ evs2 ++ evs3 ++ []) st)) as (r' & st1 & dv & Hd & Hda & Hdv).
    rewrite Hd. intros [= <- <-].
    pose proof (added_inj _ _ _ _ Ha (added_trans _ _ _ _ _ (log_added _ st) Hda)) as ->.
    exists k1, k2, k3. rewrite !listings_app, L1, L2, L3, (listings_delivering dv Hdv).
    cbn [listings flat_map]. rewrite !app_nil_r.
    repeat split; try lia. }
  destruct Hshape as (k1 & k2 & k3 & H1 & H2 & H3 & H23 & Hok & L).
  exists k1, k2, k3. repeat split; try tauto; try lia.
  - rewrite L, !len_app. unfold len. rewrite !length_map.
    pose proof (len_py_range 1 (1 + k1)). pose proof (len_py_range 1 (1 + k2)).
    pose proof (len_py_range 1 (1 + k3)). unfold len in *. lia.
  - rewrite L.
    assert (Hnd : forall (c : pystr) k, NoDup (map (pair c) (py_range 1 (1 + k)))).
    { intros c k. apply Finite.Injective_map_NoDup; [intros a b [= ->]; reflexivity|].
      unfold py_range. apply Finite.Injective_map_NoDup; [intros a b; lia|apply seq_NoDup]. }
    assert (Hfst : forall (c : pystr) k x,
               In x (map (pair c) (py_range 1 (1 + k))) -> fst x = c).
    { intros c k x Hx. apply in_map_iff in Hx. destruct Hx as (p & <- & _). reflexivity. }
    apply NoDup_app; [apply Hnd| |].
    + apply NoDup_app; [apply Hnd|apply Hnd|].
      intros x Hx Hy. apply Hfst in Hx, Hy. rewrite Hx in Hy. vm_compute in Hy. discriminate.
    + intros x Hx Hy. apply Hfst in Hx. apply in_app_or in Hy.
      destruct Hy as [Hy|Hy]; apply Hfst in Hy; rewrite Hx in Hy; vm_compute in Hy;
        discriminate.
Qed.

Lemma listing_requests_of_a_run_witness :
  let run := main sample_world molit_bot fresh in
  exists k1 k2 k3 : Z,
    listings (trace (snd run))
    = map (pair (py "p_sec_2")) (py_range 1 (1 + k1))
      ++ map (pair (py "p_sec_9")) (py_range 1 (1 + k2))
      ++ map (pair (py "p_sec_1")) (py_range 1 (1 + k3)).
Proof.
  intros run.
  destruct (listing_requests_of_a_run sample_world molit_bot fresh (snd run) (fst run)
              (trace (snd run)) (surjective_pairing _) eq_refl)
    as (k1 & k2 & k3 & _ & _ & _ & _ & _ & L & _).
  exists k1, k2, k3. exact L.
Defined.

(** ** What a delivery posts *)

Lemma digest_lines_fold (this : script) (now : datetime) (items : list Item.t) :
  digest_lines this now items
  = snd (fold_left (digest_step this) items (None, [header now; []])).
Proof. reflexivity. Qed.

Lemma digest_step_keeps (this : script) (items : list Item.t) :
  forall (acc : option pystr * list pystr) (line : pystr),
    In line (snd acc) -> In line (snd (fold_left (digest_step this) items acc)).
Proof.
  induction items as [|it items IH]; intros [last ls] line Hin; [exact Hin|].
  cbn [fold_left]. apply IH. unfold digest_step. cbn [snd] in *.
  destruct (match last with
            | Some c => negb (str_eqb (Item.category it) c)
            | None => true
            end); cbn [snd]; rewrite ?in_app_iff; auto.
Qed.

Lemma digest_lines_complete (this : script) (now : datetime) (items : list Item.t)
    (it : Item.t) :
  In it items -> In (block this it) (digest_lines this now items).
Proof.
  rewrite digest_lines_fold. generalize (@None pystr, [header now; []]).
  induction items as [|it0 items IH]; intros acc Hin; [destruct Hin|].
  cbn [fold_left]. destruct Hin as [->|Hin]; [|now apply IH].
  apply digest_step_keeps. destruct acc as [last ls]. unfold digest_step.
  destruct (match last with
            | Some c => negb (str_eqb (Item.category it) c)
            | None => true
            end); cbn [snd]; rewrite ?in_app_iff; cbn [In]; auto.
Qed.

Lemma send_ok_inv (w : World) (this : script) (text : pystr) (st st' : state) :
  send w this text st = (Ok tt, st') -> st' = log [Post text] st.
Proof.
  intros H. destruct (send_run w this text st) as (r & st1 & Hrun & Hc & Hcase).
  rewrite H in Hrun. injection Hrun as <- <-.
  destruct Hcase as [(_ & [=] & _)|(_ & Ha)].
  exact (log_of_added _ _ _ Ha Hc).
Qed.

(** The loop of [molit_bot.py] over its chunks, when it gets through. *)
Lemma send_each_ok_inv (w : World) (chunks : list pystr) :
  forall st st' : state,
    for_in chunks (fun c (_ : unit) => send w molit_bot c ;; emit (Sleep 300)) tt st
    = (Ok tt, st') ->
    st' = log (posted_with_pauses chunks) st.
Proof.
  induction chunks as [|c chunks IH]; intros st st'.
  - cbn. unfold ret. intros [= <-]. now rewrite log_nil.
  - rewrite for_in_cons. unfold bind at 1.
    destruct (send w molit_bot c st) as [[[]|e] st1] eqn:S; [|discriminate].
    apply send_ok_inv in S. subst st1.
    change (emit (Sleep 300) (log [Post c] st))
      with (Ok tt, log [Sleep 300] (log [Post c] st)).
    cbv beta iota. intros H. apply IH in H. rewrite H, !log_app. reflexivity.
Qed.

Lemma in_concat_group {A} (gs : list (list A)) (x : A) :
  In x (List.concat gs) -> exists g, In g gs /\ In x g.
Proof.
  intros H. apply in_concat in H. destruct H as (g & Hg & Hx). now exists g.
Qed.

(** A delivery that comes back without an exception has posted something,
    and has posted every item it was given that is not in the cache
    ([molit_bot.py] has no cache): the block of the item is a line of one
    of the messages, so no block is cut in two by the chunking. *)
Theorem every_new_item_is_posted (w : World) (this : script) (now : datetime)
    (all_items : list Item.t) (st st' : state) (evs : list event) :
  deliver w this now all_items st = (Ok tt, st') -> added st st' evs ->
  exists sent,
    match this with
    | molit_bot_now => load_cache st = (Ok sent, log [ReadCache] st)
    | molit_bot => sent = []
    end
    /\ (exists t, In (Post t) evs)
    /\ forall it, In it all_items -> set_contains (AStr it.(Item.link)) sent = false ->
         exists g, In (Post (join NEWLINE g)) evs /\ In (block this it) g.
Proof.
  unfold deliver. destruct this.
  - unfold bind at 1. destruct (load_cache_log st) as (sent & Hload). rewrite Hload.
    intros Hrun Ha. exists sent. split; [reflexivity|].
    set (st1 := log [ReadCache] st) in *.
    assert (Hnew : forall it, In it all_items ->
               set_contains (AStr (Item.link it)) sent = false ->
               In it (filter (fun it => negb (set_contains (AStr (Item.link it)) sent))
                             all_items)).
    { intros it Hin Hs. apply filter_In. now rewrite Hs. }
    destruct (filter (fun it => negb (set_contains (AStr (Item.link it)) sent)) all_items)
      as [|it0 rest].
    + apply send_ok_inv in Hrun. subst st'. unfold st1 in Ha. rewrite log_app in Ha.
      pose proof (added_inj _ _ _ _ Ha (log_added _ st)) as ->.
      split; [eexists; right; now left|].
      intros it Hin Hs. destruct (Hnew it Hin Hs).
    + remember (it0 :: rest) as new_items eqn:E. clear E it0 rest.
      unfold bind in Hrun.
      destruct (send_chunks_groups w molit_bot_now
                  (digest_lines molit_bot_now now (sort_newest_first new_items)) st1)
        as (gs & r & st2 & Hs & Ha2 & _ & _ & _ & Hall & _).
      rewrite Hs in Hrun. destruct r as [[]|e]; [|discriminate].
      destruct (save_cache_run w
                  (fold_left (fun s it => set_add (AStr (Item.link it)) s)
                     (sort_newest_first new_items) sent) st2) as (st3 & Hsave & Ha3 & _).
      rewrite Hsave in Hrun. injection Hrun as <-.
      pose proof (added_inj _ _ _ _ Ha
                    (added_trans _ _ _ _ _ (log_added [ReadCache] st)
                       (added_trans _ _ _ _ _ Ha2 Ha3))) as ->.
      specialize (Hall eq_refl).
      assert (Hpost : forall line,
                 In line (digest_lines molit_bot_now now (sort_newest_first new_items)) ->
                 exists g, In (Post (join NEWLINE g))
                              ([ReadCache] ++ map Post (map (join NEWLINE) gs) ++ [WriteCache])
                           /\ In line g).
      { intros line Hl. rewrite <- Hall in Hl. apply in_concat_group in Hl.
        destruct Hl as (g & Hg & Hl). exists g. split; [|exact Hl].
        apply in_or_app. right. apply in_or_app. left.
        apply (in_map Post), (in_map (join NEWLINE)). exact Hg. }
      split.
      * destruct (digest_lines_content molit_bot_now now (sort_newest_first new_items))
          as (rest & Hd & _).
        destruct (Hpost (header now)) as (g & Hg & _); [rewrite Hd; now left|].
        exists (join NEWLINE g). exact Hg.
      * intros it Hin Hc. apply Hpost, digest_lines_complete, in_sort_newest_first.
        now apply Hnew.
  - intros Hrun Ha. exists []. split; [reflexivity|].
    destruct all_items as [|it0 rest].
    + apply send_ok_inv in Hrun. subst st'.
      pose proof (added_inj _ _ _ _ Ha (log_added _ st)) as ->.
      split; [eexists; now left|]. intros it [].
    + remember (it0 :: rest) as all_items eqn:E. clear E it0 rest.
      apply send_each_ok_inv in Hrun. subst st'.
      pose proof (added_inj _ _ _ _ Ha (log_added _ st)) as ->.
      destruct (split_chunks_groups (digest_lines molit_bot now (sort_newest_first all_items)))
        as (gs & Hsplit & Hcat & _).
      rewrite Hsplit.
      assert (Hpost : forall line,
                 In line (digest_lines molit_bot now (sort_newest_first all_items)) ->
                 exists g, In (Post (join NEWLINE g))
                              (posted_with_pauses (map (join NEWLINE) gs))
                           /\ In line g).
      { intros line Hl. rewrite <- Hcat in Hl. apply in_concat_group in Hl.
        destruct Hl as (g & Hg & Hl). exists g. split; [|exact Hl].
        unfold posted_with_pauses. apply in_flat_map. exists (join NEWLINE g).
        split; [now apply (in_map (join NEWLINE))|now left]. }
      split.
      * destruct (digest_lines_content molit_bot now (sort_newest_first all_items))
          as (rest & Hd & _).
        destruct (Hpost (header now)) as (g & Hg & _); [rewrite Hd; now left|].
        exists (join NEWLINE g). exact Hg.
      * intros it Hin _. apply Hpost, digest_lines_complete, in_sort_newest_first.
        exact Hin.
Qed.

Lemma every_new_item_is_posted_witness :
  let it := {| Item.dt := sample_now; Item.title := py "first";
               Item.link := sample_link (py "1"); Item.category := py "일반";
               Item.summary := None |} in
  let run := deliver sample_world molit_bot sample_now [it] fresh in
  exists g, In (Post (join NEWLINE g)) (trace (snd run)) /\ In (block molit_bot it) g.
Proof.
  intros it run.
  destruct (every_new_item_is_posted sample_world molit_bot sample_now [it] fresh
              (snd run) (trace (snd run))) as (sent & Hs & _ & H).
  - vm_compute. reflexivity.
  - reflexivity.
  - subst sent. apply H; [now left|reflexivity].
Defined.

(** ** The cache and the run *)

Lemma send_each_leaves_the_cache (w : World) (this : script) (chunks : list pystr) :
  forall st : state,
    exists r evs,
      for_in chunks (fun c (_ : unit) => send w this c ;; emit (Sleep 300)) tt st
      = (r, log evs st)
      /\ ~ In ReadCache evs /\ ~ In WriteCache evs.
Proof.
  induction chunks as [|c chunks IH]; intros st.
  - exists (Ok tt), []. cbn. unfold ret. rewrite log_nil. auto.
  - rewrite for_in_cons. unfold bind at 1.
    destruct (send_log w this c st) as (r & evs & Hsend & Hev & _).
    rewrite Hsend.
    assert (Hno : ~ In ReadCache evs /\ ~ In WriteCache evs).
    { destruct Hev as [->| ->]; split; intros H; repeat destruct H as [H|H];
        try discriminate; assumption. }
    destruct r as [[]|e].
    + change (emit (Sleep 300) (log evs st))
        with (Ok tt, log [Sleep 300] (log evs st)).
      cbv beta iota.
      destruct (IH (log [Sleep 300] (log evs st))) as (r' & evs' & Hrun & H1 & H2).
      exists r', (evs ++ [Sleep 300] ++ evs').
      split; [etransitivity; [exact Hrun|];
              rewrite !log_app, ?app_assoc; reflexivity|].
      split; intros H; apply in_app_or in H; destruct H as [H|[H|H]];
        try discriminate; tauto.
    + exists (Raise e), evs. split; [reflexivity|exact Hno].
Qed.

Lemma posts_are_no_cache_events (ts : list pystr) :
  ~ In ReadCache (map Post ts) /\ ~ In WriteCache (map Post ts).
Proof.
  split; intros H; apply in_map_iff in H; destruct H as (t & H & _); discriminate.
Qed.

Lemma deliver_and_the_cache (w : World) (this : script) (now : datetime)
    (all_items : list Item.t) (st st' : state) (r : result unit) (evs : list event) :
  deliver w this now all_items st = (r, st') -> added st st' evs ->
  (In WriteCache evs ->
     this = molit_bot_now /\ r = Ok tt
     /\ exists evs0, evs = evs0 ++ [WriteCache] /\ ~ In WriteCache evs0
                     /\ exists t, In (Post t) evs0)
  /\ (~ In WriteCache evs -> st'.(cache_file) = st.(cache_file))
  /\ (this = molit_bot -> ~ In ReadCache evs).
Proof.
  unfold deliver. destruct this.
  - unfold bind at 1. destruct (load_cache_log st) as (sent & ->).
    set (st1 := log [ReadCache] st).
    destruct (filter _ all_items) as [|it0 rest].
    + destruct (send_log w molit_bot_now (no_news molit_bot_now now) st1)
        as (r1 & evs1 & -> & Hev & _).
      intros [= <- <-] Ha. unfold st1 in Ha. rewrite log_app in Ha.
      pose proof (added_inj _ _ _ _ Ha (log_added _ st)) as ->.
      assert (Hno : ~ In WriteCache ([ReadCache] ++ evs1)).
      { destruct Hev as [->| ->]; intros H; repeat destruct H as [H|H];
          try discriminate; assumption. }
      split; [tauto|]. split; [reflexivity|discriminate].
    + remember (it0 :: rest) as new_items eqn:E.
      unfold bind.
      destruct (send_chunks_groups w molit_bot_now
                  (digest_lines molit_bot_now now (sort_newest_first new_items)) st1)
        as (gs & r2 & st2 & -> & Ha2 & Hc2 & _ & _ & Hall & _).
      destruct (posts_are_no_cache_events (map (join NEWLINE) gs)) as [_ Hnw].
      destruct r2 as [[]|e].
      * destruct (save_cache_run w
                    (fold_left (fun s it => set_add (AStr (Item.link it)) s)
                       (sort_newest_first new_items) sent) st2) as (st3 & -> & Ha3 & _).
        intros [= <- <-] Ha.
        pose proof (added_inj _ _ _ _ Ha
                      (added_trans _ _ _ _ _ (log_added [ReadCache] st)
                         (added_trans _ _ _ _ _ Ha2 Ha3))) as ->.
        split; [|split; [|discriminate]].
        -- intros _. split; [reflexivity|]. split; [reflexivity|].
           exists ([ReadCache] ++ map Post (map (join NEWLINE) gs)).
           split; [now rewrite <- app_assoc|]. split.
           ++ intros [H|H]; [discriminate|now apply Hnw].
           ++ specialize (Hall eq_refl).
              destruct gs as [|g gs].
              ** cbn in Hall. symmetry in Hall.
                 now apply digest_lines_nonempty in Hall.
              ** exists (join NEWLINE g). right. now left.
        -- intros H. exfalso. apply H. apply in_or_app. right.
           apply in_or_app. right. now left.
      * intros [= <- <-] Ha.
        pose proof (added_inj _ _ _ _ Ha
                      (added_trans _ _ _ _ _ (log_added [ReadCache] st) Ha2)) as ->.
        assert (Hno : ~ In WriteCache ([ReadCache] ++ map Post (map (join NEWLINE) gs))).
        { intros [H|H]; [discriminate|now apply Hnw]. }
        split; [tauto|]. split; [intros _; exact Hc2|discriminate].
  - assert (Hloop : exists r1 evs1,
               match all_items with
               | [] => send w molit_bot (no_news molit_bot now)
               | _ :: _ =>
                   for_in (split_chunks (digest_lines molit_bot now
                                           (sort_newest_first all_items)))
                     (fun c (_ : unit) => send w molit_bot c ;; emit (Sleep 300)) tt
               end st = (r1, log evs1 st)
               /\ ~ In ReadCache evs1 /\ ~ In WriteCache evs1).
    { destruct all_items as [|it0 rest].
      - destruct (send_log w molit_bot (no_news molit_bot now) st)
          as (r1 & evs1 & -> & Hev & _).
        exists r1, evs1. split; [reflexivity|].
        destruct Hev as [->| ->]; split; intros H; repeat destruct H as [H|H];
          try discriminate; assumption.
      - apply send_each_leaves_the_cache. }
    destruct Hloop as (r1 & evs1 & -> & H1 & H2).
    intros [= <- <-] Ha.
    pose proof (added_inj _ _ _ _ Ha (log_added _ st)) as ->.
    split; [tauto|]. split; [reflexivity|tauto].
Qed.



(** ** When a run succeeds *)

Lemma no_crash (w : World) (this : script) (name : pystr) (since now : datetime)
    (rows : list Row.t) :
  (forall link text, detail_text w link = Some text ->
     exists r, parse_detail_datetime_kst text = Ok r) ->
  crash_of w this name since now rows = None.
Proof.
  intros Hdetail.
  induction rows as [|row rows IH]; [reflexivity|].
  cbn [crash_of]. unfold fate_of at 1.
  destruct (stale now row); [exact IH|].
  destruct (detail_text w (Row.link row)) as [text|] eqn:T; [|exact IH].
  destruct (Hdetail _ _ T) as (r & ->).
  destruct r as [d|]; [|exact IH].
  destruct ((since <=? d) && (d <=? now)); exact IH.
Qed.

Lemma pager_ok (w : World) (this : script) (code name : pystr) (since now : datetime)
    (pages : list Z) :
  (forall link text, detail_text w link = Some text ->
     exists r, parse_detail_datetime_kst text = Ok r) ->
  (forall p, In p pages -> exists rows, page_rows w this code p = Ok rows) ->
  forall items, exists items' evs,
    pager w this code name since now pages items = (Ok items', evs).
Proof.
  intros Hdetail.
  induction pages as [|page pages IH]; intros Hl items; cbn [pager].
  - now eexists _, _.
  - destruct (Hl page (or_introl eq_refl)) as (rows & ->).
    destruct rows as [|row rows]; [now eexists _, _|].
    remember (row :: rows) as rs eqn:E.
    rewrite no_crash by exact Hdetail.
    destruct (existsb (stale now) rs); [now eexists _, _|].
    destruct (IH (fun p H => Hl p (or_intror H))
                 (items ++ kept w this name since now rs)) as (items' & evs & ->).
    now eexists _, _.
Qed.

Lemma send_each_ok (w : World) (this : script) (chunks : list pystr) :
  configured w = true -> (forall t, delivered w this t = true) ->
  forall st : state,
    exists st',
      for_in chunks (fun c (_ : unit) => send w this c ;; emit (Sleep 300)) tt st
      = (Ok tt, st').
Proof.
  intros Hconf Hpost.
  induction chunks as [|c chunks IH]; intros st.
  - now eexists.
  - rewrite for_in_cons. unfold bind at 1.
    destruct (send_ok w this c st Hconf (Hpost c)) as (st1 & -> & _).
    unfold emit. apply IH.
Qed.

Lemma deliver_ok (w : World) (this : script) (now : datetime) (all_items : list Item.t)
    (st : state) :
  configured w = true -> (forall t, delivered w this t = true) ->
  exists st', deliver w this now all_items st = (Ok tt, st').
Proof.
  intros Hconf Hpost. unfold deliver. destruct this.
  - unfold bind at 1. destruct (load_cache_log st) as (sent & ->).
    destruct (filter _ all_items) as [|it0 rest].
    + destruct (send_ok w molit_bot_now (no_news molit_bot_now now) (log [ReadCache] st)
                  Hconf (Hpost _)) as (st1 & H & _).
      now exists st1.
    + remember (it0 :: rest) as new_items eqn:E.
      unfold bind.
      destruct (send_chunks_groups w molit_bot_now
                  (digest_lines molit_bot_now now (sort_newest_first new_items))
                  (log [ReadCache] st))
        as (gs & r2 & st2 & -> & _ & _ & _ & _ & _ & _ & Hok).
      rewrite Hok; [|exact Hconf|exact Hpost].
      destruct (save_cache_run w
                  (fold_left (fun s it => set_add (AStr (Item.link it)) s)
                     (sort_newest_first new_items) sent) st2) as (st3 & -> & _).
      now exists st3.
  - destruct all_items as [|it0 rest].
    + destruct (send_ok w molit_bot (no_news molit_bot now) st Hconf (Hpost _))
        as (st1 & H & _).
      now exists st1.
    + now apply send_each_ok.
Qed.


Lemma sample_details_parse (link text : pystr) :
  detail_text sample_world link = Some text ->
  parse_detail_datetime_kst text = Ok (parse_result text).
Proof.
  unfold detail_text. cbn [http_detail sample_world].
  destruct (str_eqb link (sample_link (py "1")));
    [intros H; vm_compute in H; injection H as <-; vm_compute; reflexivity|].
  destruct (str_eqb link (sample_link (py "2")));
    [intros H; vm_compute in H; injection H as <-; vm_compute; reflexivity|].
  destruct (str_eqb link (sample_link (py "4")));
    [intros H; vm_compute in H; injection H as <-; vm_compute; reflexivity|].
  intros H. vm_compute in H. discriminate.
Qed.


(** ** The stop signal *)

(** The stop signal is sound.  A row that raises it carries a date, and
    that whole day lies before the window: no time stamp of that day or of
    an earlier one is within the last 24 hours. *)
Theorem stale_rows_are_out_of_the_window (now : datetime) (row : Row.t) :
  stale now row = true ->
  exists day,
    strptime_ymd row.(Row.date_str) = Some day
    /\ day < date_of (now - timedelta 0 24)
    /\ forall d, date_of d <= day -> d < now - timedelta 0 24.
Proof.
  unfold stale. destruct (strptime_ymd (Row.date_str row)) as [day|]; [|discriminate].
  intros H. apply Z.ltb_lt in H. exists day. split; [reflexivity|].
  unfold date_of, timedelta, DAY_US in *.
  split; [Z.div_mod_to_equations; lia|].
  intros d Hd. Z.div_mod_to_equations. lia.
Qed.

Lemma stale_rows_are_out_of_the_window_witness :
  exists day,
    strptime_ymd (py "2025-08-01") = Some day
    /\ day < date_of (sample_now - timedelta 0 24)
    /\ forall d, date_of d <= day -> d < sample_now - timedelta 0 24.
Proof.
  apply (stale_rows_are_out_of_the_window sample_now
           {| Row.title := py "third"; Row.link := sample_link (py "3");
              Row.category := py "주택토지"; Row.date_str := py "2025-08-01" |}).
  vm_compute. reflexivity.
Defined.

(** ** Sets of links *)

Lemma py_eq_trans (a b c : atom) :
  py_eq a b = true -> py_eq b c = true -> py_eq a c = true.
Proof.
  destruct a as [|x|x|x], b as [|y|y|y], c as [|z|z|z]; cbn [py_eq];
    try discriminate; try reflexivity;
    rewrite ?str_eqb_eq, ?Z.eqb_eq, ?Bool.eqb_true_iff;
    try congruence;
    try (destruct x, y; lia); try (destruct x, z; lia); try (destruct y, z; lia);
    try lia.
  all: try (destruct x, y, z; lia).
Qed.

Lemma set_contains_app (x : atom) (s t : pyset) :
  set_contains x (s ++ t) = set_contains x s || set_contains x t.
Proof. apply existsb_app. Qed.

Lemma set_contains_add (y x : atom) (s : pyset) :
  set_contains y (set_add x s) = set_contains y s || py_eq y x.
Proof.
  unfold set_add. destruct (set_contains x s) eqn:Hx.
  - destruct (py_eq y x) eqn:Hyx; [|now rewrite orb_false_r].
    rewrite orb_true_r. unfold set_contains in *.
    apply existsb_exists in Hx. destruct Hx as (z & Hz & Hxz).
    apply existsb_exists. exists z. split; [exact Hz|].
    exact (py_eq_trans _ _ _ Hyx Hxz).
  - rewrite set_contains_app. cbn. now rewrite orb_false_r.
Qed.

Lemma set_contains_fold (y : atom) (l : list atom) :
  forall s, set_contains y (fold_left (fun s x => set_add x s) l s)
            = set_contains y s || existsb (py_eq y) l.
Proof.
  induction l as [|x l IH]; intros s; cbn [fold_left existsb].
  - now rewrite orb_false_r.
  - rewrite IH, set_contains_add, orb_assoc. reflexivity.
Qed.

Lemma set_contains_of_list (y : atom) (l : list atom) :
  set_contains y (set_of_list l) = existsb (py_eq y) l.
Proof. unfold set_of_list. now rewrite set_contains_fold. Qed.

Lemma existsb_same_members {A} (f : A -> bool) (l l' : list A) :
  (forall x, In x l <-> In x l') -> existsb f l = existsb f l'.
Proof.
  intros H. apply eq_true_iff_eq. rewrite !existsb_exists.
  split; intros (x & Hx & Hf); exists x; split; try exact Hf; now apply H.
Qed.

Lemma dict_get_links (v : json) :
  dict_get (py "links") (JArr []) [(py "links", v)] = v.
Proof. reflexivity. Qed.

Lemma save_then_load (w : World) (s : pyset) (st st1 : state) :
  w.(disk_write) = WriteOk ->
  (forall x, In x (w.(set_order) s) <-> In x s) ->
  len (w.(set_order) s) <= MAX_CACHE ->
  save_cache w s st = (Ok tt, st1) ->
  exists s',
    load_cache st1 = (Ok s', log [ReadCache] st1)
    /\ forall x, set_contains x s' = set_contains x s.
Proof.
  intros Hw Horder Hlen Hsave.
  destruct (save_cache_run w s st) as (st1' & Hrun & _ & Hfile).
  rewrite Hsave in Hrun. injection Hrun as <-.
  rewrite Hw in Hfile. destruct Hfile as (evicted & kept & Hsplit & Hfile & Hkept).
  assert (evicted = []) as ->.
  { rewrite Hsplit, len_app in Hkept, Hlen.
    destruct evicted; [reflexivity|]. rewrite len_cons in *.
    pose proof (len_nonneg evicted). pose proof (len_nonneg kept). lia. }
  cbn [app] in Hsplit.
  destruct (load_cache_run st1) as (s' & st2 & Hload & Ha & Hc & Hs').
  exists s'. rewrite Hload, (log_of_added _ _ _ Ha Hc). split; [reflexivity|].
  rewrite Hfile, dict_get_links, py_set_atoms in Hs'. subst s'.
  intros x. rewrite set_contains_of_list, <- Hsplit.
  apply existsb_same_members. exact Horder.
Qed.

(** What [save_cache] writes, [load_cache] reads back.  When the file can
    be written, [list(links_set)] lists the members of the set and they
    are no more than [MAX_CACHE], the set loaded from the file has the
    members of the set saved. *)
Theorem cache_round_trip (w : World) (s : pyset) (st st1 : state) :
  w.(disk_write) = WriteOk ->
  (forall x, In x (w.(set_order) s) <-> In x s) ->
  len (w.(set_order) s) <= MAX_CACHE ->
  save_cache w s st = (Ok tt, st1) ->
  exists s',
    load_cache st1 = (Ok s', log [ReadCache] st1)
    /\ forall x, set_contains x s' = set_contains x s.
Proof. exact (save_then_load w s st st1). Qed.

Lemma cache_round_trip_witness :
  let s := set_of_list [AStr (sample_link (py "1")); AStr (sample_link (py "2"))] in
  exists s',
    load_cache (snd (save_cache sample_world s fresh))
    = (Ok s', log [ReadCache] (snd (save_cache sample_world s fresh)))
    /\ forall x, set_contains x s' = set_contains x s.
Proof.
  intros s.
  apply (cache_round_trip sample_world s fresh).
  - reflexivity.
  - intros x. reflexivity.
  - vm_compute. discriminate.
  - vm_compute. reflexivity.
Defined.

(** ** From one run to the next *)

Lemma set_contains_eq (y x : atom) (s : pyset) :
  py_eq y x = true -> set_contains x s = true -> set_contains y s = true.
Proof.
  unfold set_contains. intros Hyx Hx.
  apply existsb_exists in Hx. destruct Hx as (z & Hz & Hxz).
  apply existsb_exists. exists z. split; [exact Hz|exact (py_eq_trans _ _ _ Hyx Hxz)].
Qed.

Lemma set_contains_fold_links (y : atom) (items : list Item.t) :
  forall s,
    set_contains y (fold_left (fun s it => set_add (AStr (Item.link it)) s) items s)
    = set_contains y s || existsb (fun it => py_eq y (AStr (Item.link it))) items.
Proof.
  induction items as [|it items IH]; intros s; cbn [fold_left existsb].
  - now rewrite orb_false_r.
  - rewrite IH, set_contains_add, orb_assoc. reflexivity.
Qed.

Lemma len_fold_links (items : list Item.t) :
  forall s,
    len (fold_left (fun s it => set_add (AStr (Item.link it)) s) items s)
    <= len s + len items.
Proof.
  induction items as [|it items IH]; intros s; cbn [fold_left].
  - unfold len. cbn. lia.
  - specialize (IH (set_add (AStr (Item.link it)) s)).
    assert (len (set_add (AStr (Item.link it)) s) <= len s + 1).
    { unfold set_add. destruct (set_contains _ s); [lia|].
      rewrite len_app. unfold len. cbn. lia. }
    rewrite len_cons. lia.
Qed.

Lemma len_filter {A} (f : A -> bool) (l : list A) : len (filter f l) <= len l.
Proof.
  unfold len. apply inj_le. induction l as [|x l IH]; cbn [filter]; [lia|].
  destruct (f x); cbn [List.length]; lia.
Qed.

Lemma filter_nil {A} (f : A -> bool) (l : list A) :
  (forall x, In x l -> f x = false) -> filter f l = [].
Proof.
  induction l as [|x l IH]; intros H; [reflexivity|].
  cbn [filter]. rewrite (H x) by now left. apply IH. intros y Hy. apply H. now right.
Qed.

Lemma load_cache_same_file (st st' : state) (sent : pyset) (st0 : state) :
  st'.(cache_file) = st.(cache_file) ->
  load_cache st = (Ok sent, st0) ->
  load_cache st' = (Ok sent, log [ReadCache] st').
Proof.
  intros Hf Hload.
  destruct (load_cache_run st) as (s & st1 & Hrun & _ & _ & Hs).
  rewrite Hload in Hrun. injection Hrun as <- _.
  destruct (load_cache_run st') as (s' & st2 & Hrun' & Ha & Hc & Hs').
  rewrite Hrun', (log_of_added _ _ _ Ha Hc). rewrite Hf in Hs'.
  replace s' with sent; [reflexivity|].
  destruct (cache_file st) as [| | |[]]; try congruence.
  destruct (py_set (dict_get (py "links") (JArr []) kv)); congruence.
Qed.

Lemma py_eq_refl_str (s : pystr) : py_eq (AStr s) (AStr s) = true.
Proof. apply str_eqb_refl. Qed.

(** What has been delivered is not delivered again.  After a delivery of
    [molit_bot_now.py] that came back without an exception, the cache
    holds the links it held before and the links of the items given, and
    delivering the same items once more, at any time, posts the message
    that there is nothing new.  This needs that the file can be written, that
    [list(links_set)] lists every member of the set once, and that the
    links fit into [MAX_CACHE]. *)
Theorem delivered_items_are_not_sent_again (w : World) (now : datetime)
    (all_items : list Item.t) (st st0 st1 : state) (sent : pyset) :
  w.(disk_write) = WriteOk ->
  (forall s, Permutation (w.(set_order) s) s) ->
  load_cache st = (Ok sent, st0) ->
  len sent + len all_items <= MAX_CACHE ->
  deliver w molit_bot_now now all_items st = (Ok tt, st1) ->
  exists sent',
    load_cache st1 = (Ok sent', log [ReadCache] st1)
    /\ (forall x, set_contains x sent'
                  = set_contains x sent
                    || existsb (fun it => py_eq x (AStr it.(Item.link))) all_items)
    /\ forall now',
         deliver w molit_bot_now now' all_items st1
         = send w molit_bot_now (no_news molit_bot_now now') (log [ReadCache] st1).
Proof.
  intros Hw Hperm Hload Hlen Hrun.
  assert (Hagain : forall sent',
             load_cache st1 = (Ok sent', log [ReadCache] st1) ->
             (forall x, set_contains x sent'
                        = set_contains x sent
                          || existsb (fun it => py_eq x (AStr (Item.link it))) all_items) ->
             forall now',
               deliver w molit_bot_now now' all_items st1
               = send w molit_bot_now (no_news molit_bot_now now') (log [ReadCache] st1)).
  { intros sent' Hl Hmem now'. unfold deliver. unfold bind at 1. rewrite Hl.
    rewrite filter_nil; [reflexivity|].
    intros it Hin. rewrite Hmem.
    replace (existsb (fun it0 => py_eq (AStr (Item.link it)) (AStr (Item.link it0)))
               all_items) with true; [now rewrite orb_true_r|].
    symmetry. apply existsb_exists. exists it. split; [exact Hin|apply py_eq_refl_str]. }
  revert Hrun. unfold deliver. unfold bind at 1.
  destruct (load_cache_log st) as (sent2 & Hload2).
  rewrite Hload in Hload2. injection Hload2 as <- ->.
  rewrite Hload.
  assert (Hold : forall it, In it all_items ->
             set_contains (AStr (Item.link it)) sent = true
             \/ In it (filter (fun it => negb (set_contains (AStr (Item.link it)) sent))
                              all_items)).
  { intros it Hin. destruct (set_contains (AStr (Item.link it)) sent) eqn:E;
      [now left|right]. apply filter_In. now rewrite E. }
  pose proof (len_filter (fun it => negb (set_contains (AStr (Item.link it)) sent))
                all_items) as Hfl.
  assert (Hsub : forall it,
             In it (filter (fun it => negb (set_contains (AStr (Item.link it)) sent))
                           all_items) -> In it all_items).
  { intros it H. now apply filter_In in H. }
  destruct (filter (fun it => negb (set_contains (AStr (Item.link it)) sent)) all_items)
    as [|it0 rest].
  - intros Hrun. apply send_ok_inv in Hrun.
    assert (Hc : cache_file st1 = cache_file st) by now subst st1.
    pose proof (load_cache_same_file st st1 sent _ Hc Hload) as Hl.
    assert (Hmem : forall x, set_contains x sent
                             = set_contains x sent
                               || existsb (fun it => py_eq x (AStr (Item.link it)))
                                    all_items).
    { intros x. destruct (set_contains x sent) eqn:E; [reflexivity|].
      cbn [orb]. symmetry. apply not_true_is_false. intros H.
      apply existsb_exists in H. destruct H as (it & Hin & Hx).
      destruct (Hold it Hin) as [Hs|[]].
      pose proof (set_contains_eq _ _ _ Hx Hs). congruence. }
    exists sent. split; [exact Hl|]. split; [exact Hmem|]. exact (Hagain sent Hl Hmem).
  - remember (it0 :: rest) as new_items eqn:E. clear E it0 rest.
    unfold bind.
    destruct (send_chunks_groups w molit_bot_now
                (digest_lines molit_bot_now now (sort_newest_first new_items))
                (log [ReadCache] st)) as (gs & r & st2 & -> & _).
    destruct r as [[]|e]; [|discriminate].
    set (S := fold_left (fun s it => set_add (AStr (Item.link it)) s)
                (sort_newest_first new_items) sent).
    intros Hsave.
    destruct (sort_newest_first_fold new_items [] (SSorted_nil _)) as (_ & Hsorted & _).
    cbn [app] in Hsorted. fold (sort_newest_first new_items) in Hsorted.
    destruct (save_then_load w S st2 st1) as (sent' & Hl & Hm).
    + exact Hw.
    + intros x. split; apply Permutation_in; [|symmetry]; apply Hperm.
    + assert (len (set_order w S) = len S)
        by (unfold len; now rewrite (Permutation_length (Hperm S))).
      pose proof (len_fold_links (sort_newest_first new_items) sent).
      assert (len (sort_newest_first new_items) = len new_items)
        by (unfold len; now rewrite (Permutation_length Hsorted)).
      fold S in H0. lia.
    + exact Hsave.
    + assert (Hmem : forall x, set_contains x sent'
                               = set_contains x sent
                                 || existsb (fun it => py_eq x (AStr (Item.link it)))
                                      all_items).
      { intros x. rewrite Hm. unfold S. rewrite set_contains_fold_links.
        destruct (set_contains x sent) eqn:Ex; [reflexivity|]. cbn [orb].
        apply eq_true_iff_eq. rewrite !existsb_exists.
        split; intros (it & Hin & Hx).
        - exists it. split; [|exact Hx]. apply Hsub. now apply in_sort_newest_first.
        - exists it. split; [|exact Hx]. apply in_sort_newest_first.
          destruct (Hold it Hin) as [Hs|Hi]; [|exact Hi].
          pose proof (set_contains_eq _ _ _ Hx Hs). congruence. }
      exists sent'. split; [exact Hl|]. split; [exact Hmem|]. exact (Hagain sent' Hl Hmem).
Qed.

Lemma delivered_items_are_not_sent_again_witness :
  let it := {| Item.dt := sample_now; Item.title := py "first";
               Item.link := sample_link (py "1"); Item.category := py "일반";
               Item.summary := Some (py "summary") |} in
  let st1 := snd (deliver sample_world molit_bot_now sample_now [it] fresh) in
  deliver sample_world molit_bot_now sample_now [it] st1
  = send sample_world molit_bot_now (no_news molit_bot_now sample_now)
      (log [ReadCache] st1).
Proof.
  intros it st1.
  destruct (delivered_items_are_not_sent_again sample_world sample_now [it] fresh
              (log [ReadCache] fresh) st1 []) as (sent' & _ & _ & H).
  - reflexivity.
  - intros s. apply Permutation_refl.
  - vm_compute. reflexivity.
  - vm_compute. discriminate.
  - vm_compute. reflexivity.
  - apply H.
Defined.

(** ** Which requests the pager makes, and why it raises *)

Section PagerRequests.

Variables (w : World) (this : script).
Variables (code name : pystr) (since now : datetime).

Lemma crash_inv (row : Row.t) (e : exn) :
  fate_of w this name since now row = Crash e ->
  stale now row = false
  /\ exists text, detail_text w row.(Row.link) = Some text
                  /\ parse_detail_datetime_kst text = Raise e.
Proof.
  unfold fate_of. destruct (stale now row); [discriminate|].
  destruct (detail_text w (Row.link row)) as [text|]; [|discriminate].
  destruct (parse_detail_datetime_kst text) as [[d|]|e'] eqn:P; try discriminate.
  - destruct ((since <=? d) && (d <=? now)); discriminate.
  - intros [= <-]. split; [reflexivity|]. now exists text.
Qed.

Lemma crash_of_cause (rows : list Row.t) (e : exn) :
  crash_of w this name since now rows = Some e ->
  stamp_cause w (asked w this name since now (upto_crash w this name since now rows)) e.
Proof.
  induction rows as [|row rows IH]; cbn [crash_of upto_crash]; [discriminate|].
  destruct (fate_of w this name since now row) eqn:F.
  1,2,4: intros H; destruct (IH H) as (link & text & Hin & Ht & Hp);
    exists link, text; (split; [|auto]);
    change (row :: upto_crash w this name since now rows)
      with ([row] ++ upto_crash w this name since now rows);
    unfold asked in *; rewrite flat_map_app; apply in_or_app; now right.
  intros [= <-]. destruct (crash_inv _ _ F) as (Hs & text & Ht & Hp).
  exists (Row.link row), text. split; [|auto].
  apply in_asked. exists row. split; [now left|auto].
Qed.

Lemma upto_crash_app (before after : list Row.t) :
  crash_of w this name since now before = None ->
  upto_crash w this name since now (before ++ after)
  = before ++ upto_crash w this name since now after.
Proof.
  induction before as [|row before IH]; cbn [crash_of upto_crash app]; [reflexivity|].
  destruct (fate_of w this name since now row); intros H; try discriminate;
    now rewrite (IH H).
Qed.

Lemma upto_crash_head (row : Row.t) (after : list Row.t) :
  In row (upto_crash w this name since now (row :: after)).
Proof.
  cbn [upto_crash]. destruct (fate_of w this name since now row); now left.
Qed.

(** The first page of the range is always asked for. *)
Lemma pager_first_page (page : Z) (pages : list Z) (items : list Item.t) :
  In (GetList code page) (snd (pager w this code name since now (page :: pages) items)).
Proof.
  cbn [pager].
  destruct (page_rows w this code page) as [[|row rows]|e]; try (now left).
  remember (row :: rows) as rs.
  destruct (crash_of w this name since now rs); [now left|].
  destruct (existsb (stale now) rs); [now left|].
  destruct (pager w this code name since now pages (items ++ kept w this name since now rs)).
  now left.
Qed.

(** On a page the pager asked for, the detail page of a row that does not
    raise the stop signal is requested, unless a row before it on the page
    has made the call raise. *)
Lemma pager_asks (pages : list Z) :
  forall items r evs,
    pager w this code name since now pages items = (r, evs) ->
    forall p rows before row after,
      In (GetList code p) evs -> page_rows w this code p = Ok rows ->
      rows = before ++ row :: after ->
      crash_of w this name since now before = None ->
      stale now row = false ->
      In (GetDetail row.(Row.link)) evs.
Proof.
  induction pages as [|page pages IH]; intros items r evs; cbn [pager].
  - intros [= <- <-] p rows before row after [].
  - destruct (page_rows w this code page) as [[|row0 rows0]|e] eqn:R.
    + intros [= <- <-] p rows before row after [[= <-]|[]] Hr Hsplit.
      rewrite R in Hr. injection Hr as <-. now destruct before.
    + remember (row0 :: rows0) as rs eqn:Hrs.
      assert (Hhere : forall rows before row after,
                 page_rows w this code page = Ok rows ->
                 rows = before ++ row :: after ->
                 crash_of w this name since now before = None ->
                 stale now row = false ->
                 In (GetDetail row.(Row.link))
                    (asked w this name since now (upto_crash w this name since now rs))).
      { intros rows before row after Hr Hsplit Hb Hs.
        rewrite R in Hr. injection Hr as <-. rewrite Hsplit.
        rewrite upto_crash_app by exact Hb. apply in_asked. exists row.
        split; [apply in_or_app; right; apply upto_crash_head|auto]. }
      destruct (crash_of w this name since now rs) as [ec|] eqn:C.
      * intros [= <- <-] p rows before row after [[= <-]|H] Hr Hsplit Hb Hs.
        -- right. exact (Hhere _ _ _ _ Hr Hsplit Hb Hs).
        -- now apply asked_no_listing in H.
      * rewrite (upto_crash_none _ _ _ _ _ _ C) in Hhere.
        destruct (existsb (stale now) rs).
        -- intros [= <- <-] p rows before row after [[= <-]|H] Hr Hsplit Hb Hs.
           ++ right. exact (Hhere _ _ _ _ Hr Hsplit Hb Hs).
           ++ now apply asked_no_listing in H.
        -- destruct (pager w this code name since now pages
                       (items ++ kept w this name since now rs)) as [r' evs'] eqn:E.
           intros [= <- <-] p rows before row after [[= <-]|H] Hr Hsplit Hb Hs.
           ++ right. apply in_or_app. left. exact (Hhere _ _ _ _ Hr Hsplit Hb Hs).
           ++ apply in_app_or in H. destruct H as [H|[H|H]].
              ** now apply asked_no_listing in H.
              ** discriminate.
              ** right. apply in_or_app. right. right.
                 exact (IH _ _ _ E p rows before row after H Hr Hsplit Hb Hs).
    + intros [= <- <-] p rows before row after [[= <-]|[]] Hr. congruence.
Qed.

(** A page with rows, none of which raises the stop signal or makes the
    call raise, is followed by the next page of the range. *)
Lemma pager_goes_on (n : nat) :
  forall (lo : Z) (items : list Item.t) r evs,
    pager w this code name since now (py_range lo (lo + Z.of_nat n)) items = (r, evs) ->
    forall p rows,
      In (GetList code p) evs -> page_rows w this code p = Ok rows ->
      rows <> [] -> existsb (stale now) rows = false ->
      crash_of w this name since now rows = None ->
      p + 1 < lo + Z.of_nat n ->
      In (GetList code (p + 1)) evs.
Proof.
  induction n as [|n IH]; intros lo items r evs.
  - rewrite py_range_nil by lia. cbn [pager]. intros [= <- <-] p rows [].
  - rewrite py_range_cons by lia.
    replace (lo + Z.of_nat (S n)) with (lo + 1 + Z.of_nat n) by lia.
    cbn [pager].
    destruct (page_rows w this code lo) as [[|row0 rows0]|e] eqn:R.
    + intros [= <- <-] p rows [[= <-]|[]] Hr Hne. congruence.
    + remember (row0 :: rows0) as rs eqn:Hrs.
      destruct (crash_of w this name since now rs) as [ec|] eqn:C.
      * intros [= <- <-] p rows [[= <-]|H] Hr Hne Hst Hc;
          [congruence|now apply asked_no_listing in H].
      * destruct (existsb (stale now) rs) eqn:Hstale.
        -- intros [= <- <-] p rows [[= <-]|H] Hr Hne Hst Hc;
             [congruence|now apply asked_no_listing in H].
        -- destruct (pager w this code name since now
                       (py_range (lo + 1) (lo + 1 + Z.of_nat n))
                       (items ++ kept w this name since now rs)) as [r' evs'] eqn:E.
           intros [= <- <-] p rows [[= <-]|H] Hr Hne Hst Hc Hp.
           ++ right. apply in_or_app. right. right.
              destruct n as [|n']; [lia|].
              revert E. rewrite py_range_cons by lia. intros E.
              pose proof (pager_first_page (lo + 1)
                            (py_range (lo + 1 + 1) (lo + 1 + Z.of_nat (S n')))
                            (items ++ kept w this name since now rs)) as Hfirst.
              rewrite E in Hfirst. exact Hfirst.
           ++ apply in_app_or in H. destruct H as [H|[H|H]].
              ** now apply asked_no_listing in H.
              ** discriminate.
              ** right. apply in_or_app. right. right.
                 apply (IH _ _ _ _ E p rows H Hr Hne Hst Hc). lia.
    + intros [= <- <-] p rows [[= <-]|[]] Hr. congruence.
Qed.

(** The pager raises for one of two reasons. *)
Lemma pager_causes (pages : list Z) :
  forall items e evs,
    pager w this code name since now pages items = (Raise e, evs) ->
    (exists p, In (GetList code p) evs /\ page_rows w this code p = Raise e)
    \/ stamp_cause w evs e.
Proof.
  induction pages as [|page pages IH]; intros items e evs; cbn [pager]; [discriminate|].
  destruct (page_rows w this code page) as [[|row rows]|e0] eqn:R; try discriminate.
  - remember (row :: rows) as rs eqn:Hrs.
    destruct (crash_of w this name since now rs) as [ec|] eqn:C.
    + intros [= <- <-]. right.
      destruct (crash_of_cause _ _ C) as (link & text & Hin & H).
      exists link, text. split; [now right|exact H].
    + destruct (existsb (stale now) rs); [discriminate|].
      destruct (pager w this code name since now pages
                  (items ++ kept w this name since now rs)) as [r' evs'] eqn:E.
      intros [= -> <-]. destruct (IH _ _ _ E) as [(p & Hin & Hp)|(link & text & Hin & H)].
      * left. exists p. split; [|exact Hp]. right. apply in_or_app. right. now right.
      * right. exists link, text. split; [|exact H].
        right. apply in_or_app. right. now right.
  - intros [= <- <-]. left. exists page. split; [now left|exact R].
Qed.

End PagerRequests.

Lemma stamp_cause_app (w : World) (e1 e2 : list event) (e : exn) :
  stamp_cause w e1 e \/ stamp_cause w e2 e -> stamp_cause w (e1 ++ e2) e.
Proof.
  intros [(link & text & Hin & H)|(link & text & Hin & H)]; exists link, text;
    (split; [apply in_or_app; auto|exact H]).
Qed.

Lemma listing_cause_app (w : World) (this : script) (e1 e2 : list event) (e : exn) :
  listing_cause w this e1 e \/ listing_cause w this e2 e -> listing_cause w this (e1 ++ e2) e.
Proof.
  intros [(c & p & Hin & H)|(c & p & Hin & H)]; exists c, p;
    (split; [apply in_or_app; auto|exact H]).
Qed.

Lemma collector_causes (w : World) (this : script) (since now : datetime)
    (names : list pystr) :
  Forall (fun name => exists code, dict_lookup name CATEGORY_TO_SECTION = Ok code) names ->
  forall all_items e evs,
    collector w this since now names all_items = (Raise e, evs) ->
    listing_cause w this evs e \/ stamp_cause w evs e.
Proof.
  induction 1 as [|name names (code & Hcode) _ IH]; intros all_items e evs;
    cbn [collector]; [discriminate|].
  rewrite Hcode.
  destruct (pager w this code name since now (py_range 1 (MAX_PAGES + 1)) [])
    as [[found|e1] evs1] eqn:P.
  - destruct (collector w this since now names (all_items ++ found)) as [r' evs'] eqn:C.
    intros [= -> <-]. destruct (IH _ _ _ C) as [H|H].
    + left. apply listing_cause_app. now right.
    + right. apply stamp_cause_app. now right.
  - intros [= <- <-]. destruct (pager_causes _ _ _ _ _ _ _ _ _ _ P) as [(p & Hin & H)|H].
    + left. now exists code, p.
    + now right.
Qed.

(** What [fetch_recent_for_section] does about the rows of a page, in one
    statement. *)
Lemma fetch_requests (w : World) (this : script) (code name : pystr)
    (since now : datetime) (max_pages : Z) (st : state) :
  exists r evs,
    fetch_recent_for_section w this code name since now max_pages st = (r, log evs st)
    /\ (1 <= max_pages -> In (GetList code 1) evs)
    /\ (forall p rows before row after,
          In (GetList code p) evs -> page_rows w this code p = Ok rows ->
          rows = before ++ row :: after ->
          crash_of w this name since now before = None ->
          stale now row = false ->
          In (GetDetail row.(Row.link)) evs)
    /\ (forall p rows row items text d,
          In (GetList code p) evs -> page_rows w this code p = Ok rows -> In row rows ->
          stale now row = false ->
          r = Ok items ->
          detail_text w row.(Row.link) = Some text ->
          parse_detail_datetime_kst text = Ok (Some d) ->
          since <= d <= now ->
          In (item_of w this name row text d) items)
    /\ (forall p rows,
          In (GetList code p) evs -> page_rows w this code p = Ok rows ->
          rows <> [] -> existsb (stale now) rows = false ->
          crash_of w this name since now rows = None ->
          p < max_pages -> In (GetList code (p + 1)) evs)
    /\ (forall e, r = Raise e ->
          (exists p, In (GetList code p) evs /\ page_rows w this code p = Raise e)
          \/ stamp_cause w evs e)
    /\ (forall items link, r = Ok items -> detail_text w link = None ->
          forall it, In it items -> it.(Item.link) <> link).
Proof.
  rewrite fetch_run.
  destruct (pager w this code name since now
              (py_range 1 (1 + Z.of_nat (Z.to_nat max_pages))) []) as [r evs] eqn:P.
  exists r, evs. cbn [fst snd]. split; [reflexivity|].
  split; [|split; [|split; [|split; [|split]]]].
  - intros Hm. revert P. rewrite py_range_cons by lia. intros P.
    pose proof (pager_first_page w this code name since now 1
                  (py_range (1 + 1) (1 + Z.of_nat (Z.to_nat max_pages))) []) as H.
    now rewrite P in H.
  - exact (pager_asks _ _ _ _ _ _ _ _ _ _ P).
  - intros p rows row items text d Hin Hr Hrow Hs -> Ht Hp Hw.
    destruct (pager_complete _ _ _ _ _ _ _ _ _ _ P p rows row Hin Hr Hrow Hs) as [_ Hk].
    apply Hk. now apply keep_fate.
  - intros p rows Hin Hr Hne Hst Hc Hp.
    apply (pager_goes_on _ _ _ _ _ _ _ _ _ _ _ P p rows Hin Hr Hne Hst Hc). lia.
  - intros e ->. exact (pager_causes _ _ _ _ _ _ _ _ _ _ P).
  - intros items link -> Hnone it Hin Hl.
    destruct (pager_extends _ _ _ _ _ _ _ _ _ _ P) as (extra & -> & Hx).
    cbn [app] in Hin. rewrite Forall_forall in Hx.
    destruct (Hx it Hin) as (_ & text & Ht & _). congruence.
Qed.

(** ** Rows without a date *)

(** C10. A row whose date string is empty or does not parse as a date, in
    either script.  It does not raise the stop signal, nor does a page made
    of such rows.  In the loop over a page its detail page is requested and
    the flag is left as it is.  In [fetch_recent_for_section]: the first
    page is always asked for; on every page asked for, the detail page of
    such a row is requested unless a row before it has ended the call with
    an impossible time stamp; when the call returns, the item of the row is
    among those returned whenever its detail page resolves to a time stamp
    inside [since, now]; and a page of such rows only is followed by the
    next page, up to [max_pages]. *)
Theorem undated_row_is_resolved (w : World) (this : script) (code name : pystr)
    (since now : datetime) (max_pages : Z) (row : Row.t) (st : state) :
  row.(Row.date_str) = [] \/ strptime_ymd row.(Row.date_str) = None ->
  stale now row = false
  /\ (forall rows, Forall undated rows -> existsb (stale now) rows = false)
  /\ (forall items b st0,
        exists r,
          row_body w this name since now row (items, b) st0
          = (r, log [GetDetail row.(Row.link)] st0)
          /\ (forall items' b', r = Ok (items', b') -> b' = b)
          /\ (forall text d,
                detail_text w row.(Row.link) = Some text ->
                parse_detail_datetime_kst text = Ok (Some d) ->
                since <= d <= now ->
                r = Ok (items ++ [item_of w this name row text d], b)))
  /\ exists r evs,
       fetch_recent_for_section w this code name since now max_pages st = (r, log evs st)
       /\ (1 <= max_pages -> In (GetList code 1) evs)
       /\ (forall p rows before after,
             In (GetList code p) evs -> page_rows w this code p = Ok rows ->
             rows = before ++ row :: after ->
             crash_of w this name since now before = None ->
             In (GetDetail row.(Row.link)) evs)
       /\ (forall p rows items text d,
             In (GetList code p) evs -> page_rows w this code p = Ok rows -> In row rows ->
             r = Ok items ->
             detail_text w row.(Row.link) = Some text ->
             parse_detail_datetime_kst text = Ok (Some d) ->
             since <= d <= now ->
             In (item_of w this name row text d) items)
       /\ (forall p rows,
             In (GetList code p) evs -> page_rows w this code p = Ok rows ->
             rows <> [] -> Forall undated rows ->
             crash_of w this name since now rows = None ->
             p < max_pages -> In (GetList code (p + 1)) evs).
Proof.
  intros Hd.
  assert (Hnone : strptime_ymd (Row.date_str row) = None).
  { destruct Hd as [->|H]; [reflexivity|exact H]. }
  assert (Hs : stale now row = false) by (unfold stale; now rewrite Hnone).
  assert (Hpage : forall rows, Forall undated rows -> existsb (stale now) rows = false).
  { intros rows Hall. induction Hall as [|row' rows Hrow _ IH]; [reflexivity|].
    cbn [existsb]. rewrite IH. unfold stale. unfold undated in Hrow. now rewrite Hrow. }
  split; [exact Hs|]. split; [exact Hpage|]. split.
  - intros items b st0. rewrite row_body_run.
    pose proof (stale_fate w this name since now row) as Hf.
    destruct (fate_of w this name since now row) as [| |e|it] eqn:F.
    + rewrite (proj2 Hf eq_refl) in Hs. discriminate.
    + eexists. split; [reflexivity|]. split.
      * now intros items' b' [= _ <-].
      * intros text d Ht Hp Hw.
        rewrite (keep_fate w this name since now row text d Hs Ht Hp Hw) in F.
        discriminate.
    + eexists. split; [reflexivity|]. split.
      * discriminate.
      * intros text d Ht Hp Hw.
        rewrite (keep_fate w this name since now row text d Hs Ht Hp Hw) in F.
        discriminate.
    + eexists. split; [reflexivity|]. split.
      * now intros items' b' [= _ <-].
      * intros text d Ht Hp Hw.
        rewrite (keep_fate w this name since now row text d Hs Ht Hp Hw) in F.
        now injection F as <-.
  - destruct (fetch_requests w this code name since now max_pages st)
      as (r & evs & Hrun & Hfirst & Hask & Hkeep & Hnext & _).
    exists r, evs. split; [exact Hrun|]. split; [exact Hfirst|].
    split; [|split].
    + intros p rows before after Hin Hr Hsplit Hb.
      exact (Hask p rows before row after Hin Hr Hsplit Hb Hs).
    + intros p rows items text d Hin Hr Hrow Hok Ht Hp Hw.
      exact (Hkeep p rows row items text d Hin Hr Hrow Hs Hok Ht Hp Hw).
    + intros p rows Hin Hr Hne Hall Hc Hp.
      exact (Hnext p rows Hin Hr Hne (Hpage rows Hall) Hc Hp).
Qed.

Lemma undated_row_is_resolved_witness :
  let row := {| Row.title := py "second"; Row.link := sample_link (py "2");
                Row.category := py "주택토지"; Row.date_str := [] |} in
  let since := sample_now - timedelta 0 24 in
  let run := fetch_recent_for_section sample_world molit_bot_now (py "p_sec_2")
               (py "주택토지") since sample_now MAX_PAGES fresh in
  In (GetDetail (sample_link (py "2"))) (trace (snd run))
  /\ exists items d,
       fst run = Ok items
       /\ In (item_of sample_world molit_bot_now (py "주택토지") row
                (py "등록일 2025-08-11 16:30") d) items.
Proof.
  intros row since run.
  destruct (undated_row_is_resolved sample_world molit_bot_now (py "p_sec_2")
              (py "주택토지") since sample_now MAX_PAGES row fresh (or_introl eq_refl))
    as (_ & _ & _ & r & evs & Hrun & Hfirst & Hask & Hkeep & _).
  fold run in Hrun.
  assert (Hevs : trace (snd run) = evs) by now rewrite Hrun.
  assert (Hr : fst run = r) by now rewrite Hrun.
  assert (Hone : In (GetList (py "p_sec_2") 1) evs)
    by (apply Hfirst; vm_compute; discriminate).
  assert (Hrows : page_rows sample_world molit_bot_now (py "p_sec_2") 1
                  = Ok (parse_list_rows sample_world molit_bot_now sample_listing))
    by (vm_compute; reflexivity).
  split.
  - rewrite Hevs.
    apply (Hask 1 _ [nth 0 (parse_list_rows sample_world molit_bot_now sample_listing) row]
             (skipn 2 (parse_list_rows sample_world molit_bot_now sample_listing))
             Hone Hrows); vm_compute; reflexivity.
  - exists (match fst run with Ok l => l | Raise _ => [] end),
           (match make_datetime 2025 8 11 16 30 with Some t => t | None => 0 end).
    split; [vm_compute; reflexivity|].
    apply (Hkeep 1 _ _ (py "등록일 2025-08-11 16:30") _ Hone Hrows).
    + vm_compute. tauto.
    + rewrite <- Hr. vm_compute. reflexivity.
    + vm_compute. reflexivity.
    + vm_compute. reflexivity.
    + vm_compute. split; discriminate.
Defined.

(** ** Failures while collecting *)

Lemma failing_rows_do_not_crash (w : World) (this : script) (name : pystr)
    (since now : datetime) (rows : list Row.t) :
  (forall row, In row rows -> detail_text w row.(Row.link) = None) ->
  crash_of w this name since now rows = None.
Proof.
  induction rows as [|row rows IH]; intros H; [reflexivity|].
  cbn [crash_of]. unfold fate_of at 1. rewrite (H row) by now left.
  destruct (stale now row); apply IH; intros row' Hin; apply H; now right.
Qed.

Lemma collector_first_listing (w : World) (this : script) (since now : datetime) :
  In (GetList (py "p_sec_2") 1) (snd (collector w this since now WANTED [])).
Proof.
  rewrite wanted_names. cbn [collector].
  change (dict_lookup (py "주택토지") CATEGORY_TO_SECTION) with (@Ok pystr (py "p_sec_2")).
  cbv beta iota.
  change (py_range 1 (MAX_PAGES + 1)) with (1 :: py_range 2 4).
  pose proof (pager_first_page w this (py "p_sec_2") (py "주택토지") since now 1
                (py_range 2 4) []) as H.
  destruct (pager w this (py "p_sec_2") (py "주택토지") since now (1 :: py_range 2 4) [])
    as [[f1|e1] evs1]; cbn [snd] in H; [|exact H].
  match goal with
  | |- context [let '(r, evs') := ?c in (r, evs1 ++ evs')] => destruct c as [r' evs']
  end.
  cbn [snd]. apply in_or_app. now left.
Qed.

(** C4, as the code has it.  [get_soup] is called outside any [try]: when
    a listing request fails, its exception leaves
    [fetch_recent_for_section] and [main].  The run ends there: the failed
    request is its last event, only requests and pauses came before it,
    nothing is posted and the cache file is left as it was.  A detail
    request that fails is another matter.  It is never why a run or a call
    ends: a run that raises does so for a failed listing request, for an
    impossible time stamp on a detail page that was answered, or in the
    delivery after all collecting went through.  The row of the failed
    request is passed over (the loop goes on with the items and the flag
    as they were, and no item of that link is returned), and the rows
    after it still have their detail pages requested. *)
Theorem listing_failure_ends_the_run (w : World) (this : script) (st : state) :
  exists r st' evs,
    main w this st = (r, st') /\ added st st' evs
    /\ (forall c p e,
          In (GetList c p) evs -> page_rows w this c p = Raise e ->
          r = Raise e /\ transport e
          /\ st'.(cache_file) = st.(cache_file)
          /\ exists evs0, evs = evs0 ++ [GetList c p] /\ Forall fetching evs0)
    /\ (forall e, r = Raise e ->
          listing_cause w this evs e \/ stamp_cause w evs e
          \/ exists all_items st1,
               collect w this (w.(clock) - timedelta 0 24) w.(clock) st
               = (Ok all_items, st1)
               /\ deliver w this w.(clock) all_items st1 = (Raise e, st'))
    /\ (forall all_items st1 link,
          collect w this (w.(clock) - timedelta 0 24) w.(clock) st = (Ok all_items, st1) ->
          detail_text w link = None ->
          forall it, In it all_items -> it.(Item.link) <> link)
    /\ (forall name since now row items b st0,
          stale now row = false -> detail_text w row.(Row.link) = None ->
          row_body w this name since now row (items, b) st0
          = (Ok (items, b), log [GetDetail row.(Row.link)] st0))
    /\ (forall code name since now max_pages st0,
          exists r0 evs0,
            fetch_recent_for_section w this code name since now max_pages st0
            = (r0, log evs0 st0)
            /\ (forall p rows before row after,
                  In (GetList code p) evs0 -> page_rows w this code p = Ok rows ->
                  rows = before ++ row :: after ->
                  (forall row', In row' before -> detail_text w row'.(Row.link) = None) ->
                  stale now row = false ->
                  In (GetDetail row.(Row.link)) evs0)
            /\ (forall e, r0 = Raise e ->
                  (exists p, In (GetList code p) evs0 /\ page_rows w this code p = Raise e)
                  \/ stamp_cause w evs0 e)
            /\ (forall items link, r0 = Ok items -> detail_text w link = None ->
                  forall it, In it items -> it.(Item.link) <> link)).
Proof.
  assert (Hrow : forall name since now row items b st0,
             stale now row = false -> detail_text w row.(Row.link) = None ->
             row_body w this name since now row (items, b) st0
             = (Ok (items, b), log [GetDetail row.(Row.link)] st0)).
  { intros name since now row items b st0 Hs Ht. rewrite row_body_run.
    unfold fate_of. now rewrite Hs, Ht. }
  assert (Hfetch : forall code name since now max_pages st0,
             exists r0 evs0,
               fetch_recent_for_section w this code name since now max_pages st0
               = (r0, log evs0 st0)
               /\ (forall p rows before row after,
                     In (GetList code p) evs0 -> page_rows w this code p = Ok rows ->
                     rows = before ++ row :: after ->
                     (forall row', In row' before ->
                                   detail_text w row'.(Row.link) = None) ->
                     stale now row = false ->
                     In (GetDetail row.(Row.link)) evs0)
               /\ (forall e, r0 = Raise e ->
                     (exists p, In (GetList code p) evs0
                                /\ page_rows w this code p = Raise e)
                     \/ stamp_cause w evs0 e)
               /\ (forall items link, r0 = Ok items -> detail_text w link = None ->
                     forall it, In it items -> it.(Item.link) <> link)).
  { intros code name since now max_pages st0.
    destruct (fetch_requests w this code name since now max_pages st0)
      as (r0 & evs0 & Hrun & _ & Hask & _ & _ & Hcause & Hskip).
    exists r0, evs0. split; [exact Hrun|]. split; [|split; [exact Hcause|exact Hskip]].
    intros p rows before row after Hin Hr Hsplit Hfail Hs.
    apply (Hask p rows before row after Hin Hr Hsplit); [|exact Hs].
    now apply failing_rows_do_not_crash. }
  pose proof (collect_run w this (clock w - timedelta 0 24) (clock w) st) as Hcollect.
  rewrite main_run.
  destruct (collector w this (clock w - timedelta 0 24) (clock w) WANTED [])
    as [[all_items|e0] evs] eqn:C; cbn [fst snd] in Hcollect.
  - destruct (deliver_events w this (clock w) all_items (log evs st))
      as (r & st' & evs' & Hrun & Ha & Hd).
    exists r, st', (evs ++ evs'). split; [exact Hrun|].
    split; [exact (added_trans _ _ _ _ _ (log_added evs st) Ha)|].
    split; [|split; [|split; [|split; [exact Hrow|exact Hfetch]]]].
    + intros c p e Hin Hr. exfalso. apply in_app_or in Hin. destruct Hin as [Hin|Hin].
      * destruct (collector_failure _ _ _ _ _ _ _ _ C c p e Hin Hr) as [? _].
        discriminate.
      * rewrite Forall_forall in Hd. exact (Hd _ Hin).
    + intros e ->. right. right. exists all_items, (log evs st). auto.
    + intros all_items' st1 link Hc Hnone it Hin Hl.
      rewrite Hcollect in Hc. injection Hc as <- _.
      pose proof (collector_resolved _ _ _ _ _ _ _ _ C (Forall_nil _)) as Hres.
      rewrite Forall_forall in Hres.
      destruct (Hres it Hin) as (_ & text & Ht & _). congruence.
  - exists (Raise e0), (log evs st), evs. split; [reflexivity|].
    split; [apply log_added|].
    split; [|split; [|split; [|split; [exact Hrow|exact Hfetch]]]].
    + intros c p e Hin Hr.
      destruct (collector_failure _ _ _ _ _ _ _ _ C c p e Hin Hr) as (He & evs0 & Hev).
      injection He as ->.
      split; [reflexivity|]. split; [exact (page_rows_transport _ _ _ _ _ Hr)|].
      split; [reflexivity|].
      exists evs0. split; [exact Hev|].
      pose proof (collector_fetching _ _ _ _ _ _ _ _ C) as Hf.
      rewrite Hev in Hf. apply Forall_app in Hf. tauto.
    + intros e [= <-].
      destruct (collector_causes _ _ _ _ _ wanted_are_known _ _ _ C) as [H|H]; auto.
    + intros all_items' st1 link Hc. rewrite Hcollect in Hc. discriminate.
Qed.

Lemma listing_failure_ends_the_run_witness :
  let w := relisted (fun code page => NoAnswer) sample_world in
  exists st' evs,
    main w molit_bot fresh = (Raise ConnectionError, st')
    /\ added fresh st' evs
    /\ st'.(cache_file) = NoFile
    /\ exists evs0, evs = evs0 ++ [GetList (py "p_sec_2") 1].
Proof.
  intros w.
  destruct (listing_failure_ends_the_run w molit_bot fresh)
    as (r & st' & evs & Hrun & Ha & Hfail & _).
  assert (E : trace st' = [GetList (py "p_sec_2") 1]).
  { replace st' with (snd (main w molit_bot fresh)) by now rewrite Hrun.
    vm_compute. reflexivity. }
  assert (Hevs : evs = [GetList (py "p_sec_2") 1]).
  { unfold added in Ha. rewrite E in Ha. symmetry. exact Ha. }
  destruct (Hfail (py "p_sec_2") 1 ConnectionError) as (-> & _ & Hc & evs0 & H0 & _).
  - rewrite Hevs. now left.
  - vm_compute. reflexivity.
  - exists st', evs. split; [exact Hrun|]. split; [exact Ha|].
    split; [exact Hc|]. now exists evs0.
Defined.

(** ** Missing credentials *)

(** C5, as the code has it.  The credentials are looked at by [send] and
    nowhere else.  When one of them is unset or empty the run ends with an
    exception, nothing is posted and the cache file is not written; but
    the listing of the first section has been requested by then.  When
    collecting goes through, the exception is the [RuntimeError] of the
    first [send]: the listings and detail pages of all sections have been
    fetched (and, in [molit_bot_now.py], the cache read).  When collecting
    fails, the run ends with its exception, that of a failed listing
    request or of an impossible time stamp. *)
Theorem missing_credentials_stop_delivery (w : World) (this : script) (st : state) :
  configured w = false ->
  exists e evs,
    main w this st = (Raise e, log evs st)
    /\ (forall t, ~ In (Post t) evs) /\ ~ In WriteCache evs
    /\ In (GetList (py "p_sec_2") 1) evs
    /\ (forall all_items st1,
          collect w this (w.(clock) - timedelta 0 24) w.(clock) st = (Ok all_items, st1) ->
          e = RuntimeError
          /\ log evs st = match this with
                          | molit_bot_now => log [ReadCache] st1
                          | molit_bot => st1
                          end)
    /\ (forall e' st1,
          collect w this (w.(clock) - timedelta 0 24) w.(clock) st = (Raise e', st1) ->
          e = e' /\ log evs st = st1
          /\ (listing_cause w this evs e \/ stamp_cause w evs e)).
Proof.
  intros Hc. rewrite main_run, collect_run.
  pose proof (collector_first_listing w this (clock w - timedelta 0 24) (clock w)) as H1.
  destruct (collector w this (clock w - timedelta 0 24) (clock w) WANTED [])
    as [[all_items|e0] evs] eqn:C; cbn [fst snd] in *.
  - rewrite (deliver_unconfigured _ _ _ _ _ Hc), log_app.
    eexists _, _. split; [reflexivity|].
    pose proof (fetching_not_delivery _ (collector_fetching _ _ _ _ _ _ _ _ C))
      as [Hp Hw].
    split; [|split; [|split; [|split]]].
    + intros t Hin. apply in_app_or in Hin. destruct Hin as [Hin|Hin].
      * exact (Hp t Hin).
      * destruct this; [destruct Hin as [|[]]; discriminate|destruct Hin].
    + intros Hin. apply in_app_or in Hin. destruct Hin as [Hin|Hin].
      * exact (Hw Hin).
      * destruct this; [destruct Hin as [|[]]; discriminate|destruct Hin].
    + apply in_or_app. now left.
    + intros all_items' st1 [= _ <-]. split; [reflexivity|].
      destruct this; [now rewrite log_app|now rewrite app_nil_r].
    + discriminate.
  - exists e0, evs. split; [reflexivity|].
    pose proof (fetching_not_delivery _ (collector_fetching _ _ _ _ _ _ _ _ C))
      as [Hp Hw].
    split; [exact Hp|]. split; [exact Hw|]. split; [exact H1|].
    split; [discriminate|].
    intros e' st1 [= <- <-]. split; [reflexivity|]. split; [reflexivity|].
    exact (collector_causes _ _ _ _ _ wanted_are_known _ _ _ C).
Qed.

Lemma missing_credentials_stop_delivery_witness :
  let w := with_credentials None (Some (py "@channel")) sample_world in
  exists evs,
    main w molit_bot fresh = (Raise RuntimeError, log evs fresh)
    /\ (forall t, ~ In (Post t) evs)
    /\ In (GetList (py "p_sec_2") 1) evs.
Proof.
  intros w.
  destruct (missing_credentials_stop_delivery w molit_bot fresh eq_refl)
    as (e & evs & Hrun & Hp & _ & Hfirst & Hafter & _).
  exists evs. split; [|split; [exact Hp|exact Hfirst]].
  destruct (collect w molit_bot (clock w - timedelta 0 24) (clock w) fresh)
    as [r st1] eqn:C.
  assert (Hr : exists all_items, r = Ok all_items).
  { replace r with (fst (collect w molit_bot (clock w - timedelta 0 24) (clock w) fresh))
      by now rewrite C.
    vm_compute. eexists. reflexivity. }
  destruct Hr as (all_items & ->).
  destruct (Hafter all_items st1 eq_refl) as [-> _]. exact Hrun.
Defined.

(** ** Empty messages *)

Lemma len_strftime (dt : datetime) : len (strftime dt) = 16.
Proof. unfold strftime. destruct (ord2ymd (date_of dt)) as [[y m] d]. reflexivity. Qed.

Lemma len_header (now : datetime) : len (header now) + 2 <= CHUNK_BUDGET.
Proof.
  unfold header. rewrite !len_app, len_strftime. apply Z.leb_le. vm_compute. reflexivity.
Qed.

Lemma header_nonempty (now : datetime) : header now <> [].
Proof. unfold header, TITLE_LINE. discriminate. Qed.

Lemma no_news_nonempty (this : script) (now : datetime) : no_news this now <> [].
Proof.
  destruct this; unfold no_news.
  - unfold header, TITLE_LINE. discriminate.
  - assert (H : py "국토교통부 보도자료 (지난 24시간, 3개 분야)" <> [])
      by (vm_compute; discriminate).
    intros Heq. apply app_eq_nil in Heq. destruct Heq as [Heq _]. exact (H Heq).
Qed.

Lemma join_headed (l : pystr) (g : list pystr) : l <> [] -> join NEWLINE (l :: g) <> [].
Proof.
  intros Hl. destruct g as [|l' g]; cbn [join]; [exact Hl|].
  destruct l; [congruence|discriminate].
Qed.

(** What the sending loop keeps true of its chunks, for a property that
    holds of every line on its own and is kept when a line is added. *)
Lemma send_chunks_loop_inv (w : World) (this : script) (P : list pystr -> Prop)
    (lines : list pystr) :
  (forall cur line, P cur -> P (cur ++ [line])) ->
  (forall line, In line lines -> P [line]) ->
  forall (cur : list pystr) (buf : Z) (st : state),
    P cur ->
    exists gs r st',
      for_in lines (fun line (acc : list pystr * Z) =>
           let '(chunk, buf) := acc in
           r' <- (if CHUNK_BUDGET <? buf + len line + 1
                  then send w this (join NEWLINE chunk) ;; ret ([], 0)
                  else ret (chunk, buf)) ;;
           let '(chunk, buf) := r' in
           ret (chunk ++ [line], buf + len line + 1)) (cur, buf) st
      = (r, st')
      /\ added st st' (map Post (map (join NEWLINE) gs))
      /\ Forall P gs
      /\ match r with
         | Ok (cur', _) => P cur'
         | Raise _ => True
         end.
Proof.
  intros Hmono. induction lines as [|line lines IH]; intros Hline cur buf st Hcur.
  - exists [], (Ok (cur, buf)), st. cbn [for_in map]. unfold ret.
    split; [reflexivity|]. split; [apply added_refl|]. split; [constructor|exact Hcur].
  - assert (Hrest : forall l, In l lines -> P [l]) by (intros l Hl; apply Hline; now right).
    cbn [for_in]. unfold bind at 1. unfold bind at 1.
    destruct (CHUNK_BUDGET <? buf + len line + 1).
    + unfold bind at 1.
      destruct (send_log w this (join NEWLINE cur) st) as (r0 & evs0 & -> & Hev & _).
      destruct r0 as [[]|e].
      * unfold ret at 1. unfold ret at 1.
        destruct (IH Hrest [line] (0 + len line + 1) (log evs0 st)
                    (Hline line (or_introl eq_refl)))
          as (gs & r & st' & Hrun & Ha & Hgs & Hr).
        cbn [app] in Hrun |- *. rewrite Hrun.
        destruct Hev as [->| ->].
        -- rewrite log_nil in Ha. exists gs, r, st'. auto.
        -- exists (cur :: gs), r, st'. split; [reflexivity|].
           split; [exact (added_trans _ _ _ _ _ (log_added _ st) Ha)|].
           split; [now constructor|exact Hr].
      * destruct Hev as [->| ->].
        -- exists [], (Raise e), (log [] st). split; [reflexivity|].
           rewrite log_nil. split; [apply added_refl|]. split; [constructor|exact I].
        -- exists [cur], (Raise e), (log [Post (join NEWLINE cur)] st).
           split; [reflexivity|]. split; [apply log_added|].
           split; [repeat constructor; exact Hcur|exact I].
    + unfold ret at 1. unfold ret at 1.
      exact (IH Hrest (cur ++ [line]) (buf + len line + 1) st (Hmono _ _ Hcur)).
Qed.

(** The same for the loop that collects the chunks. *)
Lemma split_chunks_loop_inv (P : list pystr -> Prop) (lines : list pystr) :
  (forall cur line, P cur -> P (cur ++ [line])) ->
  (forall line, In line lines -> P [line]) ->
  forall (chunks cur : list pystr) (buf : Z),
    P cur ->
    exists gs cur' buf',
      fold_left (fun (acc : list pystr * list pystr * Z) line =>
        let '(chunks, cur, buf) := acc in
        let '(chunks, cur, buf) :=
          if CHUNK_BUDGET <? buf + len line + 1
          then (chunks ++ [join NEWLINE cur], [], 0)
          else (chunks, cur, buf) in
        (chunks, cur ++ [line], buf + len line + 1)) lines (chunks, cur, buf)
      = (chunks ++ map (join NEWLINE) gs, cur', buf')
      /\ Forall P gs /\ P cur'.
Proof.
  intros Hmono. induction lines as [|line lines IH]; intros Hline chunks cur buf Hcur.
  - exists [], cur, buf. cbn [fold_left map]. rewrite app_nil_r. auto.
  - assert (Hrest : forall l, In l lines -> P [l]) by (intros l Hl; apply Hline; now right).
    cbn [fold_left].
    destruct (CHUNK_BUDGET <? buf + len line + 1).
    + destruct (IH Hrest (chunks ++ [join NEWLINE cur]) [line] (0 + len line + 1)
                  (Hline line (or_introl eq_refl))) as (gs & cur' & buf' & Hrun & Hgs & Hc).
      exists (cur :: gs), cur', buf'. cbn [app] in Hrun |- *.
      split; [etransitivity; [exact Hrun|]; cbn [map]; now rewrite <- app_assoc|].
      split; [now constructor|exact Hc].
    + exact (IH Hrest chunks (cur ++ [line]) (buf + len line + 1) (Hmono _ _ Hcur)).
Qed.

Lemma digest_lines_rest_nonempty (this : script) (now : datetime) (items : list Item.t) :
  exists rest,
    digest_lines this now items = header now :: [] :: rest
    /\ forall line, In line rest -> line <> [].
Proof.
  destruct (digest_lines_content this now items) as (rest & Hd & Hrest).
  exists rest. split; [exact Hd|].
  intros line Hin. destruct (Hrest line Hin) as (it & _ & [->| ->]).
  - discriminate.
  - unfold block. discriminate.
Qed.

Lemma send_chunks_digest_nonempty (w : World) (this : script) (now : datetime)
    (items : list Item.t) (st st' : state) (r : result unit) (evs : list event) :
  send_chunks w this (digest_lines this now items) st = (r, st') ->
  added st st' evs ->
  forall t, In (Post t) evs -> t <> [].
Proof.
  destruct (digest_lines_rest_nonempty this now items) as (rest & -> & Hrest).
  pose proof (len_header now) as Hh. pose proof (header_nonempty now) as Hne.
  unfold send_chunks. unfold bind at 1. cbn [for_in]. unfold bind at 1. unfold bind at 1.
  replace (CHUNK_BUDGET <? 0 + len (header now) + 1) with false
    by (symmetry; apply Z.ltb_ge; lia).
  unfold ret at 1. unfold ret at 1. unfold bind at 1. unfold bind at 1.
  replace (CHUNK_BUDGET <? 0 + len (header now) + 1 + len (@nil Z) + 1) with false
    by (symmetry; apply Z.ltb_ge; unfold len at 2; cbn [List.length]; lia).
  unfold ret at 1. unfold ret at 1. cbn [app].
  set (P := fun g : list pystr => exists l tail, g = l :: tail /\ l <> []).
  assert (Hmono : forall cur line, P cur -> P (cur ++ [line])).
  { intros cur line (l & tail & -> & Hl). exists l, (tail ++ [line]). auto. }
  assert (Hjoin : forall g, P g -> join NEWLINE g <> []).
  { intros g (l & tail & -> & Hl). now apply join_headed. }
  assert (Hline : forall line, In line rest -> P [line]).
  { intros line Hin. exists line, []. split; [reflexivity|exact (Hrest line Hin)]. }
  match goal with
  | |- context [for_in rest _ (?cur, ?buf) st] =>
      assert (Hcur : P cur) by (exists (header now), [[]]; split; [reflexivity|exact Hne]);
      destruct (send_chunks_loop_inv w this P rest Hmono Hline cur buf st Hcur)
        as (gs & r1 & st1 & -> & Ha1 & Hgs & Hr1)
  end.
  assert (Hsent : forall t, In (Post t) (map Post (map (join NEWLINE) gs)) -> t <> []).
  { intros t Ht. apply in_map_iff in Ht. destruct Ht as (t' & [= ->] & Ht).
    apply in_map_iff in Ht. destruct Ht as (g & <- & Hg).
    rewrite Forall_forall in Hgs. apply Hjoin, Hgs, Hg. }
  destruct r1 as [[cur' buf']|e].
  - cbn [fst]. destruct cur' as [|l cur'].
    + unfold ret. intros [= <- <-] Ha.
      pose proof (added_inj _ _ _ _ Ha Ha1) as ->. exact Hsent.
    + destruct (send_log w this (join NEWLINE (l :: cur')) st1) as (r2 & evs2 & -> & Hev & _).
      intros [= <- <-] Ha.
      pose proof (added_inj _ _ _ _ Ha (added_trans _ _ _ _ _ Ha1 (log_added _ st1))) as ->.
      intros t Ht. apply in_app_or in Ht. destruct Ht as [Ht|Ht]; [now apply Hsent|].
      destruct Hev as [->| ->]; [destruct Ht|].
      destruct Ht as [[= <-]|[]]. exact (Hjoin (l :: cur') Hr1).
  - intros [= <- <-] Ha. pose proof (added_inj _ _ _ _ Ha Ha1) as ->. exact Hsent.
Qed.

Lemma split_chunks_digest_nonempty (this : script) (now : datetime) (items : list Item.t) :
  forall c, In c (split_chunks (digest_lines this now items)) -> c <> [].
Proof.
  destruct (digest_lines_rest_nonempty this now items) as (rest & -> & Hrest).
  pose proof (len_header now) as Hh. pose proof (header_nonempty now) as Hne.
  unfold split_chunks. cbn [fold_left].
  replace (CHUNK_BUDGET <? 0 + len (header now) + 1) with false
    by (symmetry; apply Z.ltb_ge; lia).
  replace (CHUNK_BUDGET <? 0 + len (header now) + 1 + len (@nil Z) + 1) with false
    by (symmetry; apply Z.ltb_ge; unfold len at 2; cbn [List.length]; lia).
  cbn [app].
  set (P := fun g : list pystr => exists l tail, g = l :: tail /\ l <> []).
  assert (Hmono : forall cur line, P cur -> P (cur ++ [line])).
  { intros cur line (l & tail & -> & Hl). exists l, (tail ++ [line]). auto. }
  assert (Hjoin : forall g, P g -> join NEWLINE g <> []).
  { intros g (l & tail & -> & Hl). now apply join_headed. }
  assert (Hline : forall line, In line rest -> P [line]).
  { intros line Hin. exists line, []. split; [reflexivity|exact (Hrest line Hin)]. }
  match goal with
  | |- context [fold_left _ rest (?chunks, ?cur, ?buf)] =>
      assert (Hcur0 : P cur) by (exists (header now), [[]]; split; [reflexivity|exact Hne]);
      destruct (split_chunks_loop_inv P rest Hmono Hline chunks cur buf Hcur0)
        as (gs & cur' & buf' & -> & Hgs & Hcur)
  end.
  cbn [app].
  assert (Hsent : forall c, In c (map (join NEWLINE) gs) -> c <> []).
  { intros c Hc. apply in_map_iff in Hc. destruct Hc as (g & <- & Hg).
    rewrite Forall_forall in Hgs. apply Hjoin, Hgs, Hg. }
  destruct cur' as [|l cur']; [exact Hsent|].
  intros c Hc. apply in_app_or in Hc. destruct Hc as [Hc|[<-|[]]]; [now apply Hsent|].
  now apply Hjoin.
Qed.

Lemma send_each_posts (w : World) (this : script) (chunks : list pystr) :
  forall st : state,
    exists r evs,
      for_in chunks (fun c (_ : unit) => send w this c ;; emit (Sleep 300)) tt st
      = (r, log evs st)
      /\ forall t, In (Post t) evs -> In t chunks.
Proof.
  induction chunks as [|c chunks IH]; intros st.
  - exists (Ok tt), []. cbn. unfold ret. rewrite log_nil. split; [reflexivity|]. intros t [].
  - rewrite for_in_cons. unfold bind at 1.
    destruct (send_log w this c st) as (r & evs & Hsend & Hev & _).
    rewrite Hsend.
    assert (Hhere : forall t, In (Post t) evs -> In t (c :: chunks)).
    { destruct Hev as [->| ->]; intros t Ht; [destruct Ht|].
      destruct Ht as [[= <-]|[]]. now left. }
    destruct r as [[]|e].
    + change (emit (Sleep 300) (log evs st))
        with (Ok tt, log [Sleep 300] (log evs st)).
      cbv beta iota.
      destruct (IH (log [Sleep 300] (log evs st))) as (r' & evs' & Hrun & Hp).
      exists r', (evs ++ [Sleep 300] ++ evs').
      split; [etransitivity; [exact Hrun|];
              rewrite !log_app, ?app_assoc; reflexivity|].
      intros t Ht. apply in_app_or in Ht. destruct Ht as [Ht|[Ht|Ht]].
      * now apply Hhere.
      * discriminate.
      * right. now apply Hp.
    + exists (Raise e), evs. split; [reflexivity|exact Hhere].
Qed.

(** A run never posts an empty message.  The chunking loops do put out an
    empty chunk when the first line alone is over the budget, but the first
    line of a digest is its header, which is short. *)
Theorem no_empty_message (w : World) (this : script) (st st' : state)
    (r : result unit) (evs : list event) :
  main w this st = (r, st') -> added st st' evs ->
  forall t, In (Post t) evs -> t <> [].
Proof.
  rewrite main_run.
  destruct (collector w this (clock w - timedelta 0 24) (clock w) WANTED [])
    as [[all_items|e] evs1] eqn:C;
    pose proof (collector_fetching _ _ _ _ _ _ _ _ C) as Hf;
    assert (Hno : forall t, ~ In (Post t) evs1)
      by (rewrite Forall_forall in Hf; intros t H; exact (Hf _ H)).
  2:{ intros [= <- <-] Ha. pose proof (added_inj _ _ _ _ Ha (log_added _ st)) as ->.
      intros t Ht. now apply Hno in Ht. }
  intros Hd Ha.
  destruct (deliver_events w this (clock w) all_items (log evs1 st))
    as (r' & st1 & dv & Hd' & Hda & _).
  rewrite Hd in Hd'. injection Hd' as <- <-.
  pose proof (added_inj _ _ _ _ Ha (added_trans _ _ _ _ _ (log_added _ st) Hda)) as ->.
  intros t Ht. apply in_app_or in Ht. destruct Ht as [Ht|Ht]; [now apply Hno in Ht|].
  clear Ha Hno Hf C. revert Hd Hda t Ht. generalize (log evs1 st) as st0.
  intros st0. unfold deliver. destruct this.
  - unfold bind at 1. destruct (load_cache_log st0) as (sent & ->).
    destruct (filter _ all_items) as [|it0 rest].
    + destruct (send_log w molit_bot_now (no_news molit_bot_now (clock w))
                  (log [ReadCache] st0)) as (r1 & evs2 & -> & Hev & _).
      intros [= <- <-] Ha. rewrite log_app in Ha.
      pose proof (added_inj _ _ _ _ Ha (log_added _ st0)) as ->.
      intros t [Ht|Ht]; [discriminate|].
      destruct Hev as [->| ->]; [destruct Ht|].
      destruct Ht as [Ht|[]].
      replace t with (no_news molit_bot_now (clock w)) by congruence.
      apply no_news_nonempty.
    + remember (it0 :: rest) as new_items eqn:E. unfold bind.
      destruct (send_chunks w molit_bot_now
                  (digest_lines molit_bot_now (clock w) (sort_newest_first new_items))
                  (log [ReadCache] st0)) as [r2 st2] eqn:S.
      destruct (send_chunks_groups w molit_bot_now
                  (digest_lines molit_bot_now (clock w) (sort_newest_first new_items))
                  (log [ReadCache] st0)) as (gs & r2' & st2' & S' & Ha2 & _).
      rewrite S in S'. injection S' as <- <-.
      pose proof (send_chunks_digest_nonempty _ _ _ _ _ _ _ _ S Ha2) as Hposts.
      destruct r2 as [[]|e].
      * destruct (save_cache_run w
                    (fold_left (fun s it => set_add (AStr (Item.link it)) s)
                       (sort_newest_first new_items) sent) st2) as (st3 & -> & Ha3 & _).
        intros [= <- <-] Ha.
        pose proof (added_inj _ _ _ _ Ha
                      (added_trans _ _ _ _ _ (log_added [ReadCache] st0)
                         (added_trans _ _ _ _ _ Ha2 Ha3))) as ->.
        intros t [Ht|Ht]; [discriminate|]. cbn [app] in Ht.
        apply in_app_or in Ht. destruct Ht as [Ht|[Ht|[]]]; [now apply Hposts|discriminate].
      * intros [= <- <-] Ha.
        pose proof (added_inj _ _ _ _ Ha
                      (added_trans _ _ _ _ _ (log_added [ReadCache] st0) Ha2)) as ->.
        intros t [Ht|Ht]; [discriminate|]. now apply Hposts.
  - destruct all_items as [|it0 rest].
    + destruct (send_log w molit_bot (no_news molit_bot (clock w)) st0)
        as (r1 & evs2 & -> & Hev & _).
      intros [= <- <-] Ha.
      pose proof (added_inj _ _ _ _ Ha (log_added _ st0)) as ->.
      intros t Ht. destruct Hev as [->| ->]; [destruct Ht|].
      destruct Ht as [Ht|[]].
      replace t with (no_news molit_bot (clock w)) by congruence.
      apply no_news_nonempty.
    + remember (it0 :: rest) as items eqn:E.
      destruct (send_each_posts w molit_bot
                  (split_chunks (digest_lines molit_bot (clock w) (sort_newest_first items)))
                  st0) as (r1 & evs2 & -> & Hp).
      intros [= <- <-] Ha.
      pose proof (added_inj _ _ _ _ Ha (log_added _ st0)) as ->.
      intros t Ht. apply Hp in Ht.
      exact (split_chunks_digest_nonempty _ _ _ _ Ht).
Qed.

Lemma no_empty_message_witness :
  let run := main sample_world molit_bot fresh in
  exists t, In (Post t) (trace (snd run)) /\ t <> [].
Proof.
  intros run.
  set (t := hd [] (flat_map (fun e => match e with Post t => [t] | _ => [] end)
                            (trace (snd run)))).
  assert (Hin : In (Post t) (trace (snd run)))
    by (vm_compute; repeat (first [left; reflexivity|right])).
  exists t. split; [exact Hin|].
  exact (no_empty_message sample_world molit_bot fresh (snd run) (fst run)
           (trace (snd run)) (surjective_pairing _) eq_refl t Hin).
Defined.

(** The chunking loops on a first line that is over the budget on its
    own: they flush the chunk they have, which is empty.  [molit_bot.py]
    gets an empty first chunk, [molit_bot_now.py] posts an empty message
    before anything else. *)
Theorem oversized_first_line_gives_an_empty_chunk (w : World) (l : pystr)
    (rest : list pystr) (st : state) :
  CHUNK_BUDGET < len l + 1 ->
  (exists cs, split_chunks (l :: rest) = [] :: cs)
  /\ (configured w = true ->
      exists r st' evs,
        send_chunks w molit_bot_now (l :: rest) st = (r, st')
        /\ added st st' (Post [] :: evs)).
Proof.
  intros Hl. split.
  - unfold split_chunks. cbn [fold_left].
    replace (CHUNK_BUDGET <? 0 + len l + 1) with true by (symmetry; apply Z.ltb_lt; lia).
    set (P := fun g : list pystr => True).
    match goal with
    | |- context [fold_left _ rest (?chunks, ?cur, ?buf)] =>
        destruct (split_chunks_loop_inv P rest (fun _ _ _ => I) (fun _ _ => I)
                    chunks cur buf I) as (gs & cur' & buf' & -> & _)
    end.
    cbn [app join]. destruct cur'; eexists; reflexivity.
  - intros Hconf.
    unfold send_chunks. unfold bind at 1. cbn [for_in].
    unfold bind at 1. unfold bind at 1.
    replace (CHUNK_BUDGET <? 0 + len l + 1) with true by (symmetry; apply Z.ltb_lt; lia).
    unfold bind at 1.
    destruct (send_run w molit_bot_now (join NEWLINE []) st) as (r0 & st0 & Hs & Hc0 & Hcase).
    rewrite Hs. destruct Hcase as [(Hn & _)|(_ & Ha0)]; [congruence|].
    change (join NEWLINE []) with (@nil Z) in Ha0.
    destruct r0 as [[]|e]; [|exists (Raise e), st0, []; split; [reflexivity|exact Ha0]].
    unfold ret at 1. unfold ret at 1.
    set (P := fun g : list pystr => True).
    match goal with
    | |- context [for_in rest _ (?cur, ?buf) st0] =>
        destruct (send_chunks_loop_inv w molit_bot_now P rest (fun _ _ _ => I)
                    (fun _ _ => I) cur buf st0 I) as (gs1 & r1 & st1 & -> & Ha1 & _)
    end.
    destruct r1 as [[cur' buf']|e].
    + cbn [fst]. destruct cur' as [|l' cur'].
      * exists (Ok tt), st1, (map Post (map (join NEWLINE) gs1)).
        split; [reflexivity|exact (added_trans _ _ _ _ _ Ha0 Ha1)].
      * destruct (send_log w molit_bot_now (join NEWLINE (l' :: cur')) st1)
          as (r2 & evs2 & Hs2 & _).
        exists r2, (log evs2 st1), (map Post (map (join NEWLINE) gs1) ++ evs2).
        split; [exact Hs2|].
        exact (added_trans _ _ _ _ _ Ha0 (added_trans _ _ _ _ _ Ha1 (log_added _ st1))).
    + exists (Raise e), st1, (map Post (map (join NEWLINE) gs1)).
      split; [reflexivity|exact (added_trans _ _ _ _ _ Ha0 Ha1)].
Qed.

Lemma oversized_first_line_gives_an_empty_chunk_witness :
  exists cs, split_chunks [repeat 97 3500; py "next"] = [] :: cs.
Proof.
  apply (oversized_first_line_gives_an_empty_chunk sample_world (repeat 97 3500)
           [py "next"] fresh).
  vm_compute. reflexivity.
Defined.
